(** * psg-multilabel: the metrics pipeline ([src/metrics/pipeline.py])

    A shallow embedding of the checkpointed evaluation pipeline: the
    dataset catalog ([DatasetsLoader], [DatasetsLoaderNormalized]), the
    result repository ([MetricsPipelineRepository]) and the orchestrator
    ([MetricsPipeline.run]).

    Python objects are records; Python dicts are insertion-ordered
    association lists with [str] keys; statements that mutate objects,
    touch the disk, log or raise are actions of a state-and-exception monad
    in which the state survives a raised exception, as it does in Python. *)

From Stdlib Require Import List String ZArith QArith Qround Qabs Bool Lia.
From Stdlib Require Import DecimalString.
Import ListNotations.

Local Open Scope string_scope.
Local Open Scope list_scope.

(* ================================================================== *)
(** ** Python prelude *)

(** [str.endswith] *)
Definition endswith (s suffix : string) : bool :=
  let n := String.length s in
  let k := String.length suffix in
  (k <=? n)%nat && String.eqb (substring (n - k) k s) suffix.

(** [str(n)] of an [int], as an f-string formats it. *)
Definition str (n : Z) : string := NilZero.string_of_int (Z.to_int n).

(** A Python [dict] keyed by [str]: the items in insertion order.
    Assigning to a key that is present replaces the value where the key
    stands; assigning to a new key appends the item. *)
Module Dict.

Abbreviation t V := (list (string * V)) (only parsing).

Section Dict.
Context {V : Type}.

Definition empty : t V := [].

Definition items (d : t V) : list (string * V) := d.

Definition keys (d : t V) : list string := map fst d.

Definition len (d : t V) : nat := List.length d.

(** [d.get(k)]: the value of the first item under [k]. *)
Fixpoint get (k : string) (d : t V) : option V :=
  match d with
  | [] => None
  | (k', v) :: d' => if String.eqb k k' then Some v else get k d'
  end.

(** [k in d] *)
Definition contains (k : string) (d : t V) : bool :=
  match get k d with Some _ => true | None => false end.

(** [d[k] = v] *)
Fixpoint set (k : string) (v : V) (d : t V) : t V :=
  match d with
  | [] => [(k, v)]
  | (k', v') :: d' =>
      if String.eqb k k' then (k', v) :: d' else (k', v') :: set k v d'
  end.

(** The invariant of a Python dict: no key stands twice. *)
Definition wf (d : t V) : Prop := NoDup (keys d).

End Dict.
End Dict.

(* ================================================================== *)
(** ** Data model *)

(** Modelled from the spec: [EvaluationPipelineResult] is declared in
    [metrics/evaluation.py], which is not among the sources. The spec (§3,
    §8) gives it the fold-wise mean and standard deviation of accuracy,
    hamming loss and F1; [describe_dict] reads exactly these six entries of
    its [describe_json()]. [F] is the type of Python floats. *)
Record EvaluationPipelineResult (F : Type) : Type := mkResult {
  accuracy : F;
  accuracy_std : F;
  hamming_loss : F;
  hamming_loss_std : F;
  f1 : F;
  f1_std : F
}.
Arguments mkResult {F}.
Arguments accuracy {F}.
Arguments accuracy_std {F}.
Arguments hamming_loss {F}.
Arguments hamming_loss_std {F}.
Arguments f1 {F}.
Arguments f1_std {F}.

(** [RawEvaluationResults] ([metrics/types.py]): model name to dataset
    name to result. *)
Definition RawEvaluationResults (F : Type) : Type :=
  Dict.t (Dict.t (EvaluationPipelineResult F)).

(** Modelled from the spec: the flat table handled by
    [evaluation_results_to_flat_table] and [flat_table_to_evaluation_results]
    ([metrics/support.py], not among the sources). Spec §4.2: one row per
    (model, dataset) pair; the columns are the model identifier, the dataset
    identifier and, for each metric, its mean and its standard deviation. *)
Record Row (F : Type) : Type := mkRow {
  col_model : string;
  col_dataset : string;
  col_accuracy : F;
  col_accuracy_std : F;
  col_hamming_loss : F;
  col_hamming_loss_std : F;
  col_f1 : F;
  col_f1_std : F
}.
Arguments mkRow {F}.
Arguments col_model {F}.
Arguments col_dataset {F}.
Arguments col_accuracy {F}.
Arguments col_accuracy_std {F}.
Arguments col_hamming_loss {F}.
Arguments col_hamming_loss_std {F}.
Arguments col_f1 {F}.
Arguments col_f1_std {F}.

(** A [pandas.DataFrame] holding such a table: its rows in order. *)
Definition DataFrame (F : Type) : Type := list (Row F).

(** The types the pipeline takes from its collaborators: Python floats,
    models, feature and label matrices, the exceptions a collaborator
    raises, and what a file holds. *)
Class Types : Type := {
  float : Type;
  Model : Type;
  Features : Type;
  Labels : Type;
  ForeignError : Type;
  FileContent : Type
}.

(** The collaborators the pipeline calls but does not define: the builtin
    [round], the Dataset Source ([skmultilearn]), the scaler ([sklearn]),
    the Evaluator ([metrics.evaluation]) and the CSV codec of [pandas]. A
    collaborator that can raise returns [inl] of its exception. *)
Class Externals (T : Types) : Type := {
  round : float -> Z -> float;
  features_shape : Features -> nat * nat;
  labels_shape : Labels -> nat * nat;
  (** [load_dataset(name, variant)] and [load_from_arff(path, label_count)]:
      [None], or the tuple of which the loader keeps [X] and [y]. *)
  load_dataset : string -> string -> ForeignError + option (Features * Labels);
  load_from_arff : string -> Z -> ForeignError + option (Features * Labels);
  (** [MaxAbsScaler().fit_transform(X)] *)
  fit_transform : Features -> Features;
  (** [EvaluationPipeline(model, n_folds).run(X, y)] *)
  evaluation_run :
    Model -> Z -> Features -> Labels ->
    ForeignError + EvaluationPipelineResult float;
  (** [df.to_csv(path, index=False)] writes [to_csv df];
      [pd.read_csv(path)] parses what the file holds. *)
  to_csv : DataFrame float -> FileContent;
  read_csv : FileContent -> ForeignError + DataFrame float
}.

(** The fields of one progress record of [MetricsPipeline.run]. *)
Record LogFields : Type := mkLogFields {
  lf_model : string;
  lf_dataset : string;
  lf_n_folds : Z;
  lf_evaluation_index : nat;
  lf_total_evaluations : nat
}.

(** The messages the module logs or prints, by their format string. *)
Inductive Message : Type :=
| GettingMetrics               (* pipeline: getting metrics for all the models *)
| RunningEvaluation (f : LogFields)        (* running evaluation | {f} *)
| AlreadyEvaluated (f : LogFields)   (* dataset already evaluated, skipping | {f} *)
| EvaluationFinished (f : LogFields)       (* evaluation finished | {f} *)
| FinishedAllEvaluations       (* pipeline: finished running all evaluations *)
| GettingDataset (dataset_name : string)   (* getting dataset `{name}` *)
| FinishedGettingDatasets      (* finished getting all datasets *)
| FileDoesNotExist (path : string). (* file does not exist, creating new one: {path} *)

(** What a run does to the outside, in order. [Evaluated] records one call
    of the Evaluator, tagged with the pair it was called for; [Saved] one
    rewrite of the file at [path]. *)
Inductive Event : Type :=
| Info (m : Message)
| Warn (m : Message)
| Printed (m : Message)
| Evaluated (model_name dataset_name : string)
| Saved (path : string).

(** A value stored in a presentation row of [describe_dict]. *)
Inductive Cell (F : Type) : Type :=
| Str (s : string)
| Num (x : F).
Arguments Str {F}.
Arguments Num {F}.

(** A value stored in a summary of [DatasetsLoader.describe_json]: the
    name of a dataset or one of its counts. *)
Inductive InfoCell : Type :=
| Name (s : string)
| Count (n : nat).

(* ================================================================== *)
(** ** Objects and the machine state *)

Section Objects.
Context {T : Types}.

(** What a statement can raise. *)
Inductive PyError : Type :=
| Exception (msg : string)
| KeyError (key : string)
| FileNotFoundError (path : string)
| Foreign (e : ForeignError).

Inductive outcome (A : Type) : Type :=
| Ok (a : A)
| Raise (e : PyError).

(** One loaded dataset: the dict literal of [DatasetsLoader.load]. *)
Record DatasetInfo : Type := mkDatasetInfo {
  X : Features;
  y : Labels;
  rows : nat;
  features_count : nat;
  labels_count : nat
}.

Inductive LoaderClass : Type :=
| PlainLoader          (* class DatasetsLoader *)
| NormalizedLoader.    (* class DatasetsLoaderNormalized(DatasetsLoader) *)

Record DatasetsLoaderObj : Type := mkLoader {
  loader_class : LoaderClass;
  dataset_names : list string;
  loaded_datasets : Dict.t DatasetInfo
}.

Record RepositoryObj : Type := mkRepository {
  csv_file_path : string;
  raw_evaluation_results : RawEvaluationResults float;
  dataset : option (DataFrame float)
}.

Record EvaluationPipelineObj : Type := mkEvaluationPipeline {
  ep_model : Model;
  ep_n_folds : Z
}.

Record MetricsPipelineObj : Type := mkPipeline {
  models : Dict.t Model;
  n_folds : Z
}.

(** The repository and the catalog the pipeline refers to, the files on
    disk, and the events so far (oldest first). *)
Record State : Type := mkState {
  repository : RepositoryObj;
  datasets_loader : DatasetsLoaderObj;
  disk : string -> option FileContent;
  trace : list Event
}.

(** Statements: they read and change the state and return or raise. The
    state a statement reached when it raised is kept. *)
Definition M (A : Type) : Type := State -> outcome A * State.

Definition ret {A} (a : A) : M A := fun st => (Ok A a, st).

Definition bind {A B} (c : M A) (k : A -> M B) : M B :=
  fun st =>
    match c st with
    | (Ok _ a, st') => k a st'
    | (Raise _ e, st') => (Raise B e, st')
    end.

Definition raise {A} (e : PyError) : M A := fun st => (Raise A e, st).

Definition get_state : M State := fun st => (Ok State st, st).

Definition put_state (st : State) : M unit := fun _ => (Ok unit tt, st).

End Objects.

Arguments Ok {T A}.
Arguments Raise {T A}.

Declare Scope py_scope.
Delimit Scope py_scope with py.
Notation "x <- c ;; k" := (bind c (fun x => k))
  (at level 61, c at next level, right associativity) : py_scope.
Notation "' pat <- c ;; k" := (bind c (fun x => match x with pat => k end))
  (at level 61, pat pattern, c at next level, right associativity) : py_scope.
Notation "c ;; k" := (bind c (fun _ => k))
  (at level 61, right associativity) : py_scope.
Local Open Scope py_scope.

Section Statements.
Context {T : Types} {Ext : Externals T}.

(** [for x in xs: body], where [acc] stands for the local variables the
    body assigns to. [continue] is the body returning. *)
Fixpoint for_each {A L : Type} (xs : list A) (body : A -> L -> M L) (acc : L)
  : M L :=
  match xs with
  | [] => ret acc
  | x :: xs' => acc' <- body x acc ;; for_each xs' body acc'
  end.

Definition emit (e : Event) : M unit :=
  fun st => (Ok tt, mkState (repository st) (datasets_loader st) (disk st)
                            (trace st ++ [e])).

Definition logging_info (m : Message) : M unit := emit (Info m).
Definition logging_warn (m : Message) : M unit := emit (Warn m).
Definition print (m : Message) : M unit := emit (Printed m).

(** Lift a collaborator's result. *)
Definition call {A} (r : ForeignError + A) : M A :=
  match r with
  | inl e => raise (Foreign e)
  | inr a => ret a
  end.

(** [os.path.exists(path)] *)
Definition os_path_exists (path : string) : M bool :=
  fun st => (Ok (match disk st path with Some _ => true | None => false end), st).

(** [pd.read_csv(path)] *)
Definition pd_read_csv (path : string) : M (DataFrame float) :=
  st <- get_state ;;
  match disk st path with
  | None => raise (FileNotFoundError path)
  | Some content => call (read_csv content)
  end.

(** [df.to_csv(path, index=False)]: the file is rewritten whole. *)
Definition df_to_csv (df : DataFrame float) (path : string) : M unit :=
  st <- get_state ;;
  put_state (mkState (repository st) (datasets_loader st)
               (fun p => if String.eqb p path then Some (to_csv df) else disk st p)
               (trace st)) ;;
  emit (Saved path).

(** [d[k]] on a dict that may lack [k]. *)
Definition getitem {V} (d : Dict.t V) (k : string) : M V :=
  match Dict.get k d with
  | Some v => ret v
  | None => raise (KeyError k)
  end.

End Statements.

(* ================================================================== *)
(** ** [metrics.support]: the flat table *)

Section FlatTable.
Context {F : Type}.

Definition row_of (model_name dataset_name : string)
  (r : EvaluationPipelineResult F) : Row F :=
  mkRow model_name dataset_name
        (accuracy r) (accuracy_std r)
        (hamming_loss r) (hamming_loss_std r)
        (f1 r) (f1_std r).

Definition result_of_row (row : Row F) : EvaluationPipelineResult F :=
  mkResult (col_accuracy row) (col_accuracy_std row)
           (col_hamming_loss row) (col_hamming_loss_std row)
           (col_f1 row) (col_f1_std row).

(** Lines 219-222 of [add_result], on the store itself. *)
Definition insert_result (model_name dataset_name : string)
  (result : EvaluationPipelineResult F) (raw : RawEvaluationResults F)
  : RawEvaluationResults F :=
  let raw :=
    if negb (Dict.contains model_name raw)
    then Dict.set model_name Dict.empty raw
    else raw in
  match Dict.get model_name raw with
  | Some model_results =>
      Dict.set model_name (Dict.set dataset_name result model_results) raw
  | None => raw
  end.

(** Lines 225-231 of [result_already_exists], on the store itself. *)
Definition has_result (model_name dataset_name : string)
  (raw : RawEvaluationResults F) : bool :=
  if negb (Dict.contains model_name raw) then false
  else
    match Dict.get model_name raw with
    | Some model_results =>
        if negb (Dict.contains dataset_name model_results) then false
        else true
    | None => false
    end.

(** [raw[model_name][dataset_name]], when both keys are present. *)
Definition lookup_result (model_name dataset_name : string)
  (raw : RawEvaluationResults F) : option (EvaluationPipelineResult F) :=
  match Dict.get model_name raw with
  | Some model_results => Dict.get dataset_name model_results
  | None => None
  end.

(** The (model, dataset) pairs of a store, in iteration order. *)
Definition pairs_of (raw : RawEvaluationResults F) : list (string * string) :=
  flat_map (fun '(model_name, model_results) =>
              map (fun '(dataset_name, _) => (model_name, dataset_name))
                  model_results)
           raw.

(** Modelled from the spec: [evaluation_results_to_flat_table] of
    [metrics/support.py] (not among the sources), one row per pair. *)
Definition evaluation_results_to_flat_table (raw : RawEvaluationResults F)
  : DataFrame F :=
  flat_map (fun '(model_name, model_results) =>
              map (fun '(dataset_name, result) =>
                     row_of model_name dataset_name result)
                  model_results)
           raw.

(** Modelled from the spec: [flat_table_to_evaluation_results] of
    [metrics/support.py] (not among the sources), which rebuilds the nested
    mapping row by row. *)
Definition flat_table_to_evaluation_results (df : DataFrame F)
  : RawEvaluationResults F :=
  fold_left (fun raw row =>
               insert_result (col_model row) (col_dataset row)
                             (result_of_row row) raw)
            df Dict.empty.

(** Keys are unique at both levels of a store. *)
Definition wf_store (raw : RawEvaluationResults F) : Prop :=
  Dict.wf raw /\ Forall (fun item => Dict.wf (snd item)) raw.

(** The store without the models that are mapped to an empty dict. *)
Definition drop_empty_models (raw : RawEvaluationResults F)
  : RawEvaluationResults F :=
  filter (fun item => match snd item with [] => false | _ => true end) raw.

(** No model is mapped to an empty dict. *)
Definition no_empty_model (raw : RawEvaluationResults F) : Prop :=
  Forall (fun item => snd item <> []) raw.

End FlatTable.

(* ================================================================== *)
(** ** [class MetricsPipelineRepository] *)

Module MetricsPipelineRepository.
Section Methods.
Context {T : Types} {Ext : Externals T}.

Definition self : M RepositoryObj :=
  fun st => (Ok (repository st), st).

Definition set_raw_evaluation_results (raw : RawEvaluationResults float)
  : M unit :=
  fun st =>
    (Ok tt,
     mkState (mkRepository (csv_file_path (repository st)) raw
                           (dataset (repository st)))
             (datasets_loader st) (disk st) (trace st)).

Definition load_from_file : M unit :=
  this <- self ;;
  if negb (endswith (csv_file_path this) ".csv")
  then raise (Exception "only CSV files are supported")
  else
    file_exists <- os_path_exists (csv_file_path this) ;;
    if negb file_exists
    then logging_warn (FileDoesNotExist (csv_file_path this))
    else
      df <- pd_read_csv (csv_file_path this) ;;
      set_raw_evaluation_results (flat_table_to_evaluation_results df).

(** [__init__(csv_file_path, dataset=None)] *)
Definition init (path : string) (dataset : option (DataFrame float))
  : M unit :=
  (fun st =>
     (Ok tt,
      mkState (mkRepository path Dict.empty dataset)
              (datasets_loader st) (disk st) (trace st))) ;;
  match dataset with
  | None => load_from_file
  | Some _ => ret tt
  end.

Definition save_to_file : M unit :=
  this <- self ;;
  let df := evaluation_results_to_flat_table (raw_evaluation_results this) in
  df_to_csv df (csv_file_path this).

Definition add_result (model_name dataset_name : string)
  (result : EvaluationPipelineResult float) : M unit :=
  this <- self ;;
  set_raw_evaluation_results
    (insert_result model_name dataset_name result
                   (raw_evaluation_results this)).

Definition result_already_exists (model_name dataset_name : string) : M bool :=
  this <- self ;;
  ret (has_result model_name dataset_name (raw_evaluation_results this)).

(** Modelled from the spec: [EvaluationPipelineResult.describe_json]
    ([metrics/evaluation.py], not among the sources), the six entries
    [describe_dict] reads from it. *)
Definition describe_json (result : EvaluationPipelineResult float)
  : Dict.t float :=
  [ ("accuracy", accuracy result);
    ("accuracy_std", accuracy_std result);
    ("hamming_loss", hamming_loss result);
    ("hamming_loss_std", hamming_loss_std result);
    ("f1", f1 result);
    ("f1_std", f1_std result) ].

(** The body of the inner loop of [describe_dict] (lines 243-255). *)
Definition describe_one (model_name dataset_name : string)
  (result : EvaluationPipelineResult float) (results : list (Dict.t (Cell float)))
  : M (list (Dict.t (Cell float))) :=
  let json_result := describe_json result in
  v_accuracy <- getitem json_result "accuracy" ;;
  v_accuracy_std <- getitem json_result "accuracy_std" ;;
  v_hamming_loss <- getitem json_result "hamming_loss" ;;
  v_hamming_loss_std <- getitem json_result "hamming_loss_std" ;;
  v_f1 <- getitem json_result "f1" ;;
  v_f1_std <- getitem json_result "f1_std" ;;
  let structured_information : Dict.t (Cell float) :=
    [ ("model", Str model_name);
      ("dataset", Str dataset_name);
      ("accuracy", Num (round v_accuracy 4));
      ("accuracy_std", Num (round v_accuracy_std 4));
      ("hamming_loss", Num (round v_hamming_loss 4));
      ("hamming_loss_std", Num (round v_hamming_loss_std 4));
      ("f1", Num (round v_f1 4));
      ("f1_std", Num (round v_f1_std 4)) ] in
  ret (results ++ [structured_information]).

Definition describe_dict : M (list (Dict.t (Cell float))) :=
  this <- self ;;
  for_each (Dict.items (raw_evaluation_results this))
    (fun '(model_name, model_results) results =>
       for_each (Dict.items model_results)
         (fun '(dataset_name, result) results =>
            describe_one model_name dataset_name result results)
         results)
    [].

End Methods.
End MetricsPipelineRepository.

(* ================================================================== *)
(** ** [class DatasetsLoader] *)

Module DatasetsLoader.
Section Methods.
Context {T : Types} {Ext : Externals T}.

Definition self : M DatasetsLoaderObj :=
  fun st => (Ok (datasets_loader st), st).

Definition set_loaded_datasets (loaded : Dict.t DatasetInfo) : M unit :=
  fun st =>
    (Ok tt,
     mkState (repository st)
             (mkLoader (loader_class (datasets_loader st))
                       (dataset_names (datasets_loader st)) loaded)
             (disk st) (trace st)).

(** [__init__(dataset_names)] *)
Definition init (cls : LoaderClass) (names : list string) : M unit :=
  fun st =>
    (Ok tt,
     mkState (repository st) (mkLoader cls names Dict.empty)
             (disk st) (trace st)).

(** [self.loaded_datasets[dataset_name] = { "X": X, "y": y, ... }] *)
Definition store_dataset (dataset_name : string) (X : Features) (y : Labels)
  : M unit :=
  this <- self ;;
  set_loaded_datasets
    (Dict.set dataset_name
       (mkDatasetInfo X y (fst (features_shape X)) (snd (features_shape X))
                      (snd (labels_shape y)))
       (loaded_datasets this)).

(** The body of the loop of [DatasetsLoader.load] (lines 82-112). *)
Definition load_one (dataset_name : string) (_ : unit) : M unit :=
  print (GettingDataset dataset_name) ;;
  if endswith dataset_name ".arff" then
    full_dataset <- call (load_from_arff dataset_name 5) ;;
    match full_dataset with
    | None => raise (Exception ("dataset `" ++ dataset_name ++ "` not found"))
    | Some (X, y) =>
        let X := fit_transform X in
        store_dataset dataset_name X y
    end
  else
    full_dataset <- call (load_dataset dataset_name "undivided") ;;
    match full_dataset with
    | None => raise (Exception ("dataset `" ++ dataset_name ++ "` not found"))
    | Some (X, y) => store_dataset dataset_name X y
    end.

Definition load : M unit :=
  set_loaded_datasets Dict.empty ;;
  this <- self ;;
  for_each (dataset_names this) load_one tt ;;
  logging_info FinishedGettingDatasets.

Definition list_datasets : M (Dict.t DatasetInfo) :=
  this <- self ;;
  if (Dict.len (loaded_datasets this) =? 0)%nat
  then raise (Exception "no datasets loaded")
  else ret (loaded_datasets this).

Definition describe_json : M (list (Dict.t InfoCell)) :=
  this <- self ;;
  for_each (Dict.items (loaded_datasets this))
    (fun '(name, info) results =>
       let structured_information : Dict.t InfoCell :=
         [ ("dataset", Name name);
           ("rows", Count (rows info));
           ("features_count", Count (features_count info));
           ("labels_count", Count (labels_count info)) ] in
       ret (results ++ [structured_information]))
    [].

End Methods.
End DatasetsLoader.

(** ** [class DatasetsLoaderNormalized(DatasetsLoader)] *)

Module DatasetsLoaderNormalized.
Section Methods.
Context {T : Types} {Ext : Externals T}.

(** The body of the loop of [DatasetsLoaderNormalized.load]
    (lines 146-181). *)
Definition load_one (dataset_name : string) (_ : unit) : M unit :=
  print (GettingDataset dataset_name) ;;
  if endswith dataset_name ".arff" then
    full_dataset <- call (load_from_arff dataset_name 5) ;;
    match full_dataset with
    | None => raise (Exception ("dataset `" ++ dataset_name ++ "` not found"))
    | Some (X, y) =>
        let X := fit_transform X in
        DatasetsLoader.store_dataset dataset_name X y
    end
  else
    full_dataset <- call (load_dataset dataset_name "undivided") ;;
    match full_dataset with
    | None => raise (Exception ("dataset `" ++ dataset_name ++ "` not found"))
    | Some (X, y) =>
        let X := fit_transform X in
        DatasetsLoader.store_dataset dataset_name X y
    end.

Definition load : M unit :=
  DatasetsLoader.set_loaded_datasets Dict.empty ;;
  this <- DatasetsLoader.self ;;
  for_each (dataset_names this) load_one tt ;;
  logging_info FinishedGettingDatasets.

End Methods.
End DatasetsLoaderNormalized.

(* ================================================================== *)
(** ** [class EvaluationPipeline] and [class MetricsPipeline] *)

Module EvaluationPipeline.
Section Methods.
Context {T : Types} {Ext : Externals T}.

(** [evaluation_pipeline.run(X, y)]: one call of the Evaluator, recorded
    under the pair it is made for. *)
Definition run (this : EvaluationPipelineObj) (model_name dataset_name : string)
  (X : Features) (y : Labels) : M (EvaluationPipelineResult float) :=
  emit (Evaluated model_name dataset_name) ;;
  call (evaluation_run (ep_model this) (ep_n_folds this) X y).

End Methods.
End EvaluationPipeline.

Module MetricsPipeline.
Section Methods.
Context {T : Types} {Ext : Externals T}.

(** [self.datasets_loader.load()], by the class of the catalog. *)
Definition datasets_loader_load : M unit :=
  loader <- DatasetsLoader.self ;;
  match loader_class loader with
  | PlainLoader => DatasetsLoader.load
  | NormalizedLoader => DatasetsLoaderNormalized.load
  end.

(** Lines 30-41 of [run]: everything before the loops. *)
Definition run_setup (this : MetricsPipelineObj)
  : M (Dict.t DatasetInfo) :=
  logging_info GettingMetrics ;;
  MetricsPipelineRepository.load_from_file ;;
  datasets_loader_load ;;
  DatasetsLoader.list_datasets.

(** Lines 48-68 of [run]: the body of the inner loop, for one pair. *)
Definition run_one (this : MetricsPipelineObj) (total_evaluations : nat)
  (model_name : string) (evaluation_pipeline : EvaluationPipelineObj)
  (dataset_name : string) (info : DatasetInfo) (evaluation_index : nat)
  : M nat :=
  let evaluation_index := (evaluation_index + 1)%nat in
  let log_fields :=
    mkLogFields model_name dataset_name (n_folds this)
                evaluation_index total_evaluations in
  logging_info (RunningEvaluation log_fields) ;;
  already <- MetricsPipelineRepository.result_already_exists
               model_name dataset_name ;;
  if already then
    logging_info (AlreadyEvaluated log_fields) ;;
    ret evaluation_index
  else
    result <- EvaluationPipeline.run evaluation_pipeline
                model_name dataset_name (X info) (y info) ;;
    MetricsPipelineRepository.add_result model_name dataset_name result ;;
    MetricsPipelineRepository.save_to_file ;;
    logging_info (EvaluationFinished log_fields) ;;
    ret evaluation_index.

(** Lines 44-68 of [run]: the two nested loops. *)
Definition run_loop (this : MetricsPipelineObj)
  (datasets : Dict.t DatasetInfo) (total_evaluations : nat) : M nat :=
  for_each (Dict.items (models this))
    (fun '(model_name, model) evaluation_index =>
       let evaluation_pipeline := mkEvaluationPipeline model (n_folds this) in
       for_each (Dict.items datasets)
         (fun '(dataset_name, info) evaluation_index =>
            run_one this total_evaluations model_name evaluation_pipeline
                    dataset_name info evaluation_index)
         evaluation_index)
    0%nat.

Definition run (this : MetricsPipelineObj) : M unit :=
  datasets <- run_setup this ;;
  let total_datasets := Dict.len datasets in
  let total_models := Dict.len (models this) in
  let total_evaluations := (total_datasets * total_models)%nat in
  run_loop this datasets total_evaluations ;;
  logging_info FinishedAllEvaluations.

End Methods.
End MetricsPipeline.

(* ================================================================== *)
(** ** [main.py]: the constants and the builders *)

Module Main.
Section Builders.
Context {T : Types} {Ext : Externals T}.

Definition N_FOLDS : Z := 10.

Definition BASE_FILE_NAME : string :=
  "knn_normalized_n_folds=" ++ str N_FOLDS.

Definition PIPELINE_RESULTS_FILE : string :=
  "./data/metrics_" ++ BASE_FILE_NAME ++ ".csv".

Definition SUMMARIZED_RESULTS_FILE : string :=
  "./data/summarized_result_" ++ BASE_FILE_NAME ++ ".csv".

Definition build_repository : M unit :=
  MetricsPipelineRepository.init PIPELINE_RESULTS_FILE None.

Definition build_dataset_loader : M unit :=
  DatasetsLoader.init NormalizedLoader
    [ "birds"; "emotions"; "scene";
      "yeast"; "enron"; "genbase"; "medical";
      "tmc2007_500" ].

End Builders.
End Main.

(* ================================================================== *)
(** ** Observations on states and traces *)

Section Observations.
Context {T : Types} {Ext : Externals T}.

Definition raw_of (st : State) : RawEvaluationResults float :=
  raw_evaluation_results (repository st).

Definition path_of (st : State) : string := csv_file_path (repository st).

Definition loaded_of (st : State) : Dict.t DatasetInfo :=
  loaded_datasets (datasets_loader st).

(** The pairs the Evaluator was called for, in order. *)
Definition evaluator_calls (tr : list Event) : list (string * string) :=
  flat_map (fun e => match e with
                     | Evaluated model_name dataset_name =>
                         [(model_name, dataset_name)]
                     | _ => []
                     end) tr.

(** The paths [save_to_file] rewrote, in order. *)
Definition saves (tr : list Event) : list string :=
  flat_map (fun e => match e with Saved path => [path] | _ => [] end) tr.

(** [st] after one more event. *)
Definition logged (e : Event) (st : State) : State :=
  mkState (repository st) (datasets_loader st) (disk st) (trace st ++ [e]).

(** [st] after [self.loaded_datasets = {}]. *)
Definition cleared (st : State) : State :=
  mkState (repository st)
          (mkLoader (loader_class (datasets_loader st))
                    (dataset_names (datasets_loader st)) Dict.empty)
          (disk st) (trace st).

(** [st] after [self.raw_evaluation_results = raw]. *)
Definition with_raw (raw : RawEvaluationResults float) (st : State) : State :=
  mkState (mkRepository (path_of st) raw (dataset (repository st)))
          (datasets_loader st) (disk st) (trace st).

(** [st] after [save_to_file()]. *)
Definition saved (st : State) : State :=
  mkState (repository st) (datasets_loader st)
          (fun p => if String.eqb p (path_of st)
                    then Some (to_csv (evaluation_results_to_flat_table
                                         (raw_of st)))
                    else disk st p)
          (trace st ++ [Saved (path_of st)]).

(** The state one pass through the loop body leaves when the pair is
    already stored (lines 58-62). *)
Definition skipped (f : LogFields) (st : State) : State :=
  mkState (repository st) (datasets_loader st) (disk st)
          (trace st ++ [Info (RunningEvaluation f); Info (AlreadyEvaluated f)]).

(** The state it leaves when the Evaluator returns [result]
    (lines 58-68). *)
Definition evaluated (f : LogFields) (result : EvaluationPipelineResult float)
  (st : State) : State :=
  let raw := insert_result (lf_model f) (lf_dataset f) result (raw_of st) in
  mkState (mkRepository (path_of st) raw (dataset (repository st)))
          (datasets_loader st)
          (fun p => if String.eqb p (path_of st)
                    then Some (to_csv (evaluation_results_to_flat_table raw))
                    else disk st p)
          (trace st ++ [Info (RunningEvaluation f);
                        Evaluated (lf_model f) (lf_dataset f);
                        Saved (path_of st);
                        Info (EvaluationFinished f)]).

(** The state it leaves when the Evaluator raises (lines 58-64). *)
Definition failed (f : LogFields) (st : State) : State :=
  mkState (repository st) (datasets_loader st) (disk st)
          (trace st ++ [Info (RunningEvaluation f);
                        Evaluated (lf_model f) (lf_dataset f)]).

(** The loop of [MetricsPipeline.run] over an explicit list of pairs. *)
Definition run_pairs (this : MetricsPipelineObj) (total_evaluations : nat)
  (pairs : list ((string * Model) * (string * DatasetInfo)))
  (evaluation_index : nat) : M nat :=
  for_each pairs
    (fun '((model_name, model), (dataset_name, info)) evaluation_index =>
       MetricsPipeline.run_one this total_evaluations model_name
         (mkEvaluationPipeline model (n_folds this))
         dataset_name info evaluation_index)
    evaluation_index.

(** What the loop over [ps], started in [st], has done when it leaves
    [st'] with outcome [o]: the repository keeps its path and the catalog is
    untouched; the trace grew by [delta]; stored results stay as they are;
    the Evaluator was called only for pairs of [ps] that were not stored;
    without a save neither the disk nor the store changed, and after a save
    the file holds the table of the store; if the loop returned, every
    call was followed by a save and every pair called for is stored; if it
    raised, the last call was not followed by a save. *)
Definition progress (ps : list ((string * Model) * (string * DatasetInfo)))
  (st : State) (o : outcome nat) (st' : State) : Prop :=
  path_of st' = path_of st /\
  datasets_loader st' = datasets_loader st /\
  exists delta,
    trace st' = trace st ++ delta /\
    (forall m d r, lookup_result m d (raw_of st) = Some r ->
                   lookup_result m d (raw_of st') = Some r) /\
    (forall m d, In (m, d) (evaluator_calls delta) ->
       has_result m d (raw_of st) = false /\
       exists model info, In ((m, model), (d, info)) ps) /\
    (saves delta = [] -> disk st' = disk st /\ raw_of st' = raw_of st) /\
    (saves delta <> [] ->
       disk st' (path_of st) =
       Some (to_csv (evaluation_results_to_flat_table (raw_of st')))) /\
    (forall idx, o = Ok idx ->
       List.length (saves delta) = List.length (evaluator_calls delta) /\
       forall m d, In (m, d) (evaluator_calls delta) ->
                   has_result m d (raw_of st') = true) /\
    (forall e, o = Raise e ->
       List.length (evaluator_calls delta) = S (List.length (saves delta))).

(** The row [describe_dict] presents for one row of the flat table. *)
Definition presented (row : Row float) : Dict.t (Cell float) :=
  [ ("model", Str (col_model row));
    ("dataset", Str (col_dataset row));
    ("accuracy", Num (round (col_accuracy row) 4));
    ("accuracy_std", Num (round (col_accuracy_std row) 4));
    ("hamming_loss", Num (round (col_hamming_loss row) 4));
    ("hamming_loss_std", Num (round (col_hamming_loss_std row) 4));
    ("f1", Num (round (col_f1 row) 4));
    ("f1_std", Num (round (col_f1_std row) 4)) ].

(** What a catalog of class [cls] fetches for one identifier: the entry it
    stores, or the exception it raises. *)
Definition entry_of (X : Features) (y : Labels) : DatasetInfo :=
  mkDatasetInfo X y (fst (features_shape X)) (snd (features_shape X))
                (snd (labels_shape y)).

Definition not_found (dataset_name : string) : PyError :=
  Exception ("dataset `" ++ dataset_name ++ "` not found").

Definition fetch (cls : LoaderClass) (dataset_name : string)
  : outcome DatasetInfo :=
  let arff := endswith dataset_name ".arff" in
  match (if arff then load_from_arff dataset_name 5
         else load_dataset dataset_name "undivided") with
  | inl e => Raise (Foreign e)
  | inr None => Raise (not_found dataset_name)
  | inr (Some (X, y)) =>
      match cls with
      | PlainLoader =>
          Ok (entry_of (if arff then fit_transform X else X) y)
      | NormalizedLoader => Ok (entry_of (fit_transform X) y)
      end
  end.

(** The loop body shared by the two [load] methods, over [fetch]. *)
Definition load_step (cls : LoaderClass) (dataset_name : string) (_ : unit)
  : M unit :=
  print (GettingDataset dataset_name) ;;
  match fetch cls dataset_name with
  | Ok info =>
      this <- DatasetsLoader.self ;;
      DatasetsLoader.set_loaded_datasets
        (Dict.set dataset_name info (loaded_datasets this))
  | Raise e => raise e
  end.




(** The identifiers of [names] in the order of their first occurrence. *)
Definition first_occurrences (names : list string) : list string :=
  fold_left (fun seen name =>
               if existsb (String.eqb name) seen then seen
               else seen ++ [name])
            names [].

(** The [evaluation_index] of the "running evaluation" records of a
    trace, in order. *)
Definition running_indices (tr : list Event) : list nat :=
  flat_map (fun e => match e with
                     | Info (RunningEvaluation f) => [lf_evaluation_index f]
                     | _ => []
                     end) tr.

(** The identifiers [load] printed, in order. *)
Definition printed_datasets (tr : list Event) : list string :=
  flat_map (fun e => match e with
                     | Printed (GettingDataset name) => [name]
                     | _ => []
                     end) tr.

(** What the Dataset Source returns for an identifier. *)
Definition source (dataset_name : string)
  : ForeignError + option (Features * Labels) :=
  if endswith dataset_name ".arff" then load_from_arff dataset_name 5
  else load_dataset dataset_name "undivided".

End Observations.

(* ================================================================== *)
(** ** A concrete world

    Exact rationals for floats, a two-dataset corpus and one attribute
    file for the Dataset Source, a scaler that divides each column by its
    largest absolute value, an Evaluator that fails for one model, and a
    disk that stores the table it is given. *)

Module Lab.

(** Round half to even, to the nearest integer. *)
Definition round_half_even (q : Q) : Z :=
  let fl := Qfloor q in
  match Qcompare (q - inject_Z fl) (1 # 2) with
  | Lt => fl
  | Gt => (fl + 1)%Z
  | Eq => if Z.even fl then fl else (fl + 1)%Z
  end.

(** [round(q, ndigits)] on exact values. *)
Definition round_digits (q : Q) (ndigits : Z) : Q :=
  if (0 <=? ndigits)%Z then
    Qred (inject_Z (round_half_even (q * inject_Z (10 ^ ndigits)))
          / inject_Z (10 ^ ndigits))
  else
    Qred (inject_Z (round_half_even (q / inject_Z (10 ^ (- ndigits))))
          * inject_Z (10 ^ (- ndigits))).

Definition matrix : Type := list (list Q).

Definition shape (m : matrix) : nat * nat :=
  (List.length m, match m with [] => 0%nat | r :: _ => List.length r end).

Definition Qmax (a b : Q) : Q := if Qle_bool a b then b else a.

(** The largest absolute value of column [j]. *)
Definition column_max_abs (m : matrix) (j : nat) : Q :=
  fold_left (fun acc r => Qmax acc (Qabs (nth j r 0%Q))) m 0%Q.

(** Each column divided by its largest absolute value; a column of zeros
    is left as it is. *)
Definition max_abs_scale (m : matrix) : matrix :=
  map (fun r =>
         map (fun '(j, x) =>
                let s := column_max_abs m j in
                if Qeq_bool s 0 then Qred x else Qred (x / s))
             (combine (seq 0 (List.length r)) r))
      m.

Definition emotions_X : matrix := [[2; -4]; [1; 8]]%Q.
Definition emotions_y : matrix := [[1; 0; 1]; [0; 1; 1]]%Q.
Definition scene_X : matrix := [[1 # 2; 1]; [1 # 4; -1]]%Q.
Definition scene_y : matrix := [[1; 0]; [0; 1]]%Q.
Definition ariane_X : matrix := [[3; 0]; [-6; 0]]%Q.
Definition ariane_y : matrix := [[1; 1; 0; 0; 1]; [0; 0; 0; 1; 1]]%Q.

Definition corpus (name variant : string) : string + option (matrix * matrix) :=
  if String.eqb name "emotions" then inr (Some (emotions_X, emotions_y))
  else if String.eqb name "scene" then inr (Some (scene_X, scene_y))
  else if String.eqb name "offline" then inl "ConnectionError"
  else inr None.

Definition arff_files (path : string) (label_count : Z)
  : string + option (matrix * matrix) :=
  if String.eqb path "./data/ariane.arff"
  then inr (Some (ariane_X, ariane_y))
  else inl "FileNotFoundError".

(** Models are named by a string; the model [flaky] cannot be fitted. *)
Definition evaluator (model : string) (n_folds : Z) (X y : matrix)
  : string + EvaluationPipelineResult Q :=
  if String.eqb model "flaky" then inl "ValueError"
  else
    let n := inject_Z (Z.of_nat (List.length X + String.length model)) in
    inr (mkResult (Qred (n / 3)) (Qred (1 # 30000))
                  (Qred (n / 7)) (Qred (1 # 7))
                  (Qred (2 # 3)) (Qred (123456 # 1000000))).

#[local] Instance types : Types := {|
  float := Q;
  Model := string;
  Features := matrix;
  Labels := matrix;
  ForeignError := string;
  FileContent := DataFrame Q
|}.

#[local] Instance world : Externals types := {|
  round := round_digits;
  features_shape := shape;
  labels_shape := shape;
  load_dataset := corpus;
  load_from_arff := arff_files;
  fit_transform := max_abs_scale;
  evaluation_run := evaluator;
  to_csv := fun df => df;
  read_csv := fun content => inr content
|}.

(** The same world with a corpus that resolves every name. *)
Definition full_corpus : Externals types := {|
  round := round_digits;
  features_shape := shape;
  labels_shape := shape;
  load_dataset := fun _ _ => inr (Some (emotions_X, emotions_y));
  load_from_arff := arff_files;
  fit_transform := max_abs_scale;
  evaluation_run := evaluator;
  to_csv := fun df => df;
  read_csv := fun content => inr content
|}.

Definition loader (cls : LoaderClass) (names : list string) : DatasetsLoaderObj :=
  mkLoader cls names Dict.empty.

(** A process that has just built its repository for [path] and its
    catalog, on a disk with no file. *)
Definition boot (path : string) (cls : LoaderClass) (names : list string)
  : State :=
  mkState (mkRepository path Dict.empty None) (loader cls names)
          (fun _ => None) [].

Definition result_a : EvaluationPipelineResult Q :=
  mkResult (2 # 3) (1 # 30000) (2 # 7) (1 # 7) (2 # 3) (15432 # 125000).

Definition result_b : EvaluationPipelineResult Q :=
  mkResult (1 # 3) (1 # 8) (5 # 7) (0 # 1) (1 # 1) (1 # 16).

Definition store_ab : RawEvaluationResults Q :=
  [ ("knn", [("emotions", result_a); ("scene", result_b)]);
    ("chain", [("emotions", result_b)]) ].

(** A process whose repository holds [raw] in memory, with no file. *)
Definition holding (raw : RawEvaluationResults Q) (cls : LoaderClass)
  (names : list string) : State :=
  mkState (mkRepository "metrics.csv" raw None) (loader cls names)
          (fun _ => None) [].

(** A process started on a disk where an earlier run saved [raw]. *)
Definition resumed (raw : RawEvaluationResults Q) (cls : LoaderClass)
  (names : list string) : State :=
  mkState (mkRepository "metrics.csv" Dict.empty None) (loader cls names)
          (fun p => if String.eqb p "metrics.csv"
                    then Some (evaluation_results_to_flat_table raw)
                    else None)
          [].


Definition two_models : MetricsPipelineObj :=
  mkPipeline [("knn", "knn"); ("chain", "chain")] 10.

Definition with_flaky : MetricsPipelineObj :=
  mkPipeline [("knn", "knn"); ("flaky", "flaky"); ("chain", "chain")] 10.

End Lab.

(* ================================================================== *)
(** * Properties *)

(** ** Python dicts *)

Section DictFacts.
Context {V : Type}.
Implicit Types (d : Dict.t V) (k : string) (v : V).
Import Dict.

Lemma get_set_same k v d : get k (set k v d) = Some v.
Proof.
  induction d as [|[k' v'] d IH]; simpl.
  - now rewrite String.eqb_refl.
  - destruct (String.eqb k k') eqn:E; simpl; rewrite E; auto.
Qed.

Lemma get_set_other k k' v d : k <> k' -> get k' (set k v d) = get k' d.
Proof.
  intros Hne. induction d as [|[k0 v0] d IH]; simpl.
  - destruct (String.eqb_spec k' k); congruence.
  - destruct (String.eqb_spec k k0) as [Hk|Hk]; simpl.
    + destruct (String.eqb_spec k' k0); congruence.
    + now rewrite IH.
Qed.

Lemma contains_set_same k v d : contains k (set k v d) = true.
Proof. unfold contains. now rewrite get_set_same. Qed.

Lemma contains_set_other k k' v d :
  k <> k' -> contains k' (set k v d) = contains k' d.
Proof. intros H. unfold contains. now rewrite get_set_other. Qed.

Lemma contains_In k d : contains k d = true <-> In k (keys d).
Proof.
  unfold contains. induction d as [|[k' v'] d IH]; simpl.
  - split; [discriminate | tauto].
  - destruct (String.eqb_spec k k') as [->|Hk].
    + split; auto.
    + rewrite IH. split; [auto | intros [H|H]; congruence].
Qed.

Lemma contains_false_not_In k d : contains k d = false <-> ~ In k (keys d).
Proof.
  rewrite <- contains_In. destruct (contains k d); split; congruence.
Qed.

Lemma get_None_contains k d : get k d = None <-> contains k d = false.
Proof. unfold contains. destruct (get k d); split; congruence. Qed.

(** A new key goes to the end, a known key keeps its place. *)
Lemma set_new k v d : contains k d = false -> set k v d = d ++ [(k, v)].
Proof.
  unfold contains. induction d as [|[k' v'] d IH]; simpl; intros H.
  - reflexivity.
  - destruct (String.eqb k k'); [discriminate | now rewrite IH].
Qed.

Lemma keys_set_known k v d : contains k d = true -> keys (set k v d) = keys d.
Proof.
  unfold contains. induction d as [|[k' v'] d IH]; simpl; intros H.
  - discriminate.
  - destruct (String.eqb k k'); simpl; [reflexivity | now rewrite IH].
Qed.

Lemma keys_set k v d :
  keys (set k v d) = if contains k d then keys d else keys d ++ [k].
Proof.
  destruct (contains k d) eqn:E.
  - now apply keys_set_known.
  - rewrite set_new by assumption. unfold keys. now rewrite map_app.
Qed.

Lemma wf_empty : wf (@empty V).
Proof. constructor. Qed.

Lemma wf_set k v d : wf d -> wf (set k v d).
Proof.
  unfold wf. intros H. rewrite keys_set.
  destruct (contains k d) eqn:E; [assumption|].
  apply contains_false_not_In in E.
  apply NoDup_rev in H. rewrite <- (rev_involutive (keys d ++ [k])).
  apply NoDup_rev. rewrite rev_app_distr. simpl. constructor; [|assumption].
  now rewrite <- in_rev.
Qed.

Lemma get_app_l k d1 d2 :
  contains k d1 = true -> get k (d1 ++ d2) = get k d1.
Proof.
  unfold contains. induction d1 as [|[k' v'] d1 IH]; simpl; intros H.
  - discriminate.
  - destruct (String.eqb k k'); auto.
Qed.

Lemma get_app_r k d1 d2 :
  contains k d1 = false -> get k (d1 ++ d2) = get k d2.
Proof.
  unfold contains. induction d1 as [|[k' v'] d1 IH]; simpl; intros H.
  - reflexivity.
  - destruct (String.eqb k k'); [discriminate | auto].
Qed.

Lemma get_In k v d : get k d = Some v -> In (k, v) d.
Proof.
  induction d as [|[k' v'] d IH]; simpl; [discriminate|].
  destruct (String.eqb_spec k k') as [->|Hk].
  - intros [= ->]. now left.
  - intros H. right. auto.
Qed.

Lemma In_get k v d : wf d -> In (k, v) d -> get k d = Some v.
Proof.
  unfold wf. induction d as [|[k' v'] d IH]; simpl; [tauto|].
  intros Hnd [H|H].
  - injection H as -> ->. now rewrite String.eqb_refl.
  - inversion Hnd as [|? ? Hnotin Hnd']; subst.
    destruct (String.eqb_spec k k') as [->|Hk].
    + exfalso. apply Hnotin. change (In (fst (k', v)) (map fst d)).
      now apply in_map.
    + auto.
Qed.

End DictFacts.

(** ** The store: [insert_result], [has_result], [lookup_result] *)

Section StoreFacts.
Context {F : Type}.
Implicit Types (raw : RawEvaluationResults F) (r : EvaluationPipelineResult F).

Lemma has_result_lookup m d raw :
  has_result m d raw =
  match lookup_result m d raw with Some _ => true | None => false end.
Proof.
  unfold has_result, lookup_result, Dict.contains.
  destruct (Dict.get m raw) as [inner|]; simpl; [|reflexivity].
  now destruct (Dict.get d inner).
Qed.

Lemma has_result_true m d raw :
  has_result m d raw = true <-> exists r, lookup_result m d raw = Some r.
Proof.
  rewrite has_result_lookup. destruct (lookup_result m d raw) as [r|].
  - split; eauto.
  - split; [discriminate | intros [r H]; discriminate].
Qed.

(** The inner dict [insert_result] writes into. *)
Lemma insert_result_eq m d r raw :
  insert_result m d r raw =
  match Dict.get m raw with
  | Some inner => Dict.set m (Dict.set d r inner) raw
  | None => raw ++ [(m, [(d, r)])]
  end.
Proof.
  unfold insert_result, Dict.contains.
  destruct (Dict.get m raw) as [inner|] eqn:E; simpl.
  - now rewrite E.
  - rewrite get_set_same.
    assert (Hc : Dict.contains m raw = false) by now apply get_None_contains.
    rewrite (set_new m Dict.empty raw Hc).
    unfold Dict.contains in Hc. clear E.
    induction raw as [|[k v] raw IH]; simpl in *.
    + now rewrite String.eqb_refl.
    + destruct (String.eqb m k); [discriminate | now rewrite IH].
Qed.

Lemma lookup_insert_same m d r raw :
  lookup_result m d (insert_result m d r raw) = Some r.
Proof.
  rewrite insert_result_eq. unfold lookup_result.
  destruct (Dict.get m raw) as [inner|] eqn:E.
  - rewrite get_set_same. apply get_set_same.
  - rewrite get_app_r by now apply get_None_contains.
    simpl. rewrite String.eqb_refl. simpl. now rewrite String.eqb_refl.
Qed.

Lemma lookup_insert_other m d r raw m' d' :
  (m', d') <> (m, d) ->
  lookup_result m' d' (insert_result m d r raw) = lookup_result m' d' raw.
Proof.
  intros Hne. rewrite insert_result_eq. unfold lookup_result.
  destruct (String.eqb_spec m m') as [<-|Hm].
  - assert (Hd : d <> d') by congruence.
    destruct (Dict.get m raw) as [inner|] eqn:E.
    + rewrite get_set_same. now apply get_set_other.
    + rewrite get_app_r by now apply get_None_contains.
      simpl. rewrite String.eqb_refl. simpl.
      destruct (String.eqb_spec d' d); congruence.
  - destruct (Dict.get m raw) as [inner|] eqn:E.
    + now rewrite get_set_other.
    + destruct (Dict.contains m' raw) eqn:C.
      * now rewrite get_app_l.
      * rewrite get_app_r by assumption. simpl.
        destruct (String.eqb_spec m' m); [congruence|].
        apply get_None_contains in C. now rewrite C.
Qed.

Lemma Forall_snd_set (P : Dict.t (EvaluationPipelineResult F) -> Prop)
  k inner raw :
  Forall (fun item => P (snd item)) raw -> P inner ->
  Forall (fun item => P (snd item)) (Dict.set k inner raw).
Proof.
  intros H Hi. induction raw as [|[k' v'] raw IH]; simpl.
  - constructor; auto.
  - inversion H; subst. destruct (String.eqb k k'); constructor; auto.
Qed.

Lemma wf_store_empty : wf_store (@Dict.empty (Dict.t (EvaluationPipelineResult F))).
Proof. split; constructor. Qed.

Lemma wf_store_insert m d r raw :
  wf_store raw -> wf_store (insert_result m d r raw).
Proof.
  intros [Hk Hin]. rewrite insert_result_eq.
  destruct (Dict.get m raw) as [inner|] eqn:E.
  - split.
    + now apply wf_set.
    + apply Forall_snd_set; [assumption|]. apply wf_set.
      rewrite Forall_forall in Hin. apply (Hin (m, inner)).
      now apply get_In.
  - apply get_None_contains in E.
    cut (wf_store (Dict.set m [(d, r)] raw));
      [intros H; now rewrite set_new in H by assumption|].
    split.
    + now apply wf_set.
    + apply Forall_snd_set; [assumption|].
      unfold Dict.wf. simpl. constructor; [tauto | constructor].
Qed.

Lemma pairs_of_fst m d raw :
  In (m, d) (pairs_of raw) -> In m (Dict.keys raw).
Proof.
  unfold pairs_of. rewrite in_flat_map. intros [[m' inner] [Hin Hd]].
  rewrite in_map_iff in Hd. destruct Hd as [[d' r'] [Heq _]].
  injection Heq as -> ->.
  change (In (fst (m, inner)) (map fst raw)). now apply in_map.
Qed.

(** With unique keys at both levels no pair stands twice. *)
Lemma wf_store_pairs_NoDup raw : wf_store raw -> NoDup (pairs_of raw).
Proof.
  intros [Hk Hin]. induction raw as [|[m inner] raw IH]; simpl.
  - constructor.
  - inversion Hk as [|? ? Hnotin Hk']; subst.
    inversion Hin as [|? ? Hwf Hin']; subst. simpl in Hwf.
    apply NoDup_app.
    + clear - Hwf. unfold Dict.wf, Dict.keys in Hwf.
      induction inner as [|[d r] inner IHi]; simpl; [constructor|].
      inversion Hwf as [|? ? Hn Hw]; subst. constructor; auto.
      rewrite in_map_iff. intros [[d' r'] [Heq Hd]].
      injection Heq as ->. apply Hn.
      change (In (fst (d, r')) (map fst inner)). now apply in_map.
    + now apply IH.
    + intros [m' d'] H1 H2. apply pairs_of_fst in H2.
      rewrite in_map_iff in H1. destruct H1 as [[d0 r0] [Heq _]].
      injection Heq as -> ->. contradiction.
Qed.

Lemma pairs_of_lookup m d raw :
  wf_store raw ->
  In (m, d) (pairs_of raw) <-> exists r, lookup_result m d raw = Some r.
Proof.
  intros [Hk Hin]. unfold pairs_of, lookup_result. rewrite in_flat_map. split.
  - intros [[m' inner] [Hi Hd]].
    rewrite in_map_iff in Hd. destruct Hd as [[d' r'] [Heq Hd]].
    injection Heq as -> ->.
    exists r'. rewrite (In_get m inner raw Hk Hi).
    apply In_get; [|assumption].
    rewrite Forall_forall in Hin. apply (Hin (m, inner) Hi).
  - intros [r H]. destruct (Dict.get m raw) as [inner|] eqn:E; [|discriminate].
    exists (m, inner). split; [now apply get_In|].
    rewrite in_map_iff. exists (d, r). split; [reflexivity | now apply get_In].
Qed.

End StoreFacts.

(** ** Statements and loops *)

Section LoopFacts.
Context {T : Types} {Ext : Externals T}.

Lemma for_each_app {A L} (xs ys : list A) (body : A -> L -> M L) acc st :
  for_each (xs ++ ys) body acc st =
  match for_each xs body acc st with
  | (Ok acc', st') => for_each ys body acc' st'
  | (Raise e, st') => (Raise e, st')
  end.
Proof.
  revert acc st. induction xs as [|x xs IH]; intros acc st; simpl.
  - reflexivity.
  - unfold bind. destruct (body x acc st) as [[acc'|e] st']; auto.
Qed.

Lemma for_each_cons {A L} (x : A) (xs : list A) (body : A -> L -> M L)
  acc st :
  for_each (x :: xs) body acc st =
  match body x acc st with
  | (Ok acc', st') => for_each xs body acc' st'
  | (Raise e, st') => (Raise e, st')
  end.
Proof. reflexivity. Qed.

Lemma for_each_ext {A L} (xs : list A) (body1 body2 : A -> L -> M L) :
  (forall x acc st, body1 x acc st = body2 x acc st) ->
  forall acc st, for_each xs body1 acc st = for_each xs body2 acc st.
Proof.
  intros Hb. induction xs as [|x xs IH]; intros acc st; simpl.
  - reflexivity.
  - unfold bind. rewrite Hb. destruct (body2 x acc st) as [[acc'|e] st']; auto.
Qed.

Lemma for_each_map {A B L} (f : A -> B) (xs : list A) (body : B -> L -> M L) :
  forall acc st,
    for_each (map f xs) body acc st =
    for_each xs (fun x => body (f x)) acc st.
Proof.
  induction xs as [|x xs IH]; intros acc st; simpl.
  - reflexivity.
  - unfold bind. destruct (body (f x) acc st) as [[acc'|e] st']; auto.
Qed.

(** The nested loops of [run] visit the cross product of the models and
    the datasets, model by model. *)
Lemma run_loop_pairs this datasets total st :
  MetricsPipeline.run_loop this datasets total st =
  run_pairs this total
    (list_prod (Dict.items (models this)) (Dict.items datasets)) 0 st.
Proof.
  unfold MetricsPipeline.run_loop, run_pairs, Dict.items.
  generalize 0%nat. revert st.
  induction (models this) as [|[model_name model] ms IH]; intros st idx.
  - reflexivity.
  - simpl. rewrite for_each_app, for_each_map. unfold bind at 1.
    match goal with
    | |- match ?a with _ => _ end = match ?b with _ => _ end =>
        replace b with a
    end.
    + destruct (for_each datasets _ idx st) as [[idx'|e] st']; auto.
    + apply for_each_ext. now intros [dataset_name info] acc st0.
Qed.

End LoopFacts.

(** ** One pass through the loop body of [run] *)

Section RunFacts.
Context {T : Types} {Ext : Externals T}.

Ltac run_step :=
  unfold MetricsPipeline.run_one, MetricsPipelineRepository.result_already_exists,
    MetricsPipelineRepository.add_result, MetricsPipelineRepository.save_to_file,
    MetricsPipelineRepository.set_raw_evaluation_results,
    MetricsPipelineRepository.self, EvaluationPipeline.run,
    logging_info, df_to_csv, emit, call, get_state, put_state, bind, ret, raise,
    raw_of, path_of in *;
  simpl in *.

Lemma run_one_skip this total m ep d info idx st :
  has_result m d (raw_of st) = true ->
  MetricsPipeline.run_one this total m ep d info idx st =
  (Ok (idx + 1)%nat,
   skipped (mkLogFields m d (n_folds this) (idx + 1) total) st).
Proof.
  intros H. run_step. rewrite H. unfold skipped. simpl.
  now rewrite <- app_assoc.
Qed.

Lemma run_one_eval this total m ep d info idx st r :
  has_result m d (raw_of st) = false ->
  evaluation_run (ep_model ep) (ep_n_folds ep) (X info) (y info) = inr r ->
  MetricsPipeline.run_one this total m ep d info idx st =
  (Ok (idx + 1)%nat,
   evaluated (mkLogFields m d (n_folds this) (idx + 1) total) r st).
Proof.
  intros H He. run_step. rewrite H, He. unfold evaluated. simpl.
  now rewrite <- !app_assoc.
Qed.

Lemma run_one_fail this total m ep d info idx st e :
  has_result m d (raw_of st) = false ->
  evaluation_run (ep_model ep) (ep_n_folds ep) (X info) (y info) = inl e ->
  MetricsPipeline.run_one this total m ep d info idx st =
  (Raise (Foreign e),
   failed (mkLogFields m d (n_folds this) (idx + 1) total) st).
Proof.
  intros H He. run_step. rewrite H, He. unfold failed. simpl.
  now rewrite <- !app_assoc.
Qed.

(** ** The loop of [run] *)

Lemma evaluator_calls_app (a b : list Event) :
  evaluator_calls (a ++ b) = evaluator_calls a ++ evaluator_calls b.
Proof. unfold evaluator_calls. apply flat_map_app. Qed.

Lemma saves_app (a b : list Event) : saves (a ++ b) = saves a ++ saves b.
Proof. unfold saves. apply flat_map_app. Qed.

Lemma has_result_mono (raw raw' : RawEvaluationResults float) m d :
  (forall m d r, lookup_result m d raw = Some r ->
                 lookup_result m d raw' = Some r) ->
  has_result m d raw = true -> has_result m d raw' = true.
Proof.
  intros Hmono H. apply has_result_true in H. destruct H as [r H].
  apply has_result_true. eauto.
Qed.

Lemma has_result_antimono (raw raw' : RawEvaluationResults float) m d :
  (forall m d r, lookup_result m d raw = Some r ->
                 lookup_result m d raw' = Some r) ->
  has_result m d raw' = false -> has_result m d raw = false.
Proof.
  intros Hmono H. destruct (has_result m d raw) eqn:E; [|reflexivity].
  apply (has_result_mono _ _ _ _ Hmono) in E. congruence.
Qed.

Lemma progress_nil st idx : progress [] st (Ok idx) st.
Proof.
  repeat split. exists []. rewrite app_nil_r. simpl.
  repeat split; auto; try contradiction; discriminate.
Qed.

Lemma progress_skip m model d info f st idx :
  progress [((m, model), (d, info))] st (Ok idx) (skipped f st).
Proof.
  repeat split.
  exists [Info (RunningEvaluation f); Info (AlreadyEvaluated f)]. simpl.
  repeat split; auto; try contradiction; discriminate.
Qed.

Lemma progress_fail m model d info n i total st e :
  has_result m d (raw_of st) = false ->
  progress [((m, model), (d, info))] st (Raise e)
           (failed (mkLogFields m d n i total) st).
Proof.
  intros H. repeat split.
  exists [Info (RunningEvaluation (mkLogFields m d n i total)); Evaluated m d].
  simpl. repeat split; auto; try discriminate; try contradiction.
  - destruct H0 as [[= <- <-]|[]]. assumption.
  - destruct H0 as [[= <- <-]|[]]. exists model, info. now left.
Qed.

Lemma progress_eval m model d info n i total st r idx :
  has_result m d (raw_of st) = false ->
  progress [((m, model), (d, info))] st (Ok idx)
           (evaluated (mkLogFields m d n i total) r st).
Proof.
  intros H. repeat split.
  exists [Info (RunningEvaluation (mkLogFields m d n i total));
          Evaluated m d; Saved (path_of st);
          Info (EvaluationFinished (mkLogFields m d n i total))].
  simpl. repeat split; auto; try discriminate.
  - intros m' d' r' Hl. unfold raw_of. simpl.
    rewrite lookup_insert_other; [assumption|].
    intros [= -> ->]. rewrite has_result_lookup in H.
    rewrite Hl in H. discriminate.
  - destruct H0 as [[= <- <-]|[]]. assumption.
  - destruct H0 as [[= <- <-]|[]]. exists model, info. now left.
  - intros _. now rewrite String.eqb_refl.
  - intros m' d' [[= <- <-]|[]]. unfold raw_of. simpl.
    apply has_result_true. exists r. apply lookup_insert_same.
Qed.

Lemma progress_seq ps1 ps2 st idx st1 o st2 :
  progress ps1 st (Ok idx) st1 -> progress ps2 st1 o st2 ->
  progress (ps1 ++ ps2) st o st2.
Proof.
  intros (Hp1 & Hl1 & d1 & Ht1 & Hm1 & Hc1 & Hn1 & Hs1 & Ho1 & _)
         (Hp2 & Hl2 & d2 & Ht2 & Hm2 & Hc2 & Hn2 & Hs2 & Ho2 & He2).
  destruct (Ho1 idx eq_refl) as [Hlen1 Hdone1]. clear Ho1.
  split; [congruence|]. split; [congruence|].
  exists (d1 ++ d2). rewrite evaluator_calls_app, saves_app.
  split; [now rewrite Ht2, Ht1, app_assoc|].
  split; [auto|].
  split.
  { intros m d Hin. apply in_app_or in Hin. destruct Hin as [Hin|Hin].
    - destruct (Hc1 m d Hin) as [Hf (model & info & Hi)].
      split; [assumption|]. exists model, info. apply in_or_app. now left.
    - destruct (Hc2 m d Hin) as [Hf (model & info & Hi)]. split.
      + now apply (has_result_antimono _ _ _ _ Hm1).
      + exists model, info. apply in_or_app. now right. }
  split.
  { intros E. apply app_eq_nil in E. destruct E as [E1 E2].
    destruct (Hn1 E1), (Hn2 E2). split; congruence. }
  split.
  { intros Hne. destruct (saves d2) as [|p l] eqn:E2.
    - destruct (Hn2 eq_refl) as [Hd Hr]. rewrite Hd, Hr.
      apply Hs1. now rewrite app_nil_r in Hne.
    - rewrite <- Hp1. apply Hs2. discriminate. }
  split.
  { intros idx' Hidx. destruct (Ho2 idx' Hidx) as [Hlen2 Hdone2].
    split; [rewrite !length_app; congruence|].
    intros m d Hin. apply in_app_or in Hin. destruct Hin as [Hin|Hin].
    - apply (has_result_mono _ _ _ _ Hm2). auto.
    - auto. }
  intros e He. rewrite !length_app, (He2 e He), Hlen1. lia.
Qed.

Lemma progress_stop ps1 ps2 st e st' :
  progress ps1 st (Raise e) st' -> progress (ps1 ++ ps2) st (Raise e) st'.
Proof.
  intros (Hp & Hl & dl & Ht & Hm & Hc & Hn & Hs & Ho & He).
  split; [assumption|]. split; [assumption|]. exists dl.
  repeat split; try assumption; try discriminate.
  - now apply Hc.
  - destruct (Hc m d H) as [_ (model & info & Hi)].
    exists model, info. apply in_or_app. now left.
  - now apply Hn.
  - now apply Hn.
Qed.

Lemma run_pairs_progress this total ps : forall idx st o st',
  run_pairs this total ps idx st = (o, st') -> progress ps st o st'.
Proof.
  unfold run_pairs.
  induction ps as [|[[m model] [d info]] ps IH]; intros idx st o st' H.
  - injection H as <- <-. apply progress_nil.
  - simpl in H. unfold bind at 1 in H.
    change (((m, model), (d, info)) :: ps)
      with ([((m, model), (d, info))] ++ ps).
    destruct (has_result m d (raw_of st)) eqn:Hex.
    + rewrite run_one_skip in H by assumption.
      eapply progress_seq with (idx := 0%nat);
        [apply progress_skip | eapply IH; eassumption].
    + destruct (evaluation_run model (n_folds this) (X info) (y info))
        as [e|r] eqn:He.
      * rewrite (run_one_fail _ _ _ _ _ _ _ _ e) in H by assumption.
        injection H as <- <-.
        apply progress_stop. now apply progress_fail.
      * rewrite (run_one_eval _ _ _ _ _ _ _ _ r) in H by assumption.
        eapply progress_seq with (idx := 0%nat);
          [now apply progress_eval | eapply IH; eassumption].
Qed.

End RunFacts.

(** ** The catalog *)

Section LoaderFacts.
Context {T : Types} {Ext : Externals T}.

Ltac load_unfold :=
  unfold DatasetsLoader.load_one, DatasetsLoaderNormalized.load_one, load_step,
    DatasetsLoader.store_dataset, DatasetsLoader.set_loaded_datasets,
    DatasetsLoader.self, fetch, not_found, entry_of, print, emit, call,
    bind, ret, raise in *.

Lemma plain_load_one name u st :
  DatasetsLoader.load_one name u st = load_step PlainLoader name u st.
Proof.
  load_unfold.
  destruct (endswith name ".arff");
    [destruct (load_from_arff name 5) as [e|[[X0 y0]|]]
    |destruct (load_dataset name "undivided") as [e|[[X0 y0]|]]];
    reflexivity.
Qed.

Lemma normalized_load_one name u st :
  DatasetsLoaderNormalized.load_one name u st =
  load_step NormalizedLoader name u st.
Proof.
  load_unfold.
  destruct (endswith name ".arff");
    [destruct (load_from_arff name 5) as [e|[[X0 y0]|]]
    |destruct (load_dataset name "undivided") as [e|[[X0 y0]|]]];
    reflexivity.
Qed.








(** What the loop of [load] leaves of the state: only the loaded datasets
    and the trace change, the trace by [Printed] events. *)
Lemma load_loop_frame cls names : forall st o st',
  for_each names (load_step cls) tt st = (o, st') ->
  repository st' = repository st /\ disk st' = disk st /\
  loader_class (datasets_loader st') = loader_class (datasets_loader st) /\
  dataset_names (datasets_loader st') = dataset_names (datasets_loader st) /\
  exists delta, trace st' = trace st ++ delta /\
                evaluator_calls delta = [] /\ saves delta = [].
Proof.
  induction names as [|name names IH]; intros st o st' H; simpl in H.
  - injection H as <- <-. repeat split. exists []. now rewrite app_nil_r.
  - unfold bind at 1 in H.
    unfold load_step at 1, print, emit, bind, raise, DatasetsLoader.self,
      DatasetsLoader.set_loaded_datasets in H.
    destruct (fetch cls name) as [info|e]; simpl in H.
    + apply IH in H. simpl in H.
      destruct H as (A & B & C & D & delta & Et & Ec & Es).
      repeat split; try assumption.
      exists (Printed (GettingDataset name) :: delta).
      rewrite Et, <- app_assoc. simpl. auto.
    + injection H as <- <-. simpl. repeat split.
      exists [Printed (GettingDataset name)]. auto.
Qed.

(** Every entry the loop leaves is one the catalog fetched or one that was
    there before. *)
Lemma load_loop_entries cls names : forall st o st',
  for_each names (load_step cls) tt st = (o, st') ->
  (forall name info, Dict.get name (loaded_of st) = Some info ->
                     fetch cls name = Ok info) ->
  forall name info, Dict.get name (loaded_of st') = Some info ->
                    fetch cls name = Ok info.
Proof.
  induction names as [|n names IH]; intros st o st' H Hinv; simpl in H.
  - injection H as <- <-. assumption.
  - unfold bind at 1 in H.
    unfold load_step at 1, print, emit, bind, raise, DatasetsLoader.self,
      DatasetsLoader.set_loaded_datasets in H.
    destruct (fetch cls n) as [info|e] eqn:Ef; simpl in H.
    + apply (IH _ _ _ H). unfold loaded_of. simpl.
      intros name i. destruct (String.eqb_spec n name) as [<-|Hn].
      * rewrite get_set_same. now intros [= <-].
      * rewrite get_set_other by assumption. apply Hinv.
    + injection H as <- <-. assumption.
Qed.

(** A loop that returns has stored every identifier it went through. *)
Lemma load_loop_stores cls names : forall st st',
  for_each names (load_step cls) tt st = (Ok tt, st') ->
  forall name, In name names \/ Dict.contains name (loaded_of st) = true ->
               Dict.contains name (loaded_of st') = true.
Proof.
  induction names as [|n names IH]; intros st st' H name Hin; simpl in H.
  - injection H as <-. destruct Hin as [[]|Hin]. assumption.
  - unfold bind at 1 in H.
    unfold load_step at 1, print, emit, bind, raise, DatasetsLoader.self,
      DatasetsLoader.set_loaded_datasets in H.
    destruct (fetch cls n) as [info|e] eqn:Ef; simpl in H; [|discriminate].
    apply (IH _ _ H name). unfold loaded_of. simpl.
    destruct (String.eqb_spec n name) as [<-|Hn].
    + right. apply contains_set_same.
    + rewrite contains_set_other by assumption.
      destruct Hin as [[Hin|Hin]|Hin]; [congruence | now left | now right].
Qed.

End LoaderFacts.

(** ** The flat table *)

Section TableFacts.
Context {F : Type}.
Implicit Types (raw acc : RawEvaluationResults F) (r : EvaluationPipelineResult F).

Lemma result_of_row_of m d r : result_of_row (row_of m d r) = r.
Proof. now destruct r. Qed.

Lemma set_set_same {V} k (v1 v2 : V) (d : Dict.t V) :
  Dict.set k v2 (Dict.set k v1 d) = Dict.set k v2 d.
Proof.
  induction d as [|[k' v'] d IH]; simpl.
  - now rewrite String.eqb_refl.
  - destruct (String.eqb k k') eqn:E; simpl; rewrite E; [reflexivity|].
    now rewrite IH.
Qed.

Lemma set_app_last {V} k (v0 v : V) (d : Dict.t V) :
  Dict.contains k d = false ->
  Dict.set k v (d ++ [(k, v0)]) = d ++ [(k, v)].
Proof.
  unfold Dict.contains. induction d as [|[k' v'] d IH]; simpl; intros H.
  - now rewrite String.eqb_refl.
  - destruct (String.eqb k k'); [discriminate | now rewrite IH].
Qed.

(** Rebuilding the rows of one model whose entry exists already. *)
Lemma rebuild_inner m : forall inner done acc,
  Dict.get m acc = Some done ->
  NoDup (Dict.keys (done ++ inner)) ->
  fold_left (fun raw row =>
               insert_result (col_model row) (col_dataset row)
                             (result_of_row row) raw)
            (map (fun '(d, r) => row_of m d r) inner) acc =
  Dict.set m (done ++ inner) acc.
Proof.
  induction inner as [|[d r] inner IH]; intros done acc Hg Hnd; simpl.
  - rewrite app_nil_r. clear Hnd. revert Hg.
    induction acc as [|[k v] acc IHa]; simpl; [discriminate|].
    destruct (String.eqb m k) eqn:E.
    + now intros [= ->].
    + intros Hg. f_equal. auto.
  - rewrite result_of_row_of, insert_result_eq, Hg.
    assert (Hnew : Dict.contains d done = false).
    { apply contains_false_not_In. unfold Dict.keys in *.
      rewrite map_app in Hnd. simpl in Hnd.
      apply NoDup_remove_2 in Hnd. intros Hin. apply Hnd.
      apply in_or_app. now left. }
    rewrite (set_new d r done Hnew).
    rewrite (IH (done ++ [(d, r)])).
    + rewrite set_set_same, <- app_assoc. reflexivity.
    + apply get_set_same.
    + now rewrite <- app_assoc.
Qed.

(** Rebuilding the rows of one model that is not in the store yet. *)
Lemma rebuild_model m inner acc :
  Dict.contains m acc = false -> Dict.wf inner ->
  fold_left (fun raw row =>
               insert_result (col_model row) (col_dataset row)
                             (result_of_row row) raw)
            (map (fun '(d, r) => row_of m d r) inner) acc =
  acc ++ match inner with [] => [] | _ => [(m, inner)] end.
Proof.
  intros Hc Hwf. destruct inner as [|[d r] inner]; simpl.
  - now rewrite app_nil_r.
  - rewrite result_of_row_of, insert_result_eq.
    rewrite (proj2 (get_None_contains m acc) Hc).
    rewrite (rebuild_inner m inner [(d, r)]).
    + now apply set_app_last.
    + rewrite get_app_r by assumption. simpl. now rewrite String.eqb_refl.
    + exact Hwf.
Qed.

Lemma rebuild_store raw : forall acc,
  wf_store raw ->
  (forall m, In m (Dict.keys raw) -> Dict.contains m acc = false) ->
  fold_left (fun raw row =>
               insert_result (col_model row) (col_dataset row)
                             (result_of_row row) raw)
            (evaluation_results_to_flat_table raw) acc =
  acc ++ drop_empty_models raw.
Proof.
  induction raw as [|[m inner] raw IH]; intros acc [Hk Hin] Hdis; simpl.
  - now rewrite app_nil_r.
  - inversion Hk as [|? ? Hnotin Hk']; subst.
    inversion Hin as [|? ? Hwf Hin']; subst. simpl in Hwf.
    rewrite fold_left_app, rebuild_model; [|apply Hdis; now left|assumption].
    rewrite IH.
    + rewrite <- app_assoc. now destruct inner.
    + now split.
    + intros m' Hm'. apply contains_false_not_In.
      unfold Dict.keys. rewrite map_app, in_app_iff. intros [H|H].
      * apply (contains_false_not_In m' acc); [|assumption].
        apply Hdis. now right.
      * destruct inner; simpl in H; [assumption|].
        destruct H as [<-|[]]. contradiction.
Qed.

(** Saving a table and reading it back gives the store, except that a
    model without a dataset has no row and so is not rebuilt. *)
Lemma table_round_trip raw :
  wf_store raw ->
  flat_table_to_evaluation_results (evaluation_results_to_flat_table raw) =
  drop_empty_models raw.
Proof.
  intros H. unfold flat_table_to_evaluation_results.
  now rewrite rebuild_store.
Qed.

Lemma drop_empty_models_id raw :
  no_empty_model raw -> drop_empty_models raw = raw.
Proof.
  unfold no_empty_model, drop_empty_models.
  induction 1 as [|[m inner] raw Hne _ IH]; simpl; [reflexivity|].
  destruct inner; [now elim Hne | now rewrite IH].
Qed.





Lemma lookup_in_table m d r raw :
  lookup_result m d raw = Some r ->
  In (row_of m d r) (evaluation_results_to_flat_table raw).
Proof.
  unfold lookup_result, evaluation_results_to_flat_table. intros H.
  destruct (Dict.get m raw) as [inner|] eqn:E; [|discriminate].
  apply in_flat_map. exists (m, inner). split; [now apply get_In|].
  apply in_map_iff. exists (d, r). split; [reflexivity | now apply get_In].
Qed.

Lemma table_length raw :
  List.length (evaluation_results_to_flat_table raw) =
  List.length (pairs_of raw).
Proof.
  induction raw as [|[m inner] raw IH]; simpl; [reflexivity|].
  now rewrite !length_app, !length_map, IH.
Qed.

End TableFacts.

(** ** The repository *)

Section RepositoryFacts.
Context {T : Types} {Ext : Externals T}.

Ltac repo_unfold :=
  unfold MetricsPipelineRepository.load_from_file,
    MetricsPipelineRepository.save_to_file,
    MetricsPipelineRepository.add_result,
    MetricsPipelineRepository.result_already_exists,
    MetricsPipelineRepository.init,
    MetricsPipelineRepository.set_raw_evaluation_results,
    MetricsPipelineRepository.self,
    os_path_exists, pd_read_csv, df_to_csv, logging_warn, logging_info, emit,
    call, get_state, put_state, bind, ret, raise,
    logged, with_raw, saved, path_of, raw_of in *.

Lemma load_from_file_not_csv st :
  endswith (path_of st) ".csv" = false ->
  MetricsPipelineRepository.load_from_file st =
  (Raise (Exception "only CSV files are supported"), st).
Proof. intros H. repo_unfold. now rewrite H. Qed.

Lemma load_from_file_missing st :
  endswith (path_of st) ".csv" = true ->
  disk st (path_of st) = None ->
  MetricsPipelineRepository.load_from_file st =
  (Ok tt, logged (Warn (FileDoesNotExist (path_of st))) st).
Proof. intros H Hd. repo_unfold. rewrite H. simpl. now rewrite Hd. Qed.

Lemma load_from_file_present st content df :
  endswith (path_of st) ".csv" = true ->
  disk st (path_of st) = Some content ->
  read_csv content = inr df ->
  MetricsPipelineRepository.load_from_file st =
  (Ok tt, with_raw (flat_table_to_evaluation_results df) st).
Proof.
  intros H Hd Hr. repo_unfold. rewrite H. simpl. rewrite Hd. simpl.
  rewrite Hd. now rewrite Hr.
Qed.

Lemma load_from_file_unreadable st content e :
  endswith (path_of st) ".csv" = true ->
  disk st (path_of st) = Some content ->
  read_csv content = inl e ->
  MetricsPipelineRepository.load_from_file st = (Raise (Foreign e), st).
Proof.
  intros H Hd Hr. repo_unfold. rewrite H. simpl. rewrite Hd. simpl.
  rewrite Hd. now rewrite Hr.
Qed.

Lemma load_from_file_frame st o st' :
  MetricsPipelineRepository.load_from_file st = (o, st') ->
  path_of st' = path_of st /\ disk st' = disk st /\
  datasets_loader st' = datasets_loader st /\
  exists delta, trace st' = trace st ++ delta /\
                evaluator_calls delta = [] /\ saves delta = [].
Proof.
  destruct (endswith (path_of st) ".csv") eqn:E.
  - destruct (disk st (path_of st)) as [content|] eqn:D.
    + destruct (read_csv content) as [e|df] eqn:R.
      * rewrite (load_from_file_unreadable st content e) by assumption.
        intros [= <- <-]. repeat split. exists []. now rewrite app_nil_r.
      * rewrite (load_from_file_present st content df) by assumption.
        intros [= <- <-]. repeat split. exists []. simpl.
        now rewrite app_nil_r.
    + rewrite load_from_file_missing by assumption.
      intros [= <- <-]. repeat split.
      exists [Warn (FileDoesNotExist (path_of st))]. auto.
  - rewrite load_from_file_not_csv by assumption.
    intros [= <- <-]. repeat split. exists []. now rewrite app_nil_r.
Qed.

Lemma save_to_file_eq st :
  MetricsPipelineRepository.save_to_file st = (Ok tt, saved st).
Proof. reflexivity. Qed.

Lemma add_result_eq m d r st :
  MetricsPipelineRepository.add_result m d r st =
  (Ok tt, with_raw (insert_result m d r (raw_of st)) st).
Proof. reflexivity. Qed.

Lemma result_already_exists_eq m d st :
  MetricsPipelineRepository.result_already_exists m d st =
  (Ok (has_result m d (raw_of st)), st).
Proof. reflexivity. Qed.

Lemma describe_one_eq m d r results st :
  MetricsPipelineRepository.describe_one m d r results st =
  (Ok (results ++ [presented (row_of m d r)]), st).
Proof. reflexivity. Qed.

Lemma describe_inner m inner : forall results st,
  for_each (Dict.items inner)
    (fun '(dataset_name, result) results =>
       MetricsPipelineRepository.describe_one m dataset_name result results)
    results st =
  (Ok (results ++ map presented (map (fun '(d, r) => row_of m d r) inner)), st).
Proof.
  induction inner as [|[d r] inner IH]; intros results st; simpl.
  - now rewrite app_nil_r.
  - unfold bind. rewrite describe_one_eq. unfold Dict.items in IH.
    rewrite IH, <- app_assoc. reflexivity.
Qed.

Lemma describe_dict_eq st :
  MetricsPipelineRepository.describe_dict st =
  (Ok (map presented (evaluation_results_to_flat_table (raw_of st))), st).
Proof.
  unfold MetricsPipelineRepository.describe_dict,
    MetricsPipelineRepository.self, bind, raw_of. simpl.
  change (map presented
            (evaluation_results_to_flat_table
               (raw_evaluation_results (repository st))))
    with ([] ++ map presented
            (evaluation_results_to_flat_table
               (raw_evaluation_results (repository st)))).
  generalize (@nil (Dict.t (Cell float))).
  induction (raw_evaluation_results (repository st)) as [|[m inner] raw IH];
    intros results; simpl.
  - now rewrite app_nil_r.
  - unfold bind. rewrite describe_inner, IH, map_app, app_assoc. reflexivity.
Qed.

End RepositoryFacts.

(** ** The methods of the catalog, over [load_step] *)

Section CatalogFacts.
Context {T : Types} {Ext : Externals T}.

Lemma load_loop_plain names : forall st,
  for_each names DatasetsLoader.load_one tt st =
  for_each names (load_step PlainLoader) tt st.
Proof. apply for_each_ext. intros name [] st. apply plain_load_one. Qed.

Lemma load_loop_normalized names : forall st,
  for_each names DatasetsLoaderNormalized.load_one tt st =
  for_each names (load_step NormalizedLoader) tt st.
Proof. apply for_each_ext. intros name [] st. apply normalized_load_one. Qed.

Lemma plain_load_eq st :
  DatasetsLoader.load st =
  match for_each (dataset_names (datasets_loader st))
                 (load_step PlainLoader) tt (cleared st) with
  | (Ok _, st1) => (Ok tt, logged (Info FinishedGettingDatasets) st1)
  | (Raise e, st1) => (Raise e, st1)
  end.
Proof.
  unfold DatasetsLoader.load, DatasetsLoader.set_loaded_datasets,
    DatasetsLoader.self, bind. simpl.
  rewrite load_loop_plain. unfold cleared.
  now destruct (for_each _ _ tt _) as [[[]|e] st1].
Qed.

Lemma normalized_load_eq st :
  DatasetsLoaderNormalized.load st =
  match for_each (dataset_names (datasets_loader st))
                 (load_step NormalizedLoader) tt (cleared st) with
  | (Ok _, st1) => (Ok tt, logged (Info FinishedGettingDatasets) st1)
  | (Raise e, st1) => (Raise e, st1)
  end.
Proof.
  unfold DatasetsLoaderNormalized.load, DatasetsLoader.set_loaded_datasets,
    DatasetsLoader.self, bind. simpl.
  rewrite load_loop_normalized. unfold cleared.
  now destruct (for_each _ _ tt _) as [[[]|e] st1].
Qed.

Lemma loader_load_eq st :
  MetricsPipeline.datasets_loader_load st =
  match for_each (dataset_names (datasets_loader st))
                 (load_step (loader_class (datasets_loader st))) tt
                 (cleared st) with
  | (Ok _, st1) => (Ok tt, logged (Info FinishedGettingDatasets) st1)
  | (Raise e, st1) => (Raise e, st1)
  end.
Proof.
  unfold MetricsPipeline.datasets_loader_load, DatasetsLoader.self, bind.
  destruct (loader_class (datasets_loader st)).
  - apply plain_load_eq.
  - apply normalized_load_eq.
Qed.

Lemma loader_load_frame st o st' :
  MetricsPipeline.datasets_loader_load st = (o, st') ->
  repository st' = repository st /\ disk st' = disk st /\
  exists delta, trace st' = trace st ++ delta /\
                evaluator_calls delta = [] /\ saves delta = [].
Proof.
  rewrite loader_load_eq.
  destruct (for_each _ _ tt (cleared st)) as [[[]|e] st1] eqn:E;
    intros [= <- <-]; apply load_loop_frame in E;
    destruct E as (A & B & _ & _ & delta & Et & Ec & Es); simpl in *.
  - repeat split; try assumption.
    exists (delta ++ [Info FinishedGettingDatasets]).
    rewrite Et, app_assoc, evaluator_calls_app, saves_app, Ec, Es. auto.
  - repeat split; try assumption. exists delta. auto.
Qed.

(** A load that returns leaves a dataset under every identifier. *)
Lemma loader_load_populates st st1 :
  MetricsPipeline.datasets_loader_load st = (Ok tt, st1) ->
  forall name, In name (dataset_names (datasets_loader st)) ->
               Dict.contains name (loaded_of st1) = true.
Proof.
  rewrite loader_load_eq.
  destruct (for_each _ _ tt (cleared st)) as [[[]|e] st2] eqn:E;
    [|discriminate].
  intros [= <-] name Hin.
  apply (load_loop_stores _ _ _ _ E name). now left.
Qed.

Lemma list_datasets_eq st :
  DatasetsLoader.list_datasets st =
  match loaded_of st with
  | [] => (Raise (Exception "no datasets loaded"), st)
  | _ => (Ok (loaded_of st), st)
  end.
Proof.
  unfold DatasetsLoader.list_datasets, DatasetsLoader.self, bind, loaded_of.
  simpl. now destruct (loaded_datasets (datasets_loader st)).
Qed.

(** What is known once the lines of [run] before the loops returned. *)
Lemma run_setup_frame this st o st1 :
  MetricsPipeline.run_setup this st = (o, st1) ->
  path_of st1 = path_of st /\ disk st1 = disk st /\
  (exists delta, trace st1 = trace st ++ delta /\
                 evaluator_calls delta = [] /\ saves delta = []) /\
  forall datasets, o = Ok datasets -> datasets = loaded_of st1.
Proof.
  unfold MetricsPipeline.run_setup. unfold bind at 1, logging_info, emit.
  unfold bind at 1.
  match goal with
  | |- context [MetricsPipelineRepository.load_from_file ?s] =>
      remember (MetricsPipelineRepository.load_from_file s) as res eqn:E1;
      symmetry in E1; destruct res as [[[]|e] st2]
  end.
  - apply load_from_file_frame in E1. simpl in E1.
    destruct E1 as (P1 & D1 & _ & d1 & T1 & C1 & S1).
    unfold path_of in P1. simpl in P1, D1, T1.
    unfold bind at 1.
    remember (MetricsPipeline.datasets_loader_load st2) as res eqn:E2;
      symmetry in E2; destruct res as [[[]|e] st3];
      apply loader_load_frame in E2;
      destruct E2 as (R2 & D2 & d2 & T2 & C2 & S2).
    + rewrite list_datasets_eq.
      assert (Hf : path_of st3 = path_of st /\ disk st3 = disk st /\
                   exists delta, trace st3 = trace st ++ delta /\
                   evaluator_calls delta = [] /\ saves delta = []).
      { unfold path_of in *. rewrite R2. repeat split; try congruence.
        exists (Info GettingMetrics :: d1 ++ d2).
        rewrite T2, T1, <- !app_assoc. simpl.
        rewrite evaluator_calls_app, saves_app, C1, C2, S1, S2. auto. }
      destruct (loaded_of st3) eqn:L; intros [= <- <-];
        (split; [apply Hf|]); (split; [apply Hf|]); (split; [apply Hf|]);
        intros datasets [= <-]; now rewrite L.
    + intros [= <- <-]. unfold path_of in *. rewrite R2.
      repeat split; try congruence; try discriminate.
      exists (Info GettingMetrics :: d1 ++ d2).
      rewrite T2, T1, <- !app_assoc. simpl.
      rewrite evaluator_calls_app, saves_app, C1, C2, S1, S2. auto.
  - apply load_from_file_frame in E1. simpl in E1.
    destruct E1 as (P1 & D1 & _ & d1 & T1 & C1 & S1).
    unfold path_of in P1. simpl in P1, D1, T1.
    intros [= <- <-]. repeat split; try assumption; try discriminate.
    exists (Info GettingMetrics :: d1). rewrite T1, <- app_assoc. auto.
Qed.

End CatalogFacts.

(* ================================================================== *)
(** * The claims *)

(** Each claim is proved for every collaborator; where a theorem has a
    premise, it is then applied in the concrete world of [Lab]. *)
#[local] Existing Instance Lab.types.
#[local] Existing Instance Lab.world.

Ltac distinct_strings :=
  repeat (constructor; [simpl; intuition discriminate|]); constructor.

Ltac wf_store_concrete :=
  split; [unfold Dict.wf; simpl; distinct_strings
         |repeat (constructor; [unfold Dict.wf; simpl; distinct_strings|]);
          constructor].

(** C7. After [add_result(m, d, r)] the query [result_already_exists(m, d)]
    returns true and the entry stored for (m, d) is [r], whether or not an
    entry was there before; nothing is logged, nothing is written and
    nothing is raised; the entry of every other pair is what it was; and a
    store whose keys are unique keeps unique keys, so that no pair stands
    twice in it. *)
Theorem add_result_inserts_or_overwrites {T : Types} {Ext : Externals T}
  (st : State) (m d : string) (r : EvaluationPipelineResult float) :
  exists st',
    MetricsPipelineRepository.add_result m d r st = (Ok tt, st') /\
    MetricsPipelineRepository.result_already_exists m d st' = (Ok true, st') /\
    lookup_result m d (raw_of st') = Some r /\
    (forall m' d', (m', d') <> (m, d) ->
       lookup_result m' d' (raw_of st') = lookup_result m' d' (raw_of st)) /\
    disk st' = disk st /\ trace st' = trace st /\
    (wf_store (raw_of st) ->
       wf_store (raw_of st') /\ NoDup (pairs_of (raw_of st'))).
Proof.
  exists (with_raw (insert_result m d r (raw_of st)) st).
  split; [apply add_result_eq|].
  split.
  { rewrite result_already_exists_eq. unfold raw_of, with_raw. simpl.
    rewrite has_result_lookup, lookup_insert_same. reflexivity. }
  split; [apply lookup_insert_same|].
  split; [intros m' d' Hne; now apply lookup_insert_other|].
  split; [reflexivity|]. split; [reflexivity|].
  intros Hwf. unfold raw_of, with_raw. simpl.
  assert (Hwf' : wf_store (insert_result m d r (raw_of st)))
    by now apply wf_store_insert.
  split; [assumption | now apply wf_store_pairs_NoDup].
Qed.

Lemma add_result_inserts_or_overwrites_witness :
  wf_store Lab.store_ab /\
  exists st',
    MetricsPipelineRepository.add_result "knn" "emotions" Lab.result_b
      (Lab.holding Lab.store_ab PlainLoader []) = (Ok tt, st') /\
    lookup_result "knn" "emotions" (raw_of st') = Some Lab.result_b /\
    lookup_result "knn" "scene" (raw_of st') = Some Lab.result_b /\
    NoDup (pairs_of (raw_of st')).
Proof.
  assert (Hwf : wf_store Lab.store_ab) by wf_store_concrete.
  split; [exact Hwf|].
  destruct (add_result_inserts_or_overwrites
              (Lab.holding Lab.store_ab PlainLoader [])
              "knn" "emotions" Lab.result_b)
    as (st' & Ha & _ & Hl & Ho & _ & _ & Hw).
  exists st'. split; [exact Ha|]. split; [exact Hl|].
  split; [rewrite Ho; [reflexivity | discriminate]|].
  exact (proj2 (Hw Hwf)).
Defined.

(** C10. When the path ends in [.csv] and no file is there,
    [load_from_file] returns with the in-memory store as it was: the
    repository and the disk are unchanged (a warning is logged), and an
    entry put in by [add_result] just before is still there. *)
Theorem load_from_file_absent_keeps_store {T : Types} {Ext : Externals T}
  (st : State) :
  endswith (path_of st) ".csv" = true ->
  disk st (path_of st) = None ->
  (exists st',
     MetricsPipelineRepository.load_from_file st = (Ok tt, st') /\
     raw_of st' = raw_of st /\
     repository st' = repository st /\ disk st' = disk st /\
     trace st' = trace st ++ [Warn (FileDoesNotExist (path_of st))]) /\
  (forall m d r, exists st',
     (MetricsPipelineRepository.add_result m d r ;;
      MetricsPipelineRepository.load_from_file) st = (Ok tt, st') /\
     raw_of st' = insert_result m d r (raw_of st) /\
     lookup_result m d (raw_of st') = Some r).
Proof.
  intros Hcsv Hnone. split.
  - exists (logged (Warn (FileDoesNotExist (path_of st))) st).
    split; [now apply load_from_file_missing|]. repeat split.
  - intros m d r.
    exists (logged (Warn (FileDoesNotExist (path_of st)))
                   (with_raw (insert_result m d r (raw_of st)) st)).
    split.
    + unfold bind. rewrite add_result_eq.
      now rewrite load_from_file_missing.
    + split; [reflexivity|]. apply lookup_insert_same.
Qed.

Lemma load_from_file_absent_keeps_store_witness :
  endswith (path_of (Lab.holding Lab.store_ab PlainLoader [])) ".csv" = true /\
  disk (Lab.holding Lab.store_ab PlainLoader []) "metrics.csv" = None /\
  exists st',
    MetricsPipelineRepository.load_from_file
      (Lab.holding Lab.store_ab PlainLoader []) = (Ok tt, st') /\
    raw_of st' = Lab.store_ab.
Proof.
  split; [reflexivity|]. split; [reflexivity|].
  destruct (load_from_file_absent_keeps_store
              (Lab.holding Lab.store_ab PlainLoader []) eq_refl eq_refl)
    as [(st' & Hl & Hr & _) _].
  exists st'. split; [exact Hl | exact Hr].
Defined.

(** C6. [load_from_file] raises "only CSV files are supported" exactly
    when the path does not end in [.csv]; with a path that ends in [.csv]
    and no file there, it returns after logging a warning, and a
    repository constructed on that path holds an empty store. *)
Theorem load_fails_exactly_without_csv_extension {T : Types} {Ext : Externals T} :
  (forall st,
     (exists st', MetricsPipelineRepository.load_from_file st =
                  (Raise (Exception "only CSV files are supported"), st'))
     <-> endswith (path_of st) ".csv" = false) /\
  (forall st, endswith (path_of st) ".csv" = true ->
     disk st (path_of st) = None ->
     MetricsPipelineRepository.load_from_file st =
     (Ok tt, logged (Warn (FileDoesNotExist (path_of st))) st)) /\
  (forall st path, endswith path ".csv" = true -> disk st path = None ->
     exists st',
       MetricsPipelineRepository.init path None st = (Ok tt, st') /\
       repository st' = mkRepository path Dict.empty None /\
       disk st' = disk st /\
       trace st' = trace st ++ [Warn (FileDoesNotExist path)]).
Proof.
  split; [|split].
  - intros st. split.
    + intros [st' H]. destruct (endswith (path_of st) ".csv") eqn:E;
        [|reflexivity].
      destruct (disk st (path_of st)) as [content|] eqn:D.
      * destruct (read_csv content) as [e|df] eqn:R.
        -- rewrite (load_from_file_unreadable st content e) in H
             by assumption. discriminate.
        -- rewrite (load_from_file_present st content df) in H
             by assumption. discriminate.
      * rewrite load_from_file_missing in H by assumption. discriminate.
    + intros E. exists st. now apply load_from_file_not_csv.
  - intros st. apply load_from_file_missing.
  - intros st path Hcsv Hnone.
    exists (logged (Warn (FileDoesNotExist path))
              (mkState (mkRepository path Dict.empty None)
                       (datasets_loader st) (disk st) (trace st))).
    split; [|repeat split].
    unfold MetricsPipelineRepository.init. unfold bind at 1.
    now rewrite load_from_file_missing.
Qed.

Lemma load_fails_exactly_without_csv_extension_witness :
  endswith "metrics.csv" ".csv" = true /\
  disk (Lab.boot "metrics.tsv" PlainLoader []) "metrics.csv" = None /\
  (exists st',
     MetricsPipelineRepository.load_from_file
       (Lab.boot "metrics.tsv" PlainLoader []) =
     (Raise (Exception "only CSV files are supported"), st')) /\
  exists st',
    MetricsPipelineRepository.init "metrics.csv" None
      (Lab.boot "metrics.tsv" PlainLoader []) = (Ok tt, st') /\
    raw_of st' = Dict.empty.
Proof.
  destruct (@load_fails_exactly_without_csv_extension _ Lab.world)
    as (Hiff & _ & Hinit).
  split; [reflexivity|]. split; [reflexivity|]. split.
  - apply (proj2 (Hiff (Lab.boot "metrics.tsv" PlainLoader []))).
    reflexivity.
  - destruct (Hinit (Lab.boot "metrics.tsv" PlainLoader []) "metrics.csv"
                    eq_refl eq_refl) as (st' & Hi & Hr & _).
    exists st'. split; [exact Hi|]. unfold raw_of. now rewrite Hr.
Defined.

(** C9. [list_datasets] on a catalog that was constructed and not loaded
    raises "no datasets loaded"; after a [load] (of either class) that
    returned and left at least one dataset, [list_datasets] returns the
    loaded mapping and changes nothing; and a [load] that returns with at
    least one identifier configured does leave a dataset. *)
Theorem list_datasets_requires_load {T : Types} {Ext : Externals T} :
  (forall cls names st, exists st',
     (DatasetsLoader.init cls names ;; DatasetsLoader.list_datasets) st =
     (Raise (Exception "no datasets loaded"), st')) /\
  (forall st st1,
     MetricsPipeline.datasets_loader_load st = (Ok tt, st1) ->
     loaded_of st1 <> [] ->
     DatasetsLoader.list_datasets st1 = (Ok (loaded_of st1), st1)) /\
  (forall st st1,
     MetricsPipeline.datasets_loader_load st = (Ok tt, st1) ->
     dataset_names (datasets_loader st) <> [] ->
     loaded_of st1 <> []).
Proof.
  split; [|split].
  - intros cls names st. eexists. reflexivity.
  - intros st st1 _ Hne. rewrite list_datasets_eq.
    destruct (loaded_of st1); [now elim Hne | reflexivity].
  - intros st st1 Hload Hnames Hempty.
    destruct (dataset_names (datasets_loader st)) as [|name names] eqn:En;
      [now elim Hnames|].
    assert (Hc : Dict.contains name (loaded_of st1) = true).
    { apply (loader_load_populates st st1 Hload). rewrite En. now left. }
    rewrite Hempty in Hc. discriminate.
Qed.

Lemma list_datasets_requires_load_witness :
  let st := Lab.boot "metrics.csv" NormalizedLoader ["emotions"; "scene"] in
  let st1 := snd (MetricsPipeline.datasets_loader_load st) in
  MetricsPipeline.datasets_loader_load st = (Ok tt, st1) /\
  dataset_names (datasets_loader st) <> [] /\
  loaded_of st1 <> [] /\
  DatasetsLoader.list_datasets st1 = (Ok (loaded_of st1), st1).
Proof.
  intros st st1.
  destruct (@list_datasets_requires_load _ Lab.world) as (_ & Hlist & Hpop).
  assert (Hload : MetricsPipeline.datasets_loader_load st = (Ok tt, st1))
    by (vm_compute; reflexivity).
  assert (Hnames : dataset_names (datasets_loader st) <> [])
    by (vm_compute; discriminate).
  split; [exact Hload|]. split; [exact Hnames|].
  split; [exact (Hpop st st1 Hload Hnames)|].
  exact (Hlist st st1 Hload (Hpop st st1 Hload Hnames)).
Defined.

(** C8. [describe_dict] returns one row per stored (model, dataset) pair,
    in the order of the store; the row of a pair carries the two names and
    the six metrics, each passed through [round(_, 4)]; the call leaves the
    state as it was, so that a [save_to_file] after it writes what a
    [save_to_file] without it writes: the table of the unrounded values. *)
Theorem describe_dict_rounds_and_keeps_store {T : Types} {Ext : Externals T}
  (st : State) :
  exists rows,
    MetricsPipelineRepository.describe_dict st = (Ok rows, st) /\
    rows = map presented (evaluation_results_to_flat_table (raw_of st)) /\
    List.length rows = List.length (pairs_of (raw_of st)) /\
    (forall m d r, lookup_result m d (raw_of st) = Some r ->
       In [ ("model", Str m);
            ("dataset", Str d);
            ("accuracy", Num (round (accuracy r) 4));
            ("accuracy_std", Num (round (accuracy_std r) 4));
            ("hamming_loss", Num (round (hamming_loss r) 4));
            ("hamming_loss_std", Num (round (hamming_loss_std r) 4));
            ("f1", Num (round (f1 r) 4));
            ("f1_std", Num (round (f1_std r) 4)) ] rows) /\
    (MetricsPipelineRepository.describe_dict ;;
     MetricsPipelineRepository.save_to_file) st =
    MetricsPipelineRepository.save_to_file st /\
    disk (snd (MetricsPipelineRepository.save_to_file st)) (path_of st) =
    Some (to_csv (evaluation_results_to_flat_table (raw_of st))).
Proof.
  exists (map presented (evaluation_results_to_flat_table (raw_of st))).
  split; [apply describe_dict_eq|]. split; [reflexivity|].
  split; [now rewrite length_map, table_length|].
  split.
  { intros m d r H. apply lookup_in_table in H.
    apply (in_map presented) in H. exact H. }
  split.
  - unfold bind. now rewrite describe_dict_eq.
  - rewrite save_to_file_eq. simpl. now rewrite String.eqb_refl.
Qed.

Lemma describe_dict_rounds_and_keeps_store_witness :
  lookup_result "knn" "emotions" Lab.store_ab = Some Lab.result_a /\
  exists rows,
    MetricsPipelineRepository.describe_dict
      (Lab.holding Lab.store_ab PlainLoader []) =
    (Ok rows, Lab.holding Lab.store_ab PlainLoader []) /\
    In [ ("model", Str "knn");
         ("dataset", Str "emotions");
         ("accuracy", Num (6667 # 10000));
         ("accuracy_std", Num (0 # 1));
         ("hamming_loss", Num (2857 # 10000));
         ("hamming_loss_std", Num (1429 # 10000));
         ("f1", Num (6667 # 10000));
         ("f1_std", Num (247 # 2000)) ] rows.
Proof.
  split; [reflexivity|].
  destruct (describe_dict_rounds_and_keeps_store
              (Lab.holding Lab.store_ab PlainLoader []))
    as (rows & Hd & _ & _ & Hin & _).
  exists rows. split; [exact Hd|].
  exact (Hin "knn" "emotions" Lab.result_a eq_refl).
Defined.







(** On an attribute file the plain catalog stores what the normalized
    one stores: the scaled matrix. *)
Example plain_catalog_on_arff_file :
  exists st1 st2 info,
    DatasetsLoader.load
      (Lab.boot "metrics.csv" PlainLoader ["./data/ariane.arff"])
    = (Ok tt, st1) /\
    DatasetsLoaderNormalized.load
      (Lab.boot "metrics.csv" PlainLoader ["./data/ariane.arff"])
    = (Ok tt, st2) /\
    Dict.get "./data/ariane.arff" (loaded_of st1) = Some info /\
    X info = [[1 # 2; 0]; [-1; 0]]%Q /\
    Lab.ariane_X = [[3; 0]; [-6; 0]]%Q /\
    loaded_of st2 = loaded_of st1.
Proof. do 3 eexists. repeat split; vm_compute; reflexivity. Qed.


(** ** The orchestrator *)

Lemma run_eq {T : Types} {Ext : Externals T}
  (this : MetricsPipelineObj) (st : State) datasets st1 :
  MetricsPipeline.run_setup this st = (Ok datasets, st1) ->
  MetricsPipeline.run this st =
  match run_pairs this (Dict.len datasets * Dict.len (models this))
          (list_prod (Dict.items (models this)) (Dict.items datasets))
          0 st1 with
  | (Ok _, st2) => (Ok tt, logged (Info FinishedAllEvaluations) st2)
  | (Raise e, st2) => (Raise e, st2)
  end.
Proof.
  intros H. unfold MetricsPipeline.run. unfold bind at 1. rewrite H.
  unfold bind. rewrite run_loop_pairs.
  now destruct (run_pairs _ _ _ _ _) as [[idx|e] st2].
Qed.


Lemma run_setup_raises {T : Types} {Ext : Externals T}
  (this : MetricsPipelineObj) (st : State) e st1 :
  MetricsPipeline.run_setup this st = (Raise e, st1) ->
  MetricsPipeline.run this st = (Raise e, st1).
Proof.
  intros H. unfold MetricsPipeline.run. unfold bind at 1. now rewrite H.
Qed.



(** C5. Let the setup of [run] return, let the cross product be
    [before ++ (m, d) :: after], let the loop get through [before], and let
    the Evaluator raise [e] on (m, d), which is not stored. Then [run]
    raises [e] there: the Evaluator was called for the pairs [done] it
    completed within [before] and last for (m, d) and for nothing else,
    each completed pair was saved, the store and the disk are as the last
    completed pair left them, and every completed pair has its result in
    the store and its row in the file. *)
Theorem run_aborts_on_evaluator_failure {T : Types} {Ext : Externals T}
  (this : MetricsPipelineObj) (st st1 st2 : State)
  (datasets : Dict.t DatasetInfo)
  (before after : list ((string * Model) * (string * DatasetInfo)))
  (m : string) (model : Model) (d : string) (info : DatasetInfo)
  (idx : nat) (e : ForeignError) :
  MetricsPipeline.run_setup this st = (Ok datasets, st1) ->
  list_prod (Dict.items (models this)) (Dict.items datasets) =
    before ++ ((m, model), (d, info)) :: after ->
  run_pairs this (Dict.len datasets * Dict.len (models this)) before 0 st1 =
    (Ok idx, st2) ->
  has_result m d (raw_of st2) = false ->
  evaluation_run model (n_folds this) (X info) (y info) = inl e ->
  exists st' done,
    MetricsPipeline.run this st = (Raise (Foreign e), st') /\
    raw_of st' = raw_of st2 /\ disk st' = disk st2 /\
    evaluator_calls (trace st') =
      evaluator_calls (trace st) ++ done ++ [(m, d)] /\
    List.length (saves (trace st')) =
      (List.length (saves (trace st)) + List.length done)%nat /\
    forall m' d', In (m', d') done ->
      (exists model' info', In ((m', model'), (d', info')) before) /\
      exists r table,
        lookup_result m' d' (raw_of st') = Some r /\
        disk st' (path_of st') = Some (to_csv table) /\
        In (row_of m' d' r) table.
Proof.
  intros Hsetup Hpairs Hbefore Hnew Hfail.
  destruct (run_setup_frame this st _ st1 Hsetup)
    as (_ & _ & (d0 & Ht0 & Hc0 & Hs0) & _).
  pose proof (run_pairs_progress _ _ _ _ _ _ _ Hbefore) as Hprog.
  destruct Hprog as (Hp & _ & dl & Ht & _ & Hc & Hn & Hs & Ho & _).
  destruct (Ho idx eq_refl) as [Hlen Hdone].
  exists (failed (mkLogFields m d (n_folds this) (idx + 1)
                    (Dict.len datasets * Dict.len (models this))) st2),
         (evaluator_calls dl).
  split.
  { rewrite (run_eq this st datasets st1 Hsetup), Hpairs.
    unfold run_pairs in *. rewrite for_each_app, Hbefore. simpl.
    unfold bind. now rewrite (run_one_fail _ _ _ _ _ _ _ _ e). }
  split; [reflexivity|]. split; [reflexivity|]. simpl.
  rewrite Ht, Ht0, !evaluator_calls_app, !saves_app, Hc0, Hs0. simpl.
  rewrite !app_nil_r, <- app_assoc. split; [reflexivity|].
  split; [rewrite length_app; congruence|].
  intros m' d' Hin. destruct (Hc m' d' Hin) as [_ Hsrc].
  split; [exact Hsrc|].
  specialize (Hdone m' d' Hin). apply has_result_true in Hdone.
  destruct Hdone as [r Hr].
  exists r, (evaluation_results_to_flat_table (raw_of st2)).
  split; [exact Hr|]. split.
  - unfold path_of. simpl. fold (path_of st2). rewrite Hp. apply Hs.
    destruct (saves dl); [|discriminate].
    destruct (evaluator_calls dl); [contradiction | discriminate].
  - now apply lookup_in_table.
Qed.

Lemma run_aborts_on_evaluator_failure_witness :
  let st := Lab.boot "metrics.csv" NormalizedLoader ["emotions"; "scene"] in
  let st1 := snd (MetricsPipeline.run_setup Lab.with_flaky st) in
  let emotions := entry_of (fit_transform Lab.emotions_X) Lab.emotions_y in
  let scene := entry_of (fit_transform Lab.scene_X) Lab.scene_y in
  let before := [(("knn", "knn"), ("emotions", emotions));
                 (("knn", "knn"), ("scene", scene))] in
  let after := [(("flaky", "flaky"), ("scene", scene));
                (("chain", "chain"), ("emotions", emotions));
                (("chain", "chain"), ("scene", scene))] in
  let st2 := snd (run_pairs Lab.with_flaky 6 before 0 st1) in
  MetricsPipeline.run_setup Lab.with_flaky st = (Ok (loaded_of st1), st1) /\
  list_prod (Dict.items (models Lab.with_flaky)) (Dict.items (loaded_of st1)) =
    before ++ (("flaky", "flaky"), ("emotions", emotions)) :: after /\
  run_pairs Lab.with_flaky 6 before 0 st1 = (Ok 2%nat, st2) /\
  has_result "flaky" "emotions" (raw_of st2) = false /\
  evaluation_run "flaky" 10 (X emotions) (y emotions) = inl "ValueError" /\
  exists st',
    MetricsPipeline.run Lab.with_flaky st = (Raise (Foreign "ValueError"), st') /\
    evaluator_calls (trace st') =
      [("knn", "emotions"); ("knn", "scene"); ("flaky", "emotions")] /\
    List.length (saves (trace st')) = 2%nat /\
    exists r table,
      lookup_result "knn" "scene" (raw_of st') = Some r /\
      disk st' "metrics.csv" = Some table /\
      In (row_of "knn" "scene" r) table.
Proof.
  intros st st1 emotions scene before after st2.
  assert (H1 : MetricsPipeline.run_setup Lab.with_flaky st =
               (Ok (loaded_of st1), st1)) by (vm_compute; reflexivity).
  assert (H2 : list_prod (Dict.items (models Lab.with_flaky))
                         (Dict.items (loaded_of st1)) =
               before ++ (("flaky", "flaky"), ("emotions", emotions)) :: after)
    by (vm_compute; reflexivity).
  assert (H3 : run_pairs Lab.with_flaky
                 (Dict.len (loaded_of st1) * Dict.len (models Lab.with_flaky))
                 before 0 st1 = (Ok 2%nat, st2))
    by (vm_compute; reflexivity).
  assert (H4 : has_result "flaky" "emotions" (raw_of st2) = false)
    by (vm_compute; reflexivity).
  assert (H5 : evaluation_run "flaky" (n_folds Lab.with_flaky)
                 (X emotions) (y emotions) = inl "ValueError")
    by (vm_compute; reflexivity).
  split; [exact H1|]. split; [exact H2|]. split; [exact H3|].
  split; [exact H4|]. split; [exact H5|].
  destruct (run_aborts_on_evaluator_failure Lab.with_flaky st st1 st2
              _ before after "flaky" "flaky" "emotions" emotions 2
              "ValueError" H1 H2 H3 H4 H5)
    as (st' & done & Hrun & Hraw & Hdisk & Hcalls & Hsaves & Hdone).
  assert (Hd : done = [("knn", "emotions"); ("knn", "scene")]).
  { assert (Hc0 : evaluator_calls (trace st') =
                  [("knn", "emotions"); ("knn", "scene");
                   ("flaky", "emotions")]).
    { replace st' with (snd (MetricsPipeline.run Lab.with_flaky st))
        by now rewrite Hrun.
      vm_compute. reflexivity. }
    rewrite Hcalls in Hc0. simpl in Hc0.
    change [("knn", "emotions"); ("knn", "scene"); ("flaky", "emotions")]
      with ([("knn", "emotions"); ("knn", "scene")] ++ [("flaky", "emotions")])
      in Hc0.
    now apply app_inv_tail in Hc0. }
  exists st'. split; [exact Hrun|].
  split; [rewrite Hcalls, Hd; reflexivity|].
  split; [rewrite Hsaves, Hd; reflexivity|].
  destruct (Hdone "knn" "scene") as [_ (r & table & Hl & Hf & Hin)].
  { rewrite Hd. right. now left. }
  exists r, table. split; [exact Hl|]. split; [|exact Hin].
  replace "metrics.csv" with (path_of st'); [exact Hf|].
  replace st' with (snd (MetricsPipeline.run Lab.with_flaky st))
    by now rewrite Hrun.
  vm_compute. reflexivity.
Defined.

Lemma has_result_insert_other {F} m d (r : EvaluationPipelineResult F)
  raw m' d' :
  (m', d') <> (m, d) ->
  has_result m' d' (insert_result m d r raw) = has_result m' d' raw.
Proof.
  intros H. now rewrite !has_result_lookup, lookup_insert_other.
Qed.

Lemma raw_of_evaluated {T : Types} {Ext : Externals T} f r (st : State) :
  raw_of (evaluated f r st) =
  insert_result (lf_model f) (lf_dataset f) r (raw_of st).
Proof. reflexivity. Qed.

Lemma disk_evaluated {T : Types} {Ext : Externals T} f r (st : State) :
  disk (evaluated f r st) (path_of st) =
  Some (to_csv (evaluation_results_to_flat_table (raw_of (evaluated f r st)))).
Proof. simpl. now rewrite String.eqb_refl. Qed.

(** C4. With the models A and B (two names), the datasets D1 and D2 (two
    names), ten folds, an empty store once the setup of [run] has returned,
    and an Evaluator that returns on each of the four pairs: [run]
    returns; the store holds exactly the four pairs with the results the
    Evaluator gave; the Evaluator was called four times, once per pair in
    the order of the loops; the file was saved four times and holds the
    table of the store; and [describe_dict] gives four rows, each with the
    keys model, dataset, accuracy, accuracy_std, hamming_loss,
    hamming_loss_std, f1, f1_std. *)
Theorem full_run_two_models_two_datasets {T : Types} {Ext : Externals T}
  (A B D1 D2 : string) (a b : Model) (i1 i2 : DatasetInfo)
  (rA1 rA2 rB1 rB2 : EvaluationPipelineResult float) (st st1 : State) :
  A <> B -> D1 <> D2 ->
  MetricsPipeline.run_setup (mkPipeline [(A, a); (B, b)] 10) st =
    (Ok [(D1, i1); (D2, i2)], st1) ->
  raw_of st1 = Dict.empty ->
  evaluation_run a 10 (X i1) (y i1) = inr rA1 ->
  evaluation_run a 10 (X i2) (y i2) = inr rA2 ->
  evaluation_run b 10 (X i1) (y i1) = inr rB1 ->
  evaluation_run b 10 (X i2) (y i2) = inr rB2 ->
  exists st' delta rows,
    MetricsPipeline.run (mkPipeline [(A, a); (B, b)] 10) st = (Ok tt, st') /\
    trace st' = trace st ++ delta /\
    raw_of st' = [(A, [(D1, rA1); (D2, rA2)]); (B, [(D1, rB1); (D2, rB2)])] /\
    pairs_of (raw_of st') = [(A, D1); (A, D2); (B, D1); (B, D2)] /\
    evaluator_calls delta = [(A, D1); (A, D2); (B, D1); (B, D2)] /\
    saves delta = [path_of st; path_of st; path_of st; path_of st] /\
    disk st' (path_of st) =
      Some (to_csv (evaluation_results_to_flat_table (raw_of st'))) /\
    MetricsPipelineRepository.describe_dict st' = (Ok rows, st') /\
    List.length rows = 4%nat /\
    Forall (fun row =>
              Dict.keys row =
              ["model"; "dataset"; "accuracy"; "accuracy_std";
               "hamming_loss"; "hamming_loss_std"; "f1"; "f1_std"]) rows.
Proof.
  intros HAB HD Hsetup Hempty E1 E2 E3 E4.
  destruct (run_setup_frame _ st _ st1 Hsetup)
    as (Hpath & _ & (d0 & Ht0 & Hc0 & Hs0) & _).
  assert (HBA : String.eqb B A = false)
    by (apply String.eqb_neq; congruence).
  assert (HD21 : String.eqb D2 D1 = false)
    by (apply String.eqb_neq; congruence).
  set (total := (Dict.len [(D1, i1); (D2, i2)] *
                 Dict.len (models (mkPipeline [(A, a); (B, b)] 10)))%nat).
  set (f1 := mkLogFields A D1 10 1 total).
  set (f2 := mkLogFields A D2 10 2 total).
  set (f3 := mkLogFields B D1 10 3 total).
  set (f4 := mkLogFields B D2 10 4 total).
  set (s1 := evaluated f1 rA1 st1).
  set (s2 := evaluated f2 rA2 s1).
  set (s3 := evaluated f3 rB1 s2).
  set (s4 := evaluated f4 rB2 s3).
  assert (Hrun : MetricsPipeline.run (mkPipeline [(A, a); (B, b)] 10) st =
                 (Ok tt, logged (Info FinishedAllEvaluations) s4)).
  { rewrite (run_eq _ st _ st1 Hsetup). fold total.
    change (list_prod (Dict.items (models (mkPipeline [(A, a); (B, b)] 10)))
                      (Dict.items [(D1, i1); (D2, i2)]))
      with [((A, a), (D1, i1)); ((A, a), (D2, i2));
            ((B, b), (D1, i1)); ((B, b), (D2, i2))].
    unfold run_pairs. rewrite for_each_cons.
    rewrite (run_one_eval _ _ _ _ _ _ _ _ rA1);
      [|rewrite Hempty; reflexivity | exact E1].
    fold f1 s1. rewrite for_each_cons.
    rewrite (run_one_eval _ _ _ _ _ _ _ _ rA2); [| |exact E2].
    2:{ unfold s3, s2, s1. rewrite !raw_of_evaluated.
        cbn [lf_model lf_dataset f1 f2 f3].
        rewrite !has_result_insert_other by congruence.
        rewrite Hempty. reflexivity. }
    fold f2 s2. rewrite for_each_cons.
    rewrite (run_one_eval _ _ _ _ _ _ _ _ rB1); [| |exact E3].
    2:{ unfold s3, s2, s1. rewrite !raw_of_evaluated.
        cbn [lf_model lf_dataset f1 f2 f3].
        rewrite !has_result_insert_other by congruence.
        rewrite Hempty. reflexivity. }
    fold f3 s3. rewrite for_each_cons.
    rewrite (run_one_eval _ _ _ _ _ _ _ _ rB2); [| |exact E4].
    2:{ unfold s3, s2, s1. rewrite !raw_of_evaluated.
        cbn [lf_model lf_dataset f1 f2 f3].
        rewrite !has_result_insert_other by congruence.
        rewrite Hempty. reflexivity. }
    reflexivity. }
  assert (Hraw : raw_of s4 =
                 [(A, [(D1, rA1); (D2, rA2)]); (B, [(D1, rB1); (D2, rB2)])]).
  { unfold s4, s3, s2, s1. rewrite !raw_of_evaluated, Hempty.
    cbn [lf_model lf_dataset f1 f2 f3 f4]. rewrite !insert_result_eq.
    repeat (progress (simpl; rewrite ?String.eqb_refl, ?HBA, ?HD21)).
    reflexivity. }
  assert (Hdisk : disk s4 (path_of st) =
                  Some (to_csv (evaluation_results_to_flat_table (raw_of s4)))).
  { rewrite <- Hpath. change (path_of st1) with (path_of s3).
    apply disk_evaluated. }
  rewrite Hraw in Hdisk.
  exists (logged (Info FinishedAllEvaluations) s4).
  exists (d0 ++ [Info (RunningEvaluation f1); Evaluated A D1;
                 Saved (path_of st); Info (EvaluationFinished f1);
                 Info (RunningEvaluation f2); Evaluated A D2;
                 Saved (path_of st); Info (EvaluationFinished f2);
                 Info (RunningEvaluation f3); Evaluated B D1;
                 Saved (path_of st); Info (EvaluationFinished f3);
                 Info (RunningEvaluation f4); Evaluated B D2;
                 Saved (path_of st); Info (EvaluationFinished f4);
                 Info FinishedAllEvaluations]).
  exists (map presented
            (evaluation_results_to_flat_table
               (raw_of (logged (Info FinishedAllEvaluations) s4)))).
  split; [exact Hrun|].
  split.
  { unfold logged, s4, s3, s2, s1, evaluated, path_of. simpl.
    fold (path_of st1). rewrite Hpath, Ht0, <- !app_assoc. reflexivity. }
  change (raw_of (logged (Info FinishedAllEvaluations) s4)) with (raw_of s4).
  rewrite Hraw.
  split; [reflexivity|]. split; [reflexivity|].
  split; [rewrite evaluator_calls_app, Hc0; reflexivity|].
  split; [rewrite saves_app, Hs0; reflexivity|].
  split.
  { exact Hdisk. }
  split.
  { rewrite describe_dict_eq.
    change (raw_of (logged (Info FinishedAllEvaluations) s4)) with (raw_of s4).
    now rewrite Hraw. }
  split; [reflexivity|].
  repeat constructor.
Qed.

Lemma full_run_two_models_two_datasets_witness :
  let st := Lab.boot "metrics.csv" NormalizedLoader ["emotions"; "scene"] in
  let st1 := snd (MetricsPipeline.run_setup Lab.two_models st) in
  let i1 := entry_of (fit_transform Lab.emotions_X) Lab.emotions_y in
  let i2 := entry_of (fit_transform Lab.scene_X) Lab.scene_y in
  let knn := mkResult (5 # 3) (1 # 30000) (5 # 7) (1 # 7) (2 # 3)
                      (1929 # 15625) in
  let chain := mkResult (7 # 3) (1 # 30000) (1 # 1) (1 # 7) (2 # 3)
                        (1929 # 15625) in
  "knn" <> "chain" /\ "emotions" <> "scene" /\
  MetricsPipeline.run_setup Lab.two_models st =
    (Ok [("emotions", i1); ("scene", i2)], st1) /\
  raw_of st1 = Dict.empty /\
  evaluation_run "knn" 10 (X i1) (y i1) = inr knn /\
  evaluation_run "knn" 10 (X i2) (y i2) = inr knn /\
  evaluation_run "chain" 10 (X i1) (y i1) = inr chain /\
  evaluation_run "chain" 10 (X i2) (y i2) = inr chain /\
  exists st',
    MetricsPipeline.run Lab.two_models st = (Ok tt, st') /\
    List.length (pairs_of (raw_of st')) = 4%nat /\
    List.length (evaluator_calls (trace st')) = 4%nat /\
    List.length (saves (trace st')) = 4%nat.
Proof.
  intros st st1 i1 i2 knn chain.
  assert (HAB : "knn" <> "chain") by discriminate.
  assert (HD : "emotions" <> "scene") by discriminate.
  assert (Hsetup : MetricsPipeline.run_setup Lab.two_models st =
                   (Ok [("emotions", i1); ("scene", i2)], st1))
    by (vm_compute; reflexivity).
  assert (Hempty : raw_of st1 = Dict.empty) by (vm_compute; reflexivity).
  assert (E1 : evaluation_run "knn" 10 (X i1) (y i1) = inr knn)
    by (vm_compute; reflexivity).
  assert (E2 : evaluation_run "knn" 10 (X i2) (y i2) = inr knn)
    by (vm_compute; reflexivity).
  assert (E3 : evaluation_run "chain" 10 (X i1) (y i1) = inr chain)
    by (vm_compute; reflexivity).
  assert (E4 : evaluation_run "chain" 10 (X i2) (y i2) = inr chain)
    by (vm_compute; reflexivity).
  repeat (split; [assumption|]).
  destruct (full_run_two_models_two_datasets (T := Lab.types)
              "knn" "chain" "emotions" "scene" "knn" "chain" i1 i2
              knn knn chain chain st st1 HAB HD Hsetup Hempty E1 E2 E3 E4)
    as (st' & delta & rows & Hrun & Ht & _ & Hp & Hc & Hs & _).
  exists st'. split; [exact Hrun|].
  rewrite Ht, Hp. change (trace st) with (@nil Event). simpl.
  rewrite Hc, Hs. repeat split.
Defined.

(* ================================================================== *)
(** * Further properties of the catalog *)

Section CatalogMore.
Context {T : Types} {Ext : Externals T}.

Lemma existsb_eqb_In n (seen : list string) :
  existsb (String.eqb n) seen = true <-> In n seen.
Proof.
  rewrite existsb_exists. split.
  - intros [x [Hin Heq]]. apply String.eqb_eq in Heq. now subst.
  - intros Hin. exists n. split; [assumption | apply String.eqb_refl].
Qed.

Lemma contains_existsb {V} k (d : Dict.t V) :
  Dict.contains k d = existsb (String.eqb k) (Dict.keys d).
Proof.
  unfold Dict.contains. induction d as [|[k' v] d IH]; simpl.
  - reflexivity.
  - destruct (String.eqb k k'); [reflexivity | exact IH].
Qed.

Lemma keys_set_seen {V} k (v : V) (d : Dict.t V) :
  Dict.keys (Dict.set k v d) =
  if existsb (String.eqb k) (Dict.keys d) then Dict.keys d
  else Dict.keys d ++ [k].
Proof. rewrite keys_set. now rewrite contains_existsb. Qed.

Lemma seen_In names : forall seen x,
  In x (fold_left (fun seen name =>
                     if existsb (String.eqb name) seen then seen
                     else seen ++ [name]) names seen)
  <-> In x seen \/ In x names.
Proof.
  induction names as [|n names IH]; intros seen x; simpl.
  - tauto.
  - rewrite IH. destruct (existsb (String.eqb n) seen) eqn:E.
    + apply existsb_eqb_In in E. split; [tauto|].
      intros [H|[<-|H]]; auto.
    + rewrite in_app_iff. simpl. tauto.
Qed.

Lemma seen_NoDup names : forall seen,
  NoDup seen ->
  NoDup (fold_left (fun seen name =>
                      if existsb (String.eqb name) seen then seen
                      else seen ++ [name]) names seen).
Proof.
  induction names as [|n names IH]; intros seen H; simpl; [assumption|].
  apply IH. destruct (existsb (String.eqb n) seen) eqn:E; [assumption|].
  apply NoDup_app; [assumption | repeat constructor; tauto|].
  intros x Hx [<-|[]]. apply existsb_eqb_In in Hx. congruence.
Qed.

Lemma seen_distinct names : forall seen,
  NoDup (seen ++ names) ->
  fold_left (fun seen name =>
               if existsb (String.eqb name) seen then seen
               else seen ++ [name]) names seen = seen ++ names.
Proof.
  induction names as [|n names IH]; intros seen H; simpl.
  - now rewrite app_nil_r.
  - destruct (existsb (String.eqb n) seen) eqn:E.
    + apply existsb_eqb_In in E. apply NoDup_remove_2 in H.
      exfalso. apply H. apply in_or_app. now left.
    + rewrite IH; rewrite <- app_assoc; [reflexivity | exact H].
Qed.

Lemma load_step_ok cls n info st :
  fetch cls n = Ok info ->
  load_step cls n tt st =
  (Ok tt,
   mkState (repository st)
           (mkLoader (loader_class (datasets_loader st))
                     (dataset_names (datasets_loader st))
                     (Dict.set n info (loaded_of st)))
           (disk st) (trace st ++ [Printed (GettingDataset n)])).
Proof.
  intros H. unfold load_step, print, emit, bind, DatasetsLoader.self,
    DatasetsLoader.set_loaded_datasets. now rewrite H.
Qed.

Lemma load_step_raise cls n e st :
  fetch cls n = Raise e ->
  load_step cls n tt st = (Raise e, logged (Printed (GettingDataset n)) st).
Proof.
  intros H. unfold load_step, print, emit, bind, raise. now rewrite H.
Qed.

(** A loop whose identifiers all resolve returns, having printed each
    identifier and stored each under its first position. *)
Lemma load_loop_ok cls names : forall st,
  (forall n, In n names -> exists info, fetch cls n = Ok info) ->
  exists st',
    for_each names (load_step cls) tt st = (Ok tt, st') /\
    repository st' = repository st /\ disk st' = disk st /\
    loader_class (datasets_loader st') = loader_class (datasets_loader st) /\
    dataset_names (datasets_loader st') = dataset_names (datasets_loader st) /\
    trace st' = trace st ++ map (fun n => Printed (GettingDataset n)) names /\
    Dict.keys (loaded_of st') =
    fold_left (fun seen name =>
                 if existsb (String.eqb name) seen then seen
                 else seen ++ [name]) names (Dict.keys (loaded_of st)).
Proof.
  induction names as [|n names IH]; intros st Hall.
  - exists st. simpl. rewrite app_nil_r. repeat split.
  - destruct (Hall n (or_introl eq_refl)) as [info Hf].
    rewrite for_each_cons, (load_step_ok cls n info st Hf).
    destruct (IH (mkState (repository st)
                    (mkLoader (loader_class (datasets_loader st))
                              (dataset_names (datasets_loader st))
                              (Dict.set n info (loaded_of st)))
                    (disk st) (trace st ++ [Printed (GettingDataset n)])))
      as (st' & Hrun & Hr & Hd & Hc & Hn & Ht & Hk).
    { intros n' Hin. apply Hall. now right. }
    exists st'. split; [exact Hrun|]. simpl in *.
    repeat split; try assumption.
    + now rewrite Ht, <- app_assoc.
    + rewrite Hk. unfold loaded_of. simpl. now rewrite keys_set_seen.
Qed.

Lemma load_loop_ok_inv cls names : forall st st',
  for_each names (load_step cls) tt st = (Ok tt, st') ->
  forall n, In n names -> exists info, fetch cls n = Ok info.
Proof.
  induction names as [|n names IH]; intros st st' H n' Hin; [contradiction|].
  rewrite for_each_cons in H.
  destruct (fetch cls n) as [info|e] eqn:Hf.
  - rewrite (load_step_ok cls n info st Hf) in H.
    destruct Hin as [<-|Hin]; [eauto | eapply IH; eassumption].
  - rewrite (load_step_raise cls n e st Hf) in H. discriminate.
Qed.

(** What the loop leaves loaded depends on what was loaded, not on the
    rest of the state. *)
Lemma load_loop_same cls names : forall st st' o st1,
  loaded_of st = loaded_of st' ->
  for_each names (load_step cls) tt st = (o, st1) ->
  exists st1',
    for_each names (load_step cls) tt st' = (o, st1') /\
    loaded_of st1' = loaded_of st1.
Proof.
  induction names as [|n names IH]; intros st st' o st1 Hl H.
  - injection H as <- <-. exists st'. split; [reflexivity | now symmetry].
  - rewrite for_each_cons in *.
    destruct (fetch cls n) as [info|e] eqn:Hf.
    + rewrite (load_step_ok cls n info st Hf) in H.
      rewrite (load_step_ok cls n info st' Hf).
      eapply IH; [|exact H]. unfold loaded_of in *. simpl. now rewrite Hl.
    + rewrite (load_step_raise cls n e st Hf) in H.
      rewrite (load_step_raise cls n e st' Hf).
      injection H as <- <-. eexists. split; [reflexivity|].
      unfold loaded_of in *. simpl. now symmetry.
Qed.

Lemma fetch_resolved cls n X0 y0 :
  source n = inr (Some (X0, y0)) -> exists info, fetch cls n = Ok info.
Proof.
  unfold source, fetch. intros ->. destruct cls; eauto.
Qed.

Lemma fetch_resolved_inv cls n info :
  fetch cls n = Ok info -> exists X0 y0, source n = inr (Some (X0, y0)).
Proof.
  unfold source, fetch.
  destruct (if endswith n ".arff" then load_from_arff n 5
            else load_dataset n "undivided") as [e|[[X0 y0]|]];
    try discriminate.
  eauto.
Qed.

Lemma fetch_unresolved cls n :
  source n = inr None -> fetch cls n = Raise (not_found n).
Proof. unfold source, fetch. now intros ->. Qed.

Lemma fetch_foreign cls n e :
  source n = inl e -> fetch cls n = Raise (Foreign e).
Proof. unfold source, fetch. now intros ->. Qed.

(** The counts of a fetched entry are the shapes of its matrices. *)
Lemma fetch_counts cls n info :
  fetch cls n = Ok info ->
  rows info = fst (features_shape (X info)) /\
  features_count info = snd (features_shape (X info)) /\
  labels_count info = snd (labels_shape (y info)).
Proof.
  unfold fetch.
  destruct (if endswith n ".arff" then load_from_arff n 5
            else load_dataset n "undivided") as [e|[[X0 y0]|]];
    try discriminate.
  destruct cls; intros [= <-]; repeat split.
Qed.

Lemma loader_load_entries st o st1 :
  MetricsPipeline.datasets_loader_load st = (o, st1) ->
  forall name info, Dict.get name (loaded_of st1) = Some info ->
                    fetch (loader_class (datasets_loader st)) name = Ok info.
Proof.
  rewrite loader_load_eq.
  destruct (for_each _ _ tt (cleared st)) as [[[]|e] st2] eqn:E;
    intros [= <- <-] name info Hg;
    apply (load_loop_entries _ _ _ _ _ E); try exact Hg;
    intros n i; discriminate.
Qed.

Lemma loader_describe_loop (l : Dict.t DatasetInfo) :
  forall (results : list (Dict.t InfoCell)) (st : State),
  for_each l
    (fun '(name, info) results =>
       ret (results ++
            [[ ("dataset", Name name);
               ("rows", Count (rows info));
               ("features_count", Count (features_count info));
               ("labels_count", Count (labels_count info)) ]]))
    results st =
  (Ok (results ++
       map (fun '(name, info) =>
              [ ("dataset", Name name);
                ("rows", Count (rows info));
                ("features_count", Count (features_count info));
                ("labels_count", Count (labels_count info)) ]) l), st).
Proof.
  induction l as [|[name info] l IH]; intros results st; simpl.
  - now rewrite app_nil_r.
  - unfold bind, ret. fold (@ret T). rewrite IH, <- app_assoc. reflexivity.
Qed.

Lemma loader_describe_json_eq (st : State) :
  DatasetsLoader.describe_json st =
  (Ok (map (fun '(name, info) =>
              [ ("dataset", Name name);
                ("rows", Count (rows info));
                ("features_count", Count (features_count info));
                ("labels_count", Count (labels_count info)) ])
           (loaded_of st)), st).
Proof.
  unfold DatasetsLoader.describe_json, DatasetsLoader.self, bind, loaded_of,
    Dict.items.
  apply (loader_describe_loop (loaded_datasets (datasets_loader st)) [] st).
Qed.

End CatalogMore.

(** X1. When [load] (of either class) returns, the catalog holds one
    dataset per distinct identifier, in the order in which the identifiers
    first occur in [dataset_names]: an identifier that is listed twice is
    fetched twice and stored once, and a list without repetition is
    reproduced as it is. *)
Theorem load_stores_first_occurrences {T : Types} {Ext : Externals T}
  (st st1 : State) :
  MetricsPipeline.datasets_loader_load st = (Ok tt, st1) ->
  Dict.keys (loaded_of st1) =
    first_occurrences (dataset_names (datasets_loader st)) /\
  NoDup (Dict.keys (loaded_of st1)) /\
  (forall n, In n (Dict.keys (loaded_of st1)) <->
             In n (dataset_names (datasets_loader st))) /\
  printed_datasets (trace st1) =
    printed_datasets (trace st) ++ dataset_names (datasets_loader st) /\
  (NoDup (dataset_names (datasets_loader st)) ->
   Dict.keys (loaded_of st1) = dataset_names (datasets_loader st)).
Proof.
  rewrite loader_load_eq.
  destruct (for_each _ _ tt (cleared st)) as [[[]|e] st2] eqn:E;
    [|discriminate].
  intros [= <-].
  destruct (load_loop_ok _ _ (cleared st) (load_loop_ok_inv _ _ _ _ E))
    as (st2' & E' & _ & _ & _ & _ & Ht & Hk).
  rewrite E in E'. injection E' as <-.
  change (loaded_of (logged (Info FinishedGettingDatasets) st2))
    with (loaded_of st2).
  assert (Hkeys : Dict.keys (loaded_of st2) =
                  first_occurrences (dataset_names (datasets_loader st)))
    by exact Hk.
  rewrite Hkeys. unfold first_occurrences.
  split; [reflexivity|]. split; [apply seen_NoDup; constructor|].
  split; [intros n; rewrite seen_In; simpl; tauto|].
  split.
  - simpl. rewrite Ht. simpl. unfold printed_datasets.
    rewrite !flat_map_app. simpl. rewrite app_nil_r. f_equal.
    clear. induction (dataset_names (datasets_loader st)) as [|n l IH];
      simpl; [reflexivity | now rewrite IH].
  - intros Hnd. now rewrite seen_distinct.
Qed.

Lemma load_stores_first_occurrences_witness :
  let st := Lab.boot "metrics.csv" NormalizedLoader
                     ["scene"; "emotions"; "scene"] in
  let st1 := snd (MetricsPipeline.datasets_loader_load st) in
  MetricsPipeline.datasets_loader_load st = (Ok tt, st1) /\
  Dict.keys (loaded_of st1) = ["scene"; "emotions"] /\
  printed_datasets (trace st1) = ["scene"; "emotions"; "scene"].
Proof.
  intros st st1.
  assert (Hload : MetricsPipeline.datasets_loader_load st = (Ok tt, st1))
    by (vm_compute; reflexivity).
  destruct (load_stores_first_occurrences st st1 Hload)
    as (Hk & _ & _ & Hp & _).
  split; [exact Hload|]. split; [exact Hk | exact Hp].
Defined.

(** X2. What [load] leaves loaded, and whether it raises, depends on the
    class of the catalog and on its identifiers only: whatever was loaded
    before is dropped, so that two catalogs of the same class with the
    same identifiers end with the same datasets, and a second [load]
    leaves what the first one left. *)
Theorem load_forgets_what_was_loaded {T : Types} {Ext : Externals T}
  (st st' : State) (o : outcome unit) (st1 : State) :
  loader_class (datasets_loader st') = loader_class (datasets_loader st) ->
  dataset_names (datasets_loader st') = dataset_names (datasets_loader st) ->
  MetricsPipeline.datasets_loader_load st = (o, st1) ->
  (exists st1',
     MetricsPipeline.datasets_loader_load st' = (o, st1') /\
     loaded_of st1' = loaded_of st1) /\
  (exists st2,
     MetricsPipeline.datasets_loader_load st1 = (o, st2) /\
     loaded_of st2 = loaded_of st1).
Proof.
  assert (Hgen : forall s s' o s1,
            loader_class (datasets_loader s') = loader_class (datasets_loader s) ->
            dataset_names (datasets_loader s') = dataset_names (datasets_loader s) ->
            MetricsPipeline.datasets_loader_load s = (o, s1) ->
            exists s1',
              MetricsPipeline.datasets_loader_load s' = (o, s1') /\
              loaded_of s1' = loaded_of s1).
  { intros s s' o0 s1 Hc Hn. rewrite !loader_load_eq, Hc, Hn.
    destruct (for_each _ _ tt (cleared s)) as [o1 s2] eqn:E.
    destruct (load_loop_same _ _ (cleared s) (cleared s') o1 s2 eq_refl E)
      as (s2' & E' & Hl).
    rewrite E'. destruct o1 as [[]|e]; intros [= <- <-]; eexists;
      (split; [reflexivity|]); exact Hl. }
  intros Hc Hn Hload. split; [now apply (Hgen st st')|].
  apply (Hgen st st1); [| |exact Hload].
  - rewrite loader_load_eq in Hload.
    destruct (for_each _ _ tt (cleared st)) as [[[]|e] s2] eqn:E;
      injection Hload as <- <-; apply load_loop_frame in E; simpl in *; tauto.
  - rewrite loader_load_eq in Hload.
    destruct (for_each _ _ tt (cleared st)) as [[[]|e] s2] eqn:E;
      injection Hload as <- <-; apply load_loop_frame in E; simpl in *; tauto.
Qed.

Lemma load_forgets_what_was_loaded_witness :
  let st := Lab.boot "metrics.csv" NormalizedLoader ["scene"] in
  let st' := mkState (repository st)
               (mkLoader NormalizedLoader ["scene"]
                  [("emotions", entry_of Lab.emotions_X Lab.emotions_y)])
               (disk st) (trace st) in
  let st1 := snd (MetricsPipeline.datasets_loader_load st) in
  MetricsPipeline.datasets_loader_load st = (Ok tt, st1) /\
  exists st1',
    MetricsPipeline.datasets_loader_load st' = (Ok tt, st1') /\
    Dict.keys (loaded_of st1') = ["scene"].
Proof.
  intros st st' st1.
  assert (Hload : MetricsPipeline.datasets_loader_load st = (Ok tt, st1))
    by (vm_compute; reflexivity).
  split; [exact Hload|].
  destruct (load_forgets_what_was_loaded st st' (Ok tt) st1
              eq_refl eq_refl Hload) as [(st1' & H1 & Hl) _].
  exists st1'. split; [exact H1|]. rewrite Hl. vm_compute. reflexivity.
Defined.

(** X3. [load] stops at the first identifier the Dataset Source cannot
    resolve: it raises "dataset `n` not found" (or the exception the
    source raised), the identifiers after it are not fetched, the datasets
    fetched before it stay loaded, and [list_datasets] afterwards serves
    this partial catalog when it is not empty. *)
Theorem load_stops_at_first_unresolved {T : Types} {Ext : Externals T}
  (st : State) (before after : list string) (n : string) (e : PyError) :
  dataset_names (datasets_loader st) = before ++ n :: after ->
  (forall n', In n' before -> exists X0 y0, source n' = inr (Some (X0, y0))) ->
  (source n = inr None /\ e = Exception ("dataset `" ++ n ++ "` not found")) \/
  (exists fe, source n = inl fe /\ e = Foreign fe) ->
  exists st',
    MetricsPipeline.datasets_loader_load st = (Raise e, st') /\
    Dict.keys (loaded_of st') = first_occurrences before /\
    trace st' =
      trace st ++ map (fun n => Printed (GettingDataset n)) (before ++ [n]) /\
    repository st' = repository st /\ disk st' = disk st /\
    (before <> [] ->
     DatasetsLoader.list_datasets st' = (Ok (loaded_of st'), st')).
Proof.
  intros Hnames Hbefore Hn.
  set (cls := loader_class (datasets_loader st)).
  assert (Hf : fetch cls n = Raise e).
  { destruct Hn as [[Hs ->]|(fe & Hs & ->)].
    - now apply fetch_unresolved.
    - now apply fetch_foreign. }
  destruct (load_loop_ok cls before (cleared st))
    as (st2 & E & Hr & Hd & _ & _ & Ht & Hk).
  { intros n' Hin. destruct (Hbefore n' Hin) as (X0 & y0 & Hs).
    eapply fetch_resolved; eassumption. }
  exists (logged (Printed (GettingDataset n)) st2).
  split.
  { rewrite loader_load_eq, Hnames. fold cls.
    rewrite for_each_app, E, for_each_cons.
    now rewrite (load_step_raise cls n e st2 Hf). }
  change (loaded_of (logged (Printed (GettingDataset n)) st2))
    with (loaded_of st2).
  split; [exact Hk|].
  split; [simpl; rewrite Ht, map_app, <- app_assoc; reflexivity|].
  split; [exact Hr|]. split; [exact Hd|].
  intros Hne. rewrite list_datasets_eq.
  change (loaded_of (logged (Printed (GettingDataset n)) st2))
    with (loaded_of st2).
  destruct (loaded_of st2) as [|item l] eqn:El; [|reflexivity].
  exfalso. destruct before as [|b before]; [now apply Hne|].
  assert (Hin : In b (Dict.keys (@nil (string * DatasetInfo)))).
  { rewrite Hk. apply seen_In. right. now left. }
  exact Hin.
Qed.

Lemma load_stops_at_first_unresolved_witness :
  let st := Lab.boot "metrics.csv" NormalizedLoader
                     ["emotions"; "yeast"; "scene"] in
  (forall n', In n' ["emotions"] ->
              exists X0 y0, source n' = inr (Some (X0, y0))) /\
  source "yeast" = inr None /\
  exists st',
    MetricsPipeline.datasets_loader_load st =
      (Raise (Exception "dataset `yeast` not found"), st') /\
    Dict.keys (loaded_of st') = ["emotions"] /\
    printed_datasets (trace st') = ["emotions"; "yeast"] /\
    DatasetsLoader.list_datasets st' = (Ok (loaded_of st'), st').
Proof.
  intros st.
  assert (H1 : forall n', In n' ["emotions"] ->
                          exists X0 y0, source n' = inr (Some (X0, y0))).
  { intros n' [<-|[]]. exists Lab.emotions_X, Lab.emotions_y.
    vm_compute. reflexivity. }
  assert (H2 : source "yeast" = inr None) by (vm_compute; reflexivity).
  split; [exact H1|]. split; [exact H2|].
  destruct (load_stops_at_first_unresolved st ["emotions"] ["scene"] "yeast"
              (Exception "dataset `yeast` not found") eq_refl H1
              (or_introl (conj H2 eq_refl)))
    as (st' & Hl & Hk & Ht & _ & _ & Hlist).
  exists st'. split; [exact Hl|]. split; [exact Hk|].
  split; [rewrite Ht; reflexivity|].
  apply Hlist. discriminate.
Defined.

(** X4. With no identifier configured, [load] returns with an empty
    catalog and [run] cannot return: it raises before the loops, without
    evaluating or writing anything. When the path ends in [.csv] and there
    is no file, the exception is "no datasets loaded". *)
Theorem run_without_identifiers_raises {T : Types} {Ext : Externals T}
  (this : MetricsPipelineObj) (st : State) :
  dataset_names (datasets_loader st) = [] ->
  (exists st1, MetricsPipeline.datasets_loader_load st = (Ok tt, st1) /\
               loaded_of st1 = []) /\
  exists e st',
    MetricsPipeline.run this st = (Raise e, st') /\
    disk st' = disk st /\
    evaluator_calls (trace st') = evaluator_calls (trace st) /\
    saves (trace st') = saves (trace st) /\
    (endswith (path_of st) ".csv" = true -> disk st (path_of st) = None ->
     e = Exception "no datasets loaded").
Proof.
  intros Hnames. split.
  { rewrite loader_load_eq, Hnames. simpl. eexists. split; reflexivity. }
  assert (Hsetup : exists e st1,
            MetricsPipeline.run_setup this st = (Raise e, st1) /\
            (endswith (path_of st) ".csv" = true ->
             disk st (path_of st) = None ->
             e = Exception "no datasets loaded")).
  { unfold MetricsPipeline.run_setup. unfold bind at 1, logging_info, emit.
    unfold bind at 1.
    match goal with
    | |- context [MetricsPipelineRepository.load_from_file ?s] =>
        set (s0 := s);
        remember (MetricsPipelineRepository.load_from_file s0) as res eqn:E1;
        symmetry in E1; destruct res as [[[]|e] st2]
    end.
    - assert (Hn2 : dataset_names (datasets_loader st2) = []).
      { apply load_from_file_frame in E1.
        destruct E1 as (_ & _ & -> & _). exact Hnames. }
      unfold bind at 1. rewrite loader_load_eq, Hn2. simpl.
      rewrite list_datasets_eq. simpl. do 2 eexists.
      split; [reflexivity | reflexivity].
    - do 2 eexists. split; [reflexivity|]. intros Hcsv Hnone.
      rewrite (load_from_file_missing s0 Hcsv Hnone) in E1. discriminate. }
  destruct Hsetup as (e & st1 & Hsetup & He).
  destruct (run_setup_frame this st _ st1 Hsetup)
    as (_ & Hd & (d0 & Ht & Hc & Hs) & _).
  exists e, st1. split; [now apply run_setup_raises|].
  split; [exact Hd|].
  rewrite Ht, evaluator_calls_app, saves_app, Hc, Hs, !app_nil_r. auto.
Qed.

Lemma run_without_identifiers_raises_witness :
  let st := Lab.boot "metrics.csv" NormalizedLoader [] in
  dataset_names (datasets_loader st) = [] /\
  endswith (path_of st) ".csv" = true /\ disk st (path_of st) = None /\
  exists st',
    MetricsPipeline.run Lab.two_models st =
    (Raise (Exception "no datasets loaded"), st').
Proof.
  intros st.
  destruct (run_without_identifiers_raises Lab.two_models st eq_refl)
    as [_ (e & st' & Hrun & _ & _ & _ & He)].
  split; [reflexivity|]. split; [reflexivity|]. split; [reflexivity|].
  exists st'. now rewrite <- (He eq_refl eq_refl).
Defined.

(** X5. [describe_json] of the catalog has no guard: on a catalog that
    was never loaded it returns the empty list where [list_datasets]
    raises. After a [load] (of either class, returned or raised) it gives
    one summary per loaded dataset, in order, and the counts it reports
    are the row and column counts of the feature matrix that is stored
    (the scaled one where the catalog scales) and the column count of the
    label matrix; it changes nothing. *)
Theorem catalog_describe_json_reports_stored_shapes
  {T : Types} {Ext : Externals T} :
  (forall cls names st, exists st',
     (DatasetsLoader.init cls names ;; DatasetsLoader.describe_json) st =
     (Ok [], st')) /\
  (forall st o st1,
     MetricsPipeline.datasets_loader_load st = (o, st1) ->
     exists summaries,
       DatasetsLoader.describe_json st1 = (Ok summaries, st1) /\
       map (Dict.get "dataset") summaries =
         map (fun n => Some (Name n)) (Dict.keys (loaded_of st1)) /\
       forall name info,
         Dict.get name (loaded_of st1) = Some info ->
         In [ ("dataset", Name name);
              ("rows", Count (fst (features_shape (X info))));
              ("features_count", Count (snd (features_shape (X info))));
              ("labels_count", Count (snd (labels_shape (y info)))) ]
            summaries).
Proof.
  split.
  - intros cls names st. eexists. reflexivity.
  - intros st o st1 Hload. eexists.
    split; [apply loader_describe_json_eq|]. split.
    + unfold Dict.keys. rewrite !map_map. apply map_ext. now intros [n i].
    + intros name info Hg.
      destruct (fetch_counts _ _ _ (loader_load_entries st o st1 Hload _ _ Hg))
        as (<- & <- & <-).
      apply get_In in Hg.
      apply (in_map (fun '(name, info) =>
                       [ ("dataset", Name name);
                         ("rows", Count (rows info));
                         ("features_count", Count (features_count info));
                         ("labels_count", Count (labels_count info)) ])) in Hg.
      exact Hg.
Qed.

Lemma catalog_describe_json_reports_stored_shapes_witness :
  let st := Lab.boot "metrics.csv" PlainLoader ["./data/ariane.arff"] in
  let st1 := snd (MetricsPipeline.datasets_loader_load st) in
  MetricsPipeline.datasets_loader_load st = (Ok tt, st1) /\
  Dict.get "./data/ariane.arff" (loaded_of st1) =
    Some (entry_of (fit_transform Lab.ariane_X) Lab.ariane_y) /\
  exists summaries,
    DatasetsLoader.describe_json st1 = (Ok summaries, st1) /\
    In [ ("dataset", Name "./data/ariane.arff");
         ("rows", Count 2); ("features_count", Count 2);
         ("labels_count", Count 5) ] summaries.
Proof.
  intros st st1.
  assert (Hload : MetricsPipeline.datasets_loader_load st = (Ok tt, st1))
    by (vm_compute; reflexivity).
  assert (Hget : Dict.get "./data/ariane.arff" (loaded_of st1) =
                 Some (entry_of (fit_transform Lab.ariane_X) Lab.ariane_y))
    by (vm_compute; reflexivity).
  split; [exact Hload|]. split; [exact Hget|].
  destruct (proj2 catalog_describe_json_reports_stored_shapes st _ st1 Hload)
    as (summaries & Hd & _ & Hin).
  exists summaries. split; [exact Hd|].
  exact (Hin _ _ Hget).
Defined.

(* ================================================================== *)
(** * Further properties of the repository *)

Section StoreMore.
Context {F : Type}.
Implicit Types (raw : RawEvaluationResults F) (r : EvaluationPipelineResult F).

Lemma set_not_empty {V} k (v : V) (d : Dict.t V) : Dict.set k v d <> [].
Proof.
  destruct d as [|[k' v'] d]; simpl; [|destruct (String.eqb k k')];
    discriminate.
Qed.

Lemma no_empty_model_insert m d r raw :
  no_empty_model raw -> no_empty_model (insert_result m d r raw).
Proof.
  unfold no_empty_model. intros H. rewrite insert_result_eq.
  destruct (Dict.get m raw) as [inner|].
  - apply (Forall_snd_set (fun inner => inner <> [])); [assumption|].
    apply set_not_empty.
  - apply Forall_app. split; [assumption|].
    constructor; [discriminate | constructor].
Qed.






End StoreMore.

Section RepositoryMore.
Context {T : Types} {Ext : Externals T}.

Lemma add_results_loop
  (entries : list (string * string * EvaluationPipelineResult float)) :
  forall st : State,
  for_each entries
    (fun '(m, d, r) _ => MetricsPipelineRepository.add_result m d r) tt st =
  (Ok tt,
   with_raw (fold_left (fun raw '(m, d, r) => insert_result m d r raw)
                       entries (raw_of st)) st).
Proof.
  induction entries as [|[[m d] r] entries IH]; intros st.
  - simpl. unfold ret, with_raw, raw_of, path_of.
    now destruct st as [[p raw ds] l dk tr].
  - rewrite for_each_cons, add_result_eq, IH. reflexivity.
Qed.

End RepositoryMore.

(** X6. A [load_from_file] that raises leaves the state exactly as it
    was: the store, the disk and the log. It raises either because the
    path does not end in [.csv] or because the file is there and
    [read_csv] raised on it. *)
Theorem load_from_file_failure_changes_nothing {T : Types} {Ext : Externals T}
  (st : State) (e : PyError) (st' : State) :
  MetricsPipelineRepository.load_from_file st = (Raise e, st') ->
  st' = st /\
  ((endswith (path_of st) ".csv" = false /\
    e = Exception "only CSV files are supported") \/
   (exists content fe,
      endswith (path_of st) ".csv" = true /\
      disk st (path_of st) = Some content /\
      read_csv content = inl fe /\ e = Foreign fe)).
Proof.
  destruct (endswith (path_of st) ".csv") eqn:E.
  - destruct (disk st (path_of st)) as [content|] eqn:D.
    + destruct (read_csv content) as [fe|df] eqn:R.
      * rewrite (load_from_file_unreadable st content fe) by assumption.
        intros [= <- <-]. split; [reflexivity|]. right.
        exists content, fe. auto.
      * rewrite (load_from_file_present st content df) by assumption.
        discriminate.
    + rewrite load_from_file_missing by assumption. discriminate.
  - rewrite load_from_file_not_csv by assumption.
    intros [= <- <-]. auto.
Qed.

Lemma load_from_file_failure_changes_nothing_witness :
  let st := Lab.holding Lab.store_ab PlainLoader [] in
  let st0 := mkState (mkRepository "metrics.tsv" Lab.store_ab None)
                     (datasets_loader st) (disk st) (trace st) in
  MetricsPipelineRepository.load_from_file st0 =
    (Raise (Exception "only CSV files are supported"),
     snd (MetricsPipelineRepository.load_from_file st0)) /\
  raw_of (snd (MetricsPipelineRepository.load_from_file st0)) = Lab.store_ab.
Proof.
  intros st st0.
  assert (H : MetricsPipelineRepository.load_from_file st0 =
              (Raise (Exception "only CSV files are supported"),
               snd (MetricsPipelineRepository.load_from_file st0)))
    by (vm_compute; reflexivity).
  split; [exact H|].
  destruct (load_from_file_failure_changes_nothing st0 _ _ H) as [-> _].
  reflexivity.
Defined.

(** X7. When the file exists and can be read, [load_from_file] replaces
    the in-memory store by the file's: a result put in by [add_result]
    after the last [save_to_file] is gone after the load. (Compare C10,
    where there is no file.) *)
Theorem load_discards_unsaved_results {T : Types} {Ext : Externals T}
  (Hcodec : forall df, read_csv (to_csv df) = inr df)
  (st : State) (m d : string) (r : EvaluationPipelineResult float) :
  endswith (path_of st) ".csv" = true ->
  wf_store (raw_of st) -> no_empty_model (raw_of st) ->
  exists st',
    (MetricsPipelineRepository.save_to_file ;;
     MetricsPipelineRepository.add_result m d r ;;
     MetricsPipelineRepository.load_from_file) st = (Ok tt, st') /\
    raw_of st' = raw_of st /\
    (has_result m d (raw_of st) = false -> has_result m d (raw_of st') = false).
Proof.
  intros Hcsv Hwf Hne.
  exists (with_raw (raw_of st)
            (with_raw (insert_result m d r (raw_of st)) (saved st))).
  split; [|split; [reflexivity | auto]].
  unfold bind. rewrite save_to_file_eq, add_result_eq.
  rewrite (load_from_file_present _
             (to_csv (evaluation_results_to_flat_table (raw_of st)))
             (evaluation_results_to_flat_table (raw_of st))).
  - rewrite table_round_trip by assumption.
    now rewrite drop_empty_models_id.
  - exact Hcsv.
  - simpl. now rewrite String.eqb_refl.
  - apply Hcodec.
Qed.

Lemma load_discards_unsaved_results_witness :
  let st := Lab.holding Lab.store_ab PlainLoader [] in
  (forall df, @read_csv _ Lab.world (to_csv df) = inr df) /\
  endswith (path_of st) ".csv" = true /\
  wf_store (raw_of st) /\ no_empty_model (raw_of st) /\
  has_result "chain" "scene" (raw_of st) = false /\
  exists st',
    (MetricsPipelineRepository.save_to_file ;;
     MetricsPipelineRepository.add_result "chain" "scene" Lab.result_a ;;
     MetricsPipelineRepository.load_from_file) st = (Ok tt, st') /\
    has_result "chain" "scene" (raw_of st') = false.
Proof.
  intros st.
  assert (Hcodec : forall df, @read_csv _ Lab.world (to_csv df) = inr df)
    by reflexivity.
  assert (Hwf : wf_store (raw_of st)) by wf_store_concrete.
  assert (Hne : no_empty_model (raw_of st))
    by (repeat constructor; discriminate).
  split; [exact Hcodec|]. split; [reflexivity|]. split; [exact Hwf|].
  split; [exact Hne|]. split; [reflexivity|].
  destruct (load_discards_unsaved_results Hcodec st "chain" "scene"
              Lab.result_a eq_refl Hwf Hne) as (st' & Hrun & _ & Hlost).
  exists st'. split; [exact Hrun | exact (Hlost eq_refl)].
Defined.



(** X9. A repository constructed with a [dataset] does not load: whatever
    the path (with or without [.csv]) and whatever the disk holds, the
    constructor returns without logging, the store is empty and the
    [dataset] is only kept as an attribute. A [save_to_file] right after
    it therefore replaces the file at the path by the table of the empty
    store. *)
Theorem constructing_with_dataset_skips_load {T : Types} {Ext : Externals T}
  (st : State) (path : string) (df : DataFrame float) :
  exists st' st'',
    MetricsPipelineRepository.init path (Some df) st = (Ok tt, st') /\
    repository st' = mkRepository path Dict.empty (Some df) /\
    disk st' = disk st /\ trace st' = trace st /\
    (forall m d,
       (MetricsPipelineRepository.init path (Some df) ;;
        MetricsPipelineRepository.result_already_exists m d) st =
       (Ok false, st')) /\
    (MetricsPipelineRepository.init path (Some df) ;;
     MetricsPipelineRepository.save_to_file) st = (Ok tt, st'') /\
    disk st'' path = Some (to_csv []).
Proof.
  set (st' := mkState (mkRepository path Dict.empty (Some df))
                      (datasets_loader st) (disk st) (trace st)).
  assert (Hinit : MetricsPipelineRepository.init path (Some df) st =
                  (Ok tt, st')) by reflexivity.
  exists st', (saved st'). split; [exact Hinit|].
  split; [reflexivity|]. split; [reflexivity|]. split; [reflexivity|].
  split; [intros m d; unfold bind; now rewrite Hinit|].
  split; [unfold bind; now rewrite Hinit|].
  simpl. now rewrite String.eqb_refl.
Qed.

Lemma constructing_with_dataset_skips_load_witness :
  let st := Lab.resumed Lab.store_ab PlainLoader [] in
  disk st "metrics.csv" = Some (evaluation_results_to_flat_table Lab.store_ab) /\
  exists st'',
    (MetricsPipelineRepository.init "metrics.csv"
       (Some (evaluation_results_to_flat_table Lab.store_ab)) ;;
     MetricsPipelineRepository.save_to_file) st = (Ok tt, st'') /\
    disk st'' "metrics.csv" = Some [].
Proof.
  intros st. split; [reflexivity|].
  destruct (constructing_with_dataset_skips_load st "metrics.csv"
              (evaluation_results_to_flat_table Lab.store_ab))
    as (st' & st'' & _ & _ & _ & _ & _ & Hs & Hd).
  exists st''. split; [exact Hs | exact Hd].
Defined.

Section InsertSequences.
Context {F : Type}.
Implicit Types (raw : RawEvaluationResults F)
  (entries : list (string * string * EvaluationPipelineResult F)).

Lemma inserts_wf entries : forall raw,
  wf_store raw ->
  wf_store (fold_left (fun raw '(m, d, r) => insert_result m d r raw)
                      entries raw).
Proof.
  induction entries as [|[[m d] r] entries IH]; intros raw H; simpl;
    [assumption|]. apply IH. now apply wf_store_insert.
Qed.

Lemma inserts_no_empty entries : forall raw,
  no_empty_model raw ->
  no_empty_model (fold_left (fun raw '(m, d, r) => insert_result m d r raw)
                            entries raw).
Proof.
  induction entries as [|[[m d] r] entries IH]; intros raw H; simpl;
    [assumption|]. apply IH. now apply no_empty_model_insert.
Qed.

Lemma inserts_other m d entries : forall raw,
  (forall r, ~ In (m, d, r) entries) ->
  lookup_result m d
    (fold_left (fun raw '(m, d, r) => insert_result m d r raw) entries raw) =
  lookup_result m d raw.
Proof.
  induction entries as [|[[m0 d0] r0] entries IH]; intros raw H; simpl;
    [reflexivity|].
  rewrite IH.
  - apply lookup_insert_other. intros [= -> ->]. apply (H r0). now left.
  - intros r Hin. apply (H r). now right.
Qed.

Lemma inserts_has m d entries : forall raw,
  has_result m d
    (fold_left (fun raw '(m, d, r) => insert_result m d r raw) entries raw)
  = true <->
  has_result m d raw = true \/ exists r, In (m, d, r) entries.
Proof.
  induction entries as [|[[m0 d0] r0] entries IH]; intros raw; simpl.
  - split; [auto | intros [H|[r []]]; exact H].
  - rewrite IH. split.
    + intros [H|[r H]]; [|right; exists r; now right].
      destruct (String.eqb_spec m m0) as [->|Hm];
        [destruct (String.eqb_spec d d0) as [->|Hd]|].
      * right. exists r0. now left.
      * rewrite has_result_lookup, lookup_insert_other in H by congruence.
        rewrite <- has_result_lookup in H. now left.
      * rewrite has_result_lookup, lookup_insert_other in H by congruence.
        rewrite <- has_result_lookup in H. now left.
    + intros [H|[r [H|H]]].
      * left. apply has_result_true in H. destruct H as [r H].
        apply has_result_true.
        destruct (String.eqb_spec m m0) as [->|Hm];
          [destruct (String.eqb_spec d d0) as [->|Hd]|].
        -- exists r0. apply lookup_insert_same.
        -- exists r. rewrite lookup_insert_other by congruence. exact H.
        -- exists r. rewrite lookup_insert_other by congruence. exact H.
      * injection H as -> -> ->. left. apply has_result_true.
        exists r. apply lookup_insert_same.
      * right. now exists r.
Qed.

Lemma inserts_last m d r entries1 entries2 raw :
  (forall r', ~ In (m, d, r') entries2) ->
  lookup_result m d
    (fold_left (fun raw '(m, d, r) => insert_result m d r raw)
               (entries1 ++ (m, d, r) :: entries2) raw) = Some r.
Proof.
  intros H. rewrite fold_left_app. simpl.
  rewrite inserts_other by assumption. apply lookup_insert_same.
Qed.

End InsertSequences.



(** X11. Any sequence of [add_result] calls on a store with unique keys
    and no model without results returns and leaves such a store again
    (so no pair stands twice in it, and it is one that the round trip of
    C2 reproduces exactly). It holds a pair exactly when the store held it
    before or some call put it in, and under every pair that was put in
    it holds the result of the last call for that pair. *)
Theorem add_result_sequences_keep_the_store_well_formed
  {T : Types} {Ext : Externals T}
  (entries : list (string * string * EvaluationPipelineResult float))
  (st : State) :
  wf_store (raw_of st) -> no_empty_model (raw_of st) ->
  exists st',
    for_each entries
      (fun '(m, d, r) _ => MetricsPipelineRepository.add_result m d r)
      tt st = (Ok tt, st') /\
    wf_store (raw_of st') /\ no_empty_model (raw_of st') /\
    NoDup (pairs_of (raw_of st')) /\
    (forall m d,
       has_result m d (raw_of st') = true <->
       has_result m d (raw_of st) = true \/ exists r, In (m, d, r) entries) /\
    (forall entries1 m d r entries2,
       entries = entries1 ++ (m, d, r) :: entries2 ->
       (forall r', ~ In (m, d, r') entries2) ->
       lookup_result m d (raw_of st') = Some r).
Proof.
  intros Hwf Hne. eexists. split; [apply add_results_loop|].
  match goal with
  | |- context [raw_of (with_raw ?raw st)] =>
      change (raw_of (with_raw raw st)) with raw
  end.
  assert (Hwf' := inserts_wf entries _ Hwf).
  split; [exact Hwf'|]. split; [now apply inserts_no_empty|].
  split; [now apply wf_store_pairs_NoDup|].
  split; [intros m d; apply inserts_has|].
  intros entries1 m d r entries2 -> Hlast. now apply inserts_last.
Qed.

Lemma add_result_sequences_keep_the_store_well_formed_witness :
  let st := Lab.boot "metrics.csv" PlainLoader [] in
  let entries := [("knn", "emotions", Lab.result_a);
                  ("chain", "emotions", Lab.result_b);
                  ("knn", "emotions", Lab.result_b)] in
  wf_store (raw_of st) /\ no_empty_model (raw_of st) /\
  exists st',
    for_each entries
      (fun '(m, d, r) _ => MetricsPipelineRepository.add_result m d r)
      tt st = (Ok tt, st') /\
    NoDup (pairs_of (raw_of st')) /\
    lookup_result "knn" "emotions" (raw_of st') = Some Lab.result_b.
Proof.
  intros st entries.
  assert (Hwf : wf_store (raw_of st)) by (split; constructor).
  assert (Hne : no_empty_model (raw_of st)) by constructor.
  split; [exact Hwf|]. split; [exact Hne|].
  destruct (add_result_sequences_keep_the_store_well_formed
              (T := Lab.types) entries st Hwf Hne)
    as (st' & Hrun & _ & _ & Hnd & _ & Hlast).
  exists st'. split; [exact Hrun|]. split; [exact Hnd|].
  apply (Hlast [("knn", "emotions", Lab.result_a);
                ("chain", "emotions", Lab.result_b)]
               "knn" "emotions" Lab.result_b []); [reflexivity|].
  intros r' [].
Defined.

(* ================================================================== *)
(** * Further properties of the orchestrator *)

Section OrchestratorMore.
Context {T : Types} {Ext : Externals T}.
Local Open Scope nat_scope.

Lemma run_pairs_cons this total m model d info ps idx (st : State) :
  run_pairs this total (((m, model), (d, info)) :: ps) idx st =
  if has_result m d (raw_of st)
  then run_pairs this total ps (idx + 1)
         (skipped (mkLogFields m d (n_folds this) (idx + 1) total) st)
  else
    match evaluation_run model (n_folds this) (X info) (y info) with
    | inr r =>
        run_pairs this total ps (idx + 1)
          (evaluated (mkLogFields m d (n_folds this) (idx + 1) total) r st)
    | inl e =>
        (Raise (Foreign e),
         failed (mkLogFields m d (n_folds this) (idx + 1) total) st)
    end.
Proof.
  unfold run_pairs. rewrite for_each_cons.
  destruct (has_result m d (raw_of st)) eqn:Hex.
  - now rewrite run_one_skip.
  - destruct (evaluation_run model (n_folds this) (X info) (y info))
      as [e|r] eqn:He.
    + now rewrite (run_one_fail _ _ _ _ _ _ _ _ e).
    + now rewrite (run_one_eval _ _ _ _ _ _ _ _ r).
Qed.

Lemma run_pairs_nil this total idx (st : State) :
  run_pairs this total [] idx st = (Ok idx, st).
Proof. reflexivity. Qed.

Lemma progress_lookup ps (st : State) o st' m d r :
  progress ps st o st' ->
  lookup_result m d (raw_of st) = Some r ->
  lookup_result m d (raw_of st') = Some r.
Proof. intros (_ & _ & dl & _ & Hm & _). apply Hm. Qed.

(** A loop that returns has every pair it went through in the store. *)
Lemma run_pairs_complete this total ps : forall idx st idx' st',
  run_pairs this total ps idx st = (Ok idx', st') ->
  forall m model d info, In ((m, model), (d, info)) ps ->
                         has_result m d (raw_of st') = true.
Proof.
  induction ps as [|[[m0 model0] [d0 info0]] ps IH];
    intros idx st idx' st' H m model d info Hin; [contradiction|].
  rewrite run_pairs_cons in H.
  destruct (has_result m0 d0 (raw_of st)) eqn:Hex.
  - destruct Hin as [[= <- <- <- <-]|Hin]; [|eapply IH; eassumption].
    apply run_pairs_progress in H. apply has_result_true in Hex.
    destruct Hex as [r Hr]. apply has_result_true. exists r.
    eapply progress_lookup; [exact H | exact Hr].
  - destruct (evaluation_run model0 (n_folds this) (X info0) (y info0))
      as [e|r]; [discriminate|].
    destruct Hin as [[= <- <- <- <-]|Hin]; [|eapply IH; eassumption].
    apply run_pairs_progress in H. apply has_result_true. exists r.
    eapply progress_lookup; [exact H|].
    rewrite raw_of_evaluated. apply lookup_insert_same.
Qed.

(** A loop that returns has, under every pair that was not stored, the
    result the Evaluator returned for it, provided no pair is listed
    twice. *)
Lemma run_pairs_results this total ps : forall idx st idx' st',
  NoDup (map (fun p => (fst (fst p), fst (snd p))) ps) ->
  run_pairs this total ps idx st = (Ok idx', st') ->
  forall m model d info,
    In ((m, model), (d, info)) ps ->
    has_result m d (raw_of st) = false ->
    exists r,
      evaluation_run model (n_folds this) (X info) (y info) = inr r /\
      lookup_result m d (raw_of st') = Some r.
Proof.
  induction ps as [|[[m0 model0] [d0 info0]] ps IH];
    intros idx st idx' st' Hnd H m model d info Hin Hnew; [contradiction|].
  simpl in Hnd. inversion Hnd as [|? ? Hnotin Hnd']; subst.
  rewrite run_pairs_cons in H.
  destruct (has_result m0 d0 (raw_of st)) eqn:Hex.
  - destruct Hin as [[= <- <- <- <-]|Hin]; [congruence|].
    eapply IH; eassumption.
  - destruct (evaluation_run model0 (n_folds this) (X info0) (y info0))
      as [e|r] eqn:He; [discriminate|].
    destruct Hin as [[= <- <- <- <-]|Hin].
    + exists r. split; [exact He|].
      apply run_pairs_progress in H.
      eapply progress_lookup; [exact H|].
      rewrite raw_of_evaluated. apply lookup_insert_same.
    + eapply IH; try eassumption.
      rewrite raw_of_evaluated. simpl.
      rewrite has_result_insert_other; [assumption|].
      intros [= -> ->]. apply Hnotin.
      apply (in_map (fun p => (fst (fst p), fst (snd p)))) in Hin.
      exact Hin.
Qed.

(** The loop keeps the keys of the store unique and leaves no model
    without results. *)
Lemma run_pairs_wf this total ps : forall idx st o st',
  run_pairs this total ps idx st = (o, st') ->
  wf_store (raw_of st) -> no_empty_model (raw_of st) ->
  wf_store (raw_of st') /\ no_empty_model (raw_of st').
Proof.
  induction ps as [|[[m0 model0] [d0 info0]] ps IH];
    intros idx st o st' H Hwf Hne.
  - injection H as <- <-. auto.
  - rewrite run_pairs_cons in H.
    destruct (has_result m0 d0 (raw_of st)).
    + eapply IH; eassumption.
    + destruct (evaluation_run model0 (n_folds this) (X info0) (y info0))
        as [e|r].
      * injection H as <- <-. auto.
      * eapply IH; [exact H | |]; rewrite raw_of_evaluated.
        -- now apply wf_store_insert.
        -- now apply no_empty_model_insert.
Qed.

Lemma running_indices_app (a b : list Event) :
  running_indices (a ++ b) = running_indices a ++ running_indices b.
Proof. unfold running_indices. apply flat_map_app. Qed.

(** The loop logs one "running evaluation" record per pair it reaches,
    numbered from the index it starts with; when it returns it has
    reached every pair. *)
Lemma run_pairs_indices this total ps : forall idx st o st',
  run_pairs this total ps idx st = (o, st') ->
  exists reached,
    running_indices (trace st') =
      running_indices (trace st) ++ seq (S idx) reached /\
    reached <= List.length ps /\
    (forall idx', o = Ok idx' ->
       reached = List.length ps /\ idx' = idx + List.length ps) /\
    (forall e, o = Raise e -> 0 < reached).
Proof.
  induction ps as [|[[m0 model0] [d0 info0]] ps IH]; intros idx st o st' H.
  - injection H as <- <-. exists 0. simpl. rewrite app_nil_r.
    split; [reflexivity|]. split; [lia|]. split.
    + intros idx' [= <-]. split; [reflexivity | lia].
    + intros e. discriminate.
  - rewrite run_pairs_cons in H.
    assert (Hstep : forall s,
              running_indices (trace s) =
                running_indices (trace st) ++ [S idx] ->
              run_pairs this total ps (idx + 1) s = (o, st') ->
              exists reached,
                running_indices (trace st') =
                  running_indices (trace st) ++ seq (S idx) reached /\
                reached <= S (List.length ps) /\
                (forall idx', o = Ok idx' ->
                   reached = S (List.length ps) /\
                   idx' = idx + S (List.length ps)) /\
                (forall e, o = Raise e -> 0 < reached)).
    { intros s Hs Hrun.
      destruct (IH _ _ _ _ Hrun) as (k & Hk & Hle & Hok & _).
      exists (S k). rewrite Hk, Hs, <- app_assoc. simpl.
      replace (idx + 1) with (S idx) by lia.
      split; [reflexivity|]. split; [lia|]. split.
      - intros idx' Hidx. destruct (Hok idx' Hidx) as [-> ->].
        split; [reflexivity | lia].
      - intros e _. lia. }
    destruct (has_result m0 d0 (raw_of st)).
    + eapply Hstep; [|exact H]. simpl.
      rewrite !running_indices_app. simpl.
      now replace (idx + 1) with (S idx) by lia.
    + destruct (evaluation_run model0 (n_folds this) (X info0) (y info0))
        as [e|r].
      * injection H as <- <-. exists 1. simpl.
        rewrite running_indices_app. simpl.
        replace (idx + 1) with (S idx) by lia.
        split; [reflexivity|]. split; [lia|]. split.
        -- intros idx'. discriminate.
        -- intros e' _. lia.
      * eapply Hstep; [|exact H]. simpl.
        rewrite !running_indices_app. simpl.
        now replace (idx + 1) with (S idx) by lia.
Qed.



Lemma pair_keys_NoDup {A B} (ms : Dict.t A) (ds : Dict.t B) :
  Dict.wf ms -> Dict.wf ds ->
  NoDup (map (fun p => (fst (fst p), fst (snd p)))
             (list_prod (Dict.items ms) (Dict.items ds))).
Proof.
  unfold Dict.wf, Dict.keys, Dict.items. intros Hm Hd.
  induction ms as [|[m a] ms IH]; simpl; [constructor|].
  inversion Hm as [|? ? Hnotin Hm']; subst.
  rewrite map_app, map_map. simpl. apply NoDup_app.
  - clear - Hd. induction ds as [|[d b] ds IHd]; simpl; [constructor|].
    inversion Hd as [|? ? Hn Hd']; subst. constructor; [|auto].
    rewrite in_map_iff. intros [[d' b'] [[= ->] Hin]]. apply Hn.
    change (In (fst (d, b')) (map fst ds)). now apply in_map.
  - now apply IH.
  - intros [m' d'] H1 H2. apply in_map_iff in H1.
    destruct H1 as [[d0 b0] [[= <- <-] _]].
    apply in_map_iff in H2. destruct H2 as [[[m1 a1] [d1 b1]] [[= -> ->] Hin]].
    apply in_prod_iff in Hin. destruct Hin as [Hin _]. apply Hnotin.
    change (In (fst (m, a1)) (map fst ms)). now apply in_map.
Qed.

Lemma loader_load_keys st st1 :
  MetricsPipeline.datasets_loader_load st = (Ok tt, st1) ->
  Dict.wf (loaded_of st1).
Proof.
  rewrite loader_load_eq.
  destruct (for_each _ _ tt (cleared st)) as [[[]|e] st2] eqn:E;
    [|discriminate].
  intros [= <-].
  destruct (load_loop_ok _ _ (cleared st) (load_loop_ok_inv _ _ _ _ E))
    as (st2' & E' & _ & _ & _ & _ & _ & Hk).
  rewrite E in E'. injection E' as <-.
  unfold Dict.wf.
  change (loaded_of (logged (Info FinishedGettingDatasets) st2))
    with (loaded_of st2).
  rewrite Hk. apply seen_NoDup. constructor.
Qed.

End OrchestratorMore.

Section RunMore.
Context {T : Types} {Ext : Externals T}.
Local Open Scope nat_scope.

(** The steps of a setup that returned. *)
Lemma run_setup_ok_inv this (st : State) datasets st1 :
  MetricsPipeline.run_setup this st = (Ok datasets, st1) ->
  exists st2,
    MetricsPipelineRepository.load_from_file (logged (Info GettingMetrics) st)
      = (Ok tt, st2) /\
    MetricsPipeline.datasets_loader_load st2 = (Ok tt, st1) /\
    datasets = loaded_of st1 /\ datasets <> [].
Proof.
  unfold MetricsPipeline.run_setup. unfold bind at 1, logging_info, emit.
  fold (logged (Info GettingMetrics) st). unfold bind at 1.
  remember (MetricsPipelineRepository.load_from_file
              (logged (Info GettingMetrics) st)) as res eqn:E1.
  destruct res as [[[]|e] st2]; [|discriminate].
  unfold bind at 1.
  remember (MetricsPipeline.datasets_loader_load st2) as res eqn:E2.
  destruct res as [[[]|e] st3]; [|discriminate].
  rewrite list_datasets_eq. destruct (loaded_of st3) eqn:L; [discriminate|].
  intros [= <- <-]. exists st2. rewrite L. repeat split; congruence.
Qed.

(** A [load_from_file] that returned: the path ends in [.csv], and either
    there was no file and only a warning was logged, or the store is the
    one rebuilt from the file. *)
Lemma load_from_file_ok_inv (st st' : State) :
  MetricsPipelineRepository.load_from_file st = (Ok tt, st') ->
  endswith (path_of st) ".csv" = true /\
  ((disk st (path_of st) = None /\
    st' = logged (Warn (FileDoesNotExist (path_of st))) st) \/
   (exists content df,
      disk st (path_of st) = Some content /\ read_csv content = inr df /\
      st' = with_raw (flat_table_to_evaluation_results df) st)).
Proof.
  destruct (endswith (path_of st) ".csv") eqn:E.
  - destruct (disk st (path_of st)) as [content|] eqn:D.
    + destruct (read_csv content) as [fe|df] eqn:R.
      * rewrite (load_from_file_unreadable st content fe) by assumption.
        discriminate.
      * rewrite (load_from_file_present st content df) by assumption.
        intros [= <-]. split; [reflexivity|]. right. exists content, df. auto.
    + rewrite load_from_file_missing by assumption.
      intros [= <-]. auto.
  - rewrite load_from_file_not_csv by assumption. discriminate.
Qed.

Lemma rebuilt_store_wf (df : DataFrame float) :
  wf_store (flat_table_to_evaluation_results df) /\
  no_empty_model (flat_table_to_evaluation_results df).
Proof.
  unfold flat_table_to_evaluation_results.
  assert (H : wf_store (@Dict.empty (Dict.t (EvaluationPipelineResult float)))
              /\ no_empty_model
                   (@Dict.empty (Dict.t (EvaluationPipelineResult float))))
    by (split; [apply wf_store_empty | constructor]).
  revert H. generalize (@Dict.empty (Dict.t (EvaluationPipelineResult float))).
  induction df as [|row df IH]; intros acc [Hwf Hne]; simpl; [auto|].
  apply IH. split.
  - now apply wf_store_insert.
  - now apply no_empty_model_insert.
Qed.

Lemma loader_load_same (s s' : State) o s1 :
  loader_class (datasets_loader s') = loader_class (datasets_loader s) ->
  dataset_names (datasets_loader s') = dataset_names (datasets_loader s) ->
  MetricsPipeline.datasets_loader_load s = (o, s1) ->
  exists s1',
    MetricsPipeline.datasets_loader_load s' = (o, s1') /\
    loaded_of s1' = loaded_of s1.
Proof.
  intros Hc Hn. rewrite !loader_load_eq, Hc, Hn.
  destruct (for_each _ _ tt (cleared s)) as [o1 s2] eqn:E.
  destruct (load_loop_same _ _ (cleared s) (cleared s') o1 s2 eq_refl E)
    as (s2' & E' & Hl).
  rewrite E'. destruct o1 as [[]|e]; intros [= <- <-]; eexists;
    (split; [reflexivity|]); exact Hl.
Qed.

Lemma loader_load_loader (s : State) o s1 :
  MetricsPipeline.datasets_loader_load s = (o, s1) ->
  loader_class (datasets_loader s1) = loader_class (datasets_loader s) /\
  dataset_names (datasets_loader s1) = dataset_names (datasets_loader s).
Proof.
  rewrite loader_load_eq.
  destruct (for_each _ _ tt (cleared s)) as [[[]|e] s2] eqn:E;
    intros [= <- <-]; apply load_loop_frame in E; simpl in *; tauto.
Qed.

(** What a [load] that returned has logged. *)
Lemma loader_load_trace (s s1 : State) :
  MetricsPipeline.datasets_loader_load s = (Ok tt, s1) ->
  trace s1 =
    trace s ++
    map (fun n => Printed (GettingDataset n)) (dataset_names (datasets_loader s))
    ++ [Info FinishedGettingDatasets].
Proof.
  rewrite loader_load_eq.
  destruct (for_each _ _ tt (cleared s)) as [[[]|e] s2] eqn:E;
    [|discriminate].
  intros [= <-].
  destruct (load_loop_ok _ _ (cleared s) (load_loop_ok_inv _ _ _ _ E))
    as (s2' & E' & _ & _ & _ & _ & Ht & _).
  rewrite E in E'. injection E' as <-. simpl. rewrite Ht. simpl.
  now rewrite <- app_assoc.
Qed.

(** Over pairs that are all stored the loop only logs. *)
Lemma run_pairs_all_stored this total ps : forall idx (st : State),
  (forall m model d info, In ((m, model), (d, info)) ps ->
                          has_result m d (raw_of st) = true) ->
  exists st' delta,
    run_pairs this total ps idx st = (Ok (idx + List.length ps), st') /\
    trace st' = trace st ++ delta /\
    evaluator_calls delta = [] /\ saves delta = [] /\
    repository st' = repository st /\ disk st' = disk st /\
    datasets_loader st' = datasets_loader st.
Proof.
  induction ps as [|[[m0 model0] [d0 info0]] ps IH]; intros idx st Hall.
  - exists st, []. rewrite run_pairs_nil, app_nil_r, Nat.add_0_r.
    repeat split.
  - rewrite run_pairs_cons, (Hall m0 model0 d0 info0 (or_introl eq_refl)).
    destruct (IH (idx + 1)
                 (skipped (mkLogFields m0 d0 (n_folds this) (idx + 1) total) st))
      as (st' & delta & Hrun & Ht & Hc & Hs & Hr & Hd & Hl).
    { intros m model d info Hin. apply (Hall m model d info). now right. }
    exists st',
      ([Info (RunningEvaluation
                (mkLogFields m0 d0 (n_folds this) (idx + 1) total));
        Info (AlreadyEvaluated
                (mkLogFields m0 d0 (n_folds this) (idx + 1) total))]
       ++ delta).
    rewrite Hrun. simpl.
    split; [do 2 f_equal; lia|].
    split; [rewrite Ht; simpl; now rewrite <- app_assoc|].
    repeat split; assumption.
Qed.

End RunMore.

(** X12. Whether [run] returns or raises, it never removes or changes a
    result that the store held when the loops began; it leaves the path
    of the repository and the catalog as they were, and a store with
    unique keys and no model without results stays one. *)
Theorem run_never_changes_a_stored_result {T : Types} {Ext : Externals T}
  (this : MetricsPipelineObj) (st st1 : State) datasets o st' :
  MetricsPipeline.run_setup this st = (Ok datasets, st1) ->
  MetricsPipeline.run this st = (o, st') ->
  (forall m d r, lookup_result m d (raw_of st1) = Some r ->
                 lookup_result m d (raw_of st') = Some r) /\
  path_of st' = path_of st /\
  datasets_loader st' = datasets_loader st1 /\
  (wf_store (raw_of st1) -> no_empty_model (raw_of st1) ->
   wf_store (raw_of st') /\ no_empty_model (raw_of st')).
Proof.
  intros Hsetup. rewrite (run_eq this st datasets st1 Hsetup).
  destruct (run_setup_frame this st _ st1 Hsetup) as (Hpath & _).
  destruct (run_pairs _ _ _ _ _) as [o2 st2] eqn:E.
  pose proof (run_pairs_progress _ _ _ _ _ _ _ E)
    as (Hp & Hl & dl & _ & Hm & _).
  pose proof (run_pairs_wf _ _ _ _ _ _ _ E) as Hwf.
  destruct o2 as [idx|e]; intros [= <- <-]; repeat split;
    try (apply Hm); try congruence; try (now apply Hwf);
    try (unfold path_of in *; simpl; congruence).
Qed.

Lemma run_never_changes_a_stored_result_witness :
  let st := Lab.resumed Lab.store_ab NormalizedLoader ["emotions"; "scene"] in
  let st1 := snd (MetricsPipeline.run_setup Lab.with_flaky st) in
  let st' := snd (MetricsPipeline.run Lab.with_flaky st) in
  MetricsPipeline.run_setup Lab.with_flaky st = (Ok (loaded_of st1), st1) /\
  MetricsPipeline.run Lab.with_flaky st = (Raise (Foreign "ValueError"), st') /\
  lookup_result "chain" "emotions" (raw_of st1) = Some Lab.result_b /\
  lookup_result "chain" "emotions" (raw_of st') = Some Lab.result_b.
Proof.
  intros st st1 st'.
  assert (H1 : MetricsPipeline.run_setup Lab.with_flaky st =
               (Ok (loaded_of st1), st1)) by (vm_compute; reflexivity).
  assert (H2 : MetricsPipeline.run Lab.with_flaky st =
               (Raise (Foreign "ValueError"), st'))
    by (vm_compute; reflexivity).
  assert (H3 : lookup_result "chain" "emotions" (raw_of st1) =
               Some Lab.result_b) by (vm_compute; reflexivity).
  split; [exact H1|]. split; [exact H2|]. split; [exact H3|].
  exact (proj1 (run_never_changes_a_stored_result
                  Lab.with_flaky st st1 _ _ st' H1 H2) _ _ _ H3).
Defined.

(** X13. When [run] returns, the store holds a result for every model of
    [models] on every loaded dataset: the result it held when the loops
    began, or else (the names of the models being distinct) the result
    the Evaluator returned for that model with [n_folds] on that
    dataset's matrices. *)
Theorem run_stores_every_pair {T : Types} {Ext : Externals T}
  (this : MetricsPipelineObj) (st st1 st' : State) datasets :
  Dict.wf (models this) ->
  MetricsPipeline.run_setup this st = (Ok datasets, st1) ->
  MetricsPipeline.run this st = (Ok tt, st') ->
  forall m model d info,
    In (m, model) (Dict.items (models this)) ->
    In (d, info) (Dict.items datasets) ->
    exists r,
      lookup_result m d (raw_of st') = Some r /\
      (forall r0, lookup_result m d (raw_of st1) = Some r0 -> r = r0) /\
      (has_result m d (raw_of st1) = false ->
       evaluation_run model (n_folds this) (X info) (y info) = inr r).
Proof.
  intros Hwfm Hsetup Hrun m model d info Hm Hd.
  destruct (run_setup_ok_inv this st datasets st1 Hsetup)
    as (st2 & _ & Hload & Hds & _).
  assert (Hwfd : Dict.wf datasets)
    by (rewrite Hds; exact (loader_load_keys st2 st1 Hload)).
  rewrite (run_eq this st datasets st1 Hsetup) in Hrun.
  destruct (run_pairs _ _ _ _ _) as [[idx|e] st2'] eqn:E; [|discriminate].
  injection Hrun as <-.
  change (raw_of (logged (Info FinishedAllEvaluations) st2'))
    with (raw_of st2').
  assert (Hin : In ((m, model), (d, info))
                   (list_prod (Dict.items (models this)) (Dict.items datasets)))
    by (apply in_prod_iff; auto).
  pose proof (run_pairs_progress _ _ _ _ _ _ _ E) as Hprog.
  destruct (has_result m d (raw_of st1)) eqn:Hex.
  - apply has_result_true in Hex. destruct Hex as [r Hr].
    exists r. split; [eapply progress_lookup; eassumption|].
    split; [congruence | discriminate].
  - destruct (run_pairs_results _ _ _ _ _ _ _
                (pair_keys_NoDup _ _ Hwfm Hwfd) E m model d info Hin Hex)
      as (r & He & Hl).
    exists r. split; [exact Hl|]. split; [|auto].
    intros r0 Hr0. rewrite has_result_lookup, Hr0 in Hex. discriminate.
Qed.

Lemma run_stores_every_pair_witness :
  let st := Lab.resumed Lab.store_ab NormalizedLoader ["emotions"; "scene"] in
  let st1 := snd (MetricsPipeline.run_setup Lab.two_models st) in
  let st' := snd (MetricsPipeline.run Lab.two_models st) in
  let scene := entry_of (fit_transform Lab.scene_X) Lab.scene_y in
  Dict.wf (models Lab.two_models) /\
  MetricsPipeline.run_setup Lab.two_models st = (Ok (loaded_of st1), st1) /\
  MetricsPipeline.run Lab.two_models st = (Ok tt, st') /\
  has_result "chain" "scene" (raw_of st1) = false /\
  exists r,
    lookup_result "chain" "scene" (raw_of st') = Some r /\
    evaluation_run "chain" 10 (X scene) (y scene) = inr r.
Proof.
  intros st st1 st' scene.
  assert (H0 : Dict.wf (models Lab.two_models))
    by (unfold Dict.wf; simpl; distinct_strings).
  assert (H1 : MetricsPipeline.run_setup Lab.two_models st =
               (Ok (loaded_of st1), st1)) by (vm_compute; reflexivity).
  assert (H2 : MetricsPipeline.run Lab.two_models st = (Ok tt, st'))
    by (vm_compute; reflexivity).
  assert (H3 : has_result "chain" "scene" (raw_of st1) = false)
    by (vm_compute; reflexivity).
  assert (H4 : In ("scene", scene) (Dict.items (loaded_of st1)))
    by (vm_compute; right; left; reflexivity).
  split; [exact H0|]. split; [exact H1|]. split; [exact H2|].
  split; [exact H3|].
  destruct (run_stores_every_pair Lab.two_models st st1 st' _ H0 H1 H2
              "chain" "chain" "scene" scene
              (or_intror (or_introl eq_refl)) H4)
    as (r & Hl & _ & He).
  exists r. split; [exact Hl | exact (He H3)].
Defined.



(** X16. [run] numbers the pairs it reaches from 1, one "running
    evaluation" record per pair, in steps of one; it never numbers more
    than [len(datasets) * len(models)] pairs, and when it returns it has
    numbered exactly that many, which is the [total_evaluations] it
    logs. *)
Theorem run_numbers_every_pair {T : Types} {Ext : Externals T}
  (this : MetricsPipelineObj) (st st1 : State) datasets o st' :
  MetricsPipeline.run_setup this st = (Ok datasets, st1) ->
  MetricsPipeline.run this st = (o, st') ->
  exists reached,
    running_indices (trace st') =
      running_indices (trace st) ++ seq 1 reached /\
    (reached <= Dict.len datasets * Dict.len (models this))%nat /\
    (o = Ok tt ->
     reached = (Dict.len datasets * Dict.len (models this))%nat).
Proof.
  intros Hsetup. rewrite (run_eq this st datasets st1 Hsetup).
  assert (H0 : running_indices (trace st1) = running_indices (trace st)).
  { destruct (run_setup_ok_inv this st datasets st1 Hsetup)
      as (st2 & Hlff & Hload & _).
    rewrite (loader_load_trace st2 st1 Hload), !running_indices_app.
    assert (Hp : forall names,
              running_indices
                (map (fun n => Printed (GettingDataset n)) names) = [])
      by (intros names; induction names; simpl; auto).
    rewrite Hp. simpl. rewrite !app_nil_r.
    destruct (load_from_file_ok_inv _ _ Hlff)
      as [_ [[_ ->]|(c & df & _ & _ & ->)]];
      simpl; rewrite !running_indices_app; simpl; now rewrite !app_nil_r. }
  destruct (run_pairs _ _ _ _ _) as [o2 st2] eqn:E.
  destruct (run_pairs_indices _ _ _ _ _ _ _ E) as (k & Hk & Hle & Hok & _).
  rewrite length_prod, Nat.mul_comm in Hle, Hok.
  unfold Dict.items in *. fold (Dict.len datasets) in Hle, Hok.
  fold (Dict.len (models this)) in Hle, Hok.
  destruct o2 as [idx|e]; intros [= <- <-]; exists k.
  - split; [simpl; rewrite running_indices_app, Hk, H0; simpl;
            now rewrite app_nil_r|].
    split; [exact Hle|]. intros _. apply (Hok idx eq_refl).
  - split; [now rewrite Hk, H0|]. split; [exact Hle | discriminate].
Qed.

Lemma run_numbers_every_pair_witness :
  let st := Lab.resumed Lab.store_ab NormalizedLoader ["emotions"; "scene"] in
  let st1 := snd (MetricsPipeline.run_setup Lab.two_models st) in
  let st' := snd (MetricsPipeline.run Lab.two_models st) in
  MetricsPipeline.run_setup Lab.two_models st = (Ok (loaded_of st1), st1) /\
  MetricsPipeline.run Lab.two_models st = (Ok tt, st') /\
  running_indices (trace st') = [1; 2; 3; 4]%nat.
Proof.
  intros st st1 st'.
  assert (H1 : MetricsPipeline.run_setup Lab.two_models st =
               (Ok (loaded_of st1), st1)) by (vm_compute; reflexivity).
  assert (H2 : MetricsPipeline.run Lab.two_models st = (Ok tt, st'))
    by (vm_compute; reflexivity).
  split; [exact H1|]. split; [exact H2|].
  destruct (run_numbers_every_pair Lab.two_models st st1 _ _ st' H1 H2)
    as (k & Hk & _ & Hok).
  rewrite Hk, (Hok eq_refl). vm_compute. reflexivity.
Defined.

Lemma run_setup_ok_intro {T : Types} {Ext : Externals T}
  this (st s2 s3 : State) :
  MetricsPipelineRepository.load_from_file (logged (Info GettingMetrics) st)
    = (Ok tt, s2) ->
  MetricsPipeline.datasets_loader_load s2 = (Ok tt, s3) ->
  loaded_of s3 <> [] ->
  MetricsPipeline.run_setup this st = (Ok (loaded_of s3), s3).
Proof.
  intros H1 H2 Hne.
  unfold MetricsPipeline.run_setup. unfold bind at 1, logging_info, emit.
  fold (logged (Info GettingMetrics) st). unfold bind at 1. rewrite H1.
  unfold bind at 1. rewrite H2, list_datasets_eq.
  destruct (loaded_of s3); [now elim Hne | reflexivity].
Qed.

(** X15. Running again after a [run] that returned evaluates nothing:
    with a CSV codec that gives back the table it was given, and an
    in-memory store with unique keys and no model without results, the
    second [run] returns without calling the Evaluator or saving, and
    leaves the disk and the store as the first one left them. *)
Theorem rerun_evaluates_nothing {T : Types} {Ext : Externals T}
  (Hcodec : forall df, read_csv (to_csv df) = inr df)
  (this : MetricsPipelineObj) (st st' : State) :
  wf_store (raw_of st) -> no_empty_model (raw_of st) ->
  MetricsPipeline.run this st = (Ok tt, st') ->
  exists st'' delta,
    MetricsPipeline.run this st' = (Ok tt, st'') /\
    trace st'' = trace st' ++ delta /\
    evaluator_calls delta = [] /\ saves delta = [] /\
    disk st'' = disk st' /\ raw_of st'' = raw_of st'.
Proof.
  intros Hwf0 Hne0 Hrun.
  destruct (MetricsPipeline.run_setup this st) as [[datasets|e] st1] eqn:Hsetup;
    [|rewrite (run_setup_raises this st e st1 Hsetup) in Hrun; discriminate].
  destruct (run_setup_ok_inv this st datasets st1 Hsetup)
    as (st2 & Hlff & Hload & Hds & Hdne).
  rewrite (run_eq this st datasets st1 Hsetup) in Hrun.
  destruct (run_pairs _ _ _ _ _) as [[idx|e] stL] eqn:E; [|discriminate].
  injection Hrun as <-.
  pose proof (run_pairs_progress _ _ _ _ _ _ _ E)
    as (Hp & Hl & dl & _ & _ & _ & Hn & Hs & _ & _).
  pose proof (run_pairs_complete _ _ _ _ _ _ _ E) as Hall.
  destruct (loader_load_frame st2 _ st1 Hload) as (Hr21 & Hd21 & _).
  destruct (load_from_file_ok_inv _ _ Hlff) as [Hcsv Hcases].
  change (path_of (logged (Info GettingMetrics) st)) with (path_of st)
    in Hcsv, Hcases.
  change (disk (logged (Info GettingMetrics) st)) with (disk st) in Hcases.
  assert (Hpath1 : path_of st1 = path_of st).
  { unfold path_of. rewrite Hr21.
    destruct Hcases as [[_ ->]|(c & df & _ & _ & ->)]; reflexivity. }
  assert (Hraw1 : wf_store (raw_of st1) /\ no_empty_model (raw_of st1)).
  { unfold raw_of. rewrite Hr21.
    destruct Hcases as [[_ ->]|(c & df & _ & _ & ->)].
    - split; assumption.
    - apply rebuilt_store_wf. }
  destruct (run_pairs_wf _ _ _ _ _ _ _ E (proj1 Hraw1) (proj2 Hraw1))
    as [HwfL HneL].
  set (st' := logged (Info FinishedAllEvaluations) stL).
  set (s0' := logged (Info GettingMetrics) st').
  assert (Hload2 : exists s2',
            MetricsPipelineRepository.load_from_file s0' = (Ok tt, s2') /\
            raw_of s2' = raw_of stL /\ disk s2' = disk stL /\
            datasets_loader s2' = datasets_loader stL).
  { assert (Hcsv' : endswith (path_of s0') ".csv" = true).
    { change (path_of s0') with (path_of stL). now rewrite Hp, Hpath1. }
    destruct (saves dl) as [|p l] eqn:Es.
    - destruct (Hn eq_refl) as [HdL HrL].
      destruct Hcases as [[Hnone Hst2]|(c & df & Hsome & Hread & Hst2)].
      + exists (logged (Warn (FileDoesNotExist (path_of s0'))) s0').
        split; [|repeat split].
        apply load_from_file_missing; [exact Hcsv'|].
        change (disk s0' (path_of s0')) with (disk stL (path_of stL)).
        rewrite HdL, Hd21, Hp, Hpath1, Hst2. exact Hnone.
      + exists (with_raw (flat_table_to_evaluation_results df) s0').
        split; [|repeat split].
        * apply (load_from_file_present s0' c df); [exact Hcsv'| |exact Hread].
          change (disk s0' (path_of s0')) with (disk stL (path_of stL)).
          rewrite HdL, Hd21, Hp, Hpath1, Hst2. exact Hsome.
        * change (raw_of (with_raw (flat_table_to_evaluation_results df) s0'))
            with (flat_table_to_evaluation_results df).
          rewrite HrL. unfold raw_of. rewrite Hr21, Hst2. reflexivity.
    - exists (with_raw (flat_table_to_evaluation_results
                          (evaluation_results_to_flat_table (raw_of stL))) s0').
      split; [|repeat split].
      + apply (load_from_file_present s0'
                 (to_csv (evaluation_results_to_flat_table (raw_of stL))));
          [exact Hcsv'| |apply Hcodec].
        change (disk s0' (path_of s0')) with (disk stL (path_of stL)).
        rewrite Hp. apply Hs. discriminate.
      + change (raw_of (with_raw ?r s0')) with r.
        rewrite table_round_trip by assumption.
        now apply drop_empty_models_id. }
  destruct Hload2 as (s2' & Hlff' & Hraw2 & Hdisk2 & Hldr2).
  destruct (loader_load_loader st2 _ st1 Hload) as [Hcls Hnames].
  destruct (loader_load_same st2 s2' (Ok tt) st1) as (s3' & Hload' & Hloaded');
    [rewrite Hldr2, Hl; exact Hcls | rewrite Hldr2, Hl; exact Hnames
    |exact Hload|].
  destruct (loader_load_frame s2' _ s3' Hload') as (Hr3 & Hd3 & _).
  assert (Hsetup' : MetricsPipeline.run_setup this st' = (Ok datasets, s3')).
  { rewrite Hds, <- Hloaded'.
    apply (run_setup_ok_intro this st' s2' s3' Hlff' Hload').
    rewrite Hloaded', <- Hds. exact Hdne. }
  destruct (run_setup_frame this st' _ s3' Hsetup')
    as (_ & Hdisk' & (d0 & Ht0 & Hc0 & Hs0) & _).
  destruct (run_pairs_all_stored this
              (Dict.len datasets * Dict.len (models this))
              (list_prod (Dict.items (models this)) (Dict.items datasets))
              0 s3')
    as (sf & df & Hpairs & Htf & Hcf & Hsf & Hrf & Hdf & _).
  { intros m model d info Hin. unfold raw_of. rewrite Hr3.
    fold (raw_of s2'). rewrite Hraw2. eapply Hall. exact Hin. }
  exists (logged (Info FinishedAllEvaluations) sf),
         (d0 ++ df ++ [Info FinishedAllEvaluations]).
  split; [rewrite (run_eq this st' datasets s3' Hsetup'), Hpairs; reflexivity|].
  split.
  { change (trace (logged (Info FinishedAllEvaluations) sf))
      with (trace sf ++ [Info FinishedAllEvaluations]).
    rewrite Htf, Ht0, <- !app_assoc. reflexivity. }
  rewrite !evaluator_calls_app, !saves_app, Hc0, Hs0, Hcf, Hsf.
  split; [reflexivity|]. split; [reflexivity|].
  split; [simpl; congruence|].
  change (raw_of (logged (Info FinishedAllEvaluations) sf)) with (raw_of sf).
  change (raw_of st') with (raw_of stL).
  unfold raw_of in *. rewrite Hrf, Hr3. exact Hraw2.
Qed.

Lemma rerun_evaluates_nothing_witness :
  let st := Lab.boot "metrics.csv" NormalizedLoader ["emotions"; "scene"] in
  let st' := snd (MetricsPipeline.run Lab.two_models st) in
  (forall df, @read_csv _ Lab.world (to_csv df) = inr df) /\
  wf_store (raw_of st) /\ no_empty_model (raw_of st) /\
  MetricsPipeline.run Lab.two_models st = (Ok tt, st') /\
  List.length (evaluator_calls (trace st')) = 4%nat /\
  exists st'',
    MetricsPipeline.run Lab.two_models st' = (Ok tt, st'') /\
    List.length (evaluator_calls (trace st'')) = 4%nat /\
    raw_of st'' = raw_of st'.
Proof.
  intros st st'.
  assert (Hcodec : forall df, @read_csv _ Lab.world (to_csv df) = inr df)
    by reflexivity.
  assert (Hwf : wf_store (raw_of st)) by (split; constructor).
  assert (Hne : no_empty_model (raw_of st)) by constructor.
  assert (Hrun : MetricsPipeline.run Lab.two_models st = (Ok tt, st'))
    by (vm_compute; reflexivity).
  assert (Hfour : List.length (evaluator_calls (trace st')) = 4%nat)
    by (vm_compute; reflexivity).
  split; [exact Hcodec|]. split; [exact Hwf|]. split; [exact Hne|].
  split; [exact Hrun|]. split; [exact Hfour|].
  destruct (rerun_evaluates_nothing Hcodec Lab.two_models st st' Hwf Hne Hrun)
    as (st'' & delta & Hrun' & Ht & Hc & _ & _ & Hraw).
  exists st''. split; [exact Hrun'|]. split; [|exact Hraw].
  rewrite Ht, evaluator_calls_app, Hc, app_nil_r. exact Hfour.
Defined.

(* ================================================================== *)
(** * The configuration of [main.py] *)

Lemma loader_load_keys_eq {T : Types} {Ext : Externals T} (st st1 : State) :
  MetricsPipeline.datasets_loader_load st = (Ok tt, st1) ->
  Dict.keys (loaded_of st1) =
  first_occurrences (dataset_names (datasets_loader st)).
Proof.
  rewrite loader_load_eq.
  destruct (for_each _ _ tt (cleared st)) as [[[]|e] st2] eqn:E;
    [|discriminate].
  intros [= <-].
  destruct (load_loop_ok _ _ (cleared st) (load_loop_ok_inv _ _ _ _ E))
    as (st2' & E' & _ & _ & _ & _ & _ & Hk).
  rewrite E in E'. injection E' as <-. exact Hk.
Qed.

Lemma fetch_normalized_corpus {T : Types} {Ext : Externals T} name info :
  endswith name ".arff" = false ->
  fetch NormalizedLoader name = Ok info ->
  exists X0 y0,
    load_dataset name "undivided" = inr (Some (X0, y0)) /\
    X info = fit_transform X0 /\ y info = y0.
Proof.
  unfold fetch. intros ->.
  destruct (load_dataset name "undivided") as [e|[[X0 y0]|]];
    try discriminate.
  intros [= <-]. exists X0, y0. repeat split.
Qed.

(** X17. The objects [main.py] builds fit the checks of the pipeline. The
    path of the repository is
    [./data/metrics_knn_normalized_n_folds=10.csv]: [build_repository]
    never raises "only CSV files are supported" (it raises only what
    [read_csv] raises) and starts from an empty store when the file is not
    there. The eight identifiers of the catalog are distinct and none is
    an attribute file: when its [load] returns, the catalog lists exactly
    these eight, in this order, each with the scaled feature matrix of the
    corpus dataset of that name. *)
Theorem main_builders_fit_the_pipeline {T : Types} {Ext : Externals T} :
  (forall st, exists o st',
     Main.build_repository st = (o, st') /\
     path_of st' = "./data/metrics_knn_normalized_n_folds=10.csv" /\
     (forall e, o = Raise e -> exists fe, e = Foreign fe) /\
     (disk st "./data/metrics_knn_normalized_n_folds=10.csv" = None ->
      o = Ok tt /\ raw_of st' = Dict.empty)) /\
  (forall st st1,
     (Main.build_dataset_loader ;; MetricsPipeline.datasets_loader_load) st =
       (Ok tt, st1) ->
     Dict.keys (loaded_of st1) =
       [ "birds"; "emotions"; "scene"; "yeast"; "enron"; "genbase";
         "medical"; "tmc2007_500" ] /\
     forall name info,
       Dict.get name (loaded_of st1) = Some info ->
       exists X0 y0,
         load_dataset name "undivided" = inr (Some (X0, y0)) /\
         X info = fit_transform X0 /\ y info = y0).
Proof.
  split.
  - intros st.
    set (s0 := mkState (mkRepository Main.PIPELINE_RESULTS_FILE Dict.empty None)
                       (datasets_loader st) (disk st) (trace st)).
    assert (Hb : Main.build_repository st =
                 MetricsPipelineRepository.load_from_file s0) by reflexivity.
    assert (Hcsv : endswith (path_of s0) ".csv" = true) by reflexivity.
    rewrite Hb.
    destruct (disk s0 (path_of s0)) as [content|] eqn:D.
    + destruct (read_csv content) as [fe|df] eqn:R.
      * rewrite (load_from_file_unreadable s0 content fe Hcsv D R).
        do 2 eexists. split; [reflexivity|]. split; [reflexivity|].
        split; [intros e [= <-]; eauto|].
        intros Hnone. change (disk st Main.PIPELINE_RESULTS_FILE = None) in Hnone.
        change (disk st Main.PIPELINE_RESULTS_FILE = Some content) in D.
        congruence.
      * rewrite (load_from_file_present s0 content df Hcsv D R).
        do 2 eexists. split; [reflexivity|]. split; [reflexivity|].
        split; [discriminate|].
        intros Hnone. change (disk st Main.PIPELINE_RESULTS_FILE = None) in Hnone.
        change (disk st Main.PIPELINE_RESULTS_FILE = Some content) in D.
        congruence.
    + rewrite (load_from_file_missing s0 Hcsv D).
      do 2 eexists. split; [reflexivity|]. split; [reflexivity|].
      split; [discriminate|]. intros _. split; reflexivity.
  - intros st st1 Hload. unfold bind in Hload. simpl in Hload.
    pose proof (loader_load_keys_eq _ _ Hload) as Hk. simpl in Hk.
    assert (Hkeys : Dict.keys (loaded_of st1) =
                    [ "birds"; "emotions"; "scene"; "yeast"; "enron";
                      "genbase"; "medical"; "tmc2007_500" ])
      by (rewrite Hk; reflexivity).
    split; [exact Hkeys|].
    intros name info Hg.
    pose proof (loader_load_entries _ _ _ Hload name info Hg) as Hf.
    simpl in Hf. apply fetch_normalized_corpus; [|exact Hf].
    assert (Hin : In name (Dict.keys (loaded_of st1))).
    { apply contains_In. unfold Dict.contains. now rewrite Hg. }
    rewrite Hkeys in Hin. simpl in Hin.
    repeat (destruct Hin as [<-|Hin]; [reflexivity|]). contradiction.
Qed.

Lemma main_builders_fit_the_pipeline_witness :
  let st := Lab.boot "elsewhere.txt" PlainLoader [] in
  (exists st',
     @Main.build_repository _ Lab.full_corpus st = (Ok tt, st') /\
     raw_of st' = Dict.empty) /\
  exists st1,
    (@Main.build_dataset_loader _ ;;
     @MetricsPipeline.datasets_loader_load _ Lab.full_corpus) st = (Ok tt, st1) /\
    List.length (Dict.keys (loaded_of st1)) = 8%nat.
Proof.
  intros st.
  destruct (@main_builders_fit_the_pipeline _ Lab.full_corpus) as [Hrepo Hcat].
  split.
  - destruct (Hrepo st) as (o & st' & Hb & _ & _ & Hempty).
    destruct (Hempty eq_refl) as [-> Hraw]. eauto.
  - assert (Hload : (@Main.build_dataset_loader _ ;;
                     @MetricsPipeline.datasets_loader_load _ Lab.full_corpus) st =
                    (Ok tt,
                     snd ((@Main.build_dataset_loader _ ;;
                           @MetricsPipeline.datasets_loader_load _
                             Lab.full_corpus) st)))
      by (vm_compute; reflexivity).
    eexists. split; [exact Hload|].
    rewrite (proj1 (Hcat st _ Hload)). reflexivity.
Defined.
